(** * xray_reality_qr: extraction of a VLESS Reality inbound and share-link construction

    A shallow embedding of [scripts/xray_reality_qr.py], and of the commands
    of [scripts/vpn_cli.py] that call it.  Python values are modelled as
    follows.

    - [str] is a sequence of Unicode code points, [list N].
    - The value returned by [json.loads] is a [json] tree.
    - [raise UserError(f"...")] is a value of the inductive [UserError]: one
      constructor for each raise site, carrying the values interpolated into
      the message.
    - Functions that may raise return [res A].
    - A program that acts on the world outside returns the outputs it made
      and a value or an exception, [io A]; the world is a record of what
      each outside call gives. *)

From Stdlib Require Import List ZArith NArith Lia Bool Ascii String.
From Stdlib Require Import Floats.SpecFloat.
Import ListNotations.

Local Open Scope N_scope.

(* ================================================================= *)
(** ** Python strings *)

Module PyStr.

Definition str := list N.

(** A string literal of the source: the code points of an ASCII literal. *)
Definition py (s : string) : str := map N_of_ascii (list_ascii_of_string s).

Definition str_eqb (a b : str) : bool :=
  if list_eq_dec N.eq_dec a b then true else false.

Definition is_empty (s : str) : bool :=
  match s with [] => true | _ :: _ => false end.

(** [c.isspace()], also the class [\s] of [re] on [str] patterns. *)
Definition isspace (c : N) : bool :=
  ((9 <=? c) && (c <=? 13)) || ((28 <=? c) && (c <=? 32))
  || (c =? 133) || (c =? 160) || (c =? 5760)
  || ((8192 <=? c) && (c <=? 8202))
  || (c =? 8232) || (c =? 8233) || (c =? 8239) || (c =? 8287) || (c =? 12288).

Fixpoint dropwhile (p : N -> bool) (s : str) : str :=
  match s with
  | [] => []
  | c :: rest => if p c then dropwhile p rest else s
  end.

Fixpoint takewhile (p : N -> bool) (s : str) : str :=
  match s with
  | [] => []
  | c :: rest => if p c then c :: takewhile p rest else []
  end.

Definition lstrip_by (p : N -> bool) (s : str) : str := dropwhile p s.
Definition rstrip_by (p : N -> bool) (s : str) : str := rev (dropwhile p (rev s)).
Definition strip_by (p : N -> bool) (s : str) : str := rstrip_by p (lstrip_by p s).

(** [s.strip()] *)
Definition strip (s : str) : str := strip_by isspace s.

(** [s.strip(chars)] *)
Definition strip_chars (chars : str) (s : str) : str :=
  strip_by (fun c => existsb (N.eqb c) chars) s.

Fixpoint startswith (pat s : str) : bool :=
  match pat, s with
  | [], _ => true
  | _ :: _, [] => false
  | p :: pat', c :: s' => (p =? c) && startswith pat' s'
  end.

(** [s.replace(old, "")] for a non-empty [old]: occurrences are found from
    the left and do not overlap.  [skip] counts the characters of the current
    occurrence that are still to be dropped. *)
Fixpoint remove_from (old : str) (skip : nat) (s : str) : str :=
  match s with
  | [] => []
  | c :: rest =>
      match skip with
      | S k => remove_from old k rest
      | O => if startswith old s
             then remove_from old (pred (List.length old)) rest
             else c :: remove_from old O rest
      end
  end.

Definition replace_with_empty (old s : str) : str := remove_from old O s.

(** [s.lower()] on ASCII letters.  The source calls it only on a string that
    passed [_validate_short_id], whose characters are ASCII hex digits. *)
Definition lower_char (c : N) : N :=
  if (65 <=? c) && (c <=? 90) then c + 32 else c.
Definition lower (s : str) : str := map lower_char s.

Fixpoint str_of_uint (d : Decimal.uint) : str :=
  match d with
  | Decimal.Nil => []
  | Decimal.D0 d => 48 :: str_of_uint d
  | Decimal.D1 d => 49 :: str_of_uint d
  | Decimal.D2 d => 50 :: str_of_uint d
  | Decimal.D3 d => 51 :: str_of_uint d
  | Decimal.D4 d => 52 :: str_of_uint d
  | Decimal.D5 d => 53 :: str_of_uint d
  | Decimal.D6 d => 54 :: str_of_uint d
  | Decimal.D7 d => 55 :: str_of_uint d
  | Decimal.D8 d => 56 :: str_of_uint d
  | Decimal.D9 d => 57 :: str_of_uint d
  end.

(** [str(n)] for an [int], as an f-string prints it. *)
Definition str_of_int (z : Z) : str :=
  match Z.to_int z with
  | Decimal.Pos d => str_of_uint d
  | Decimal.Neg d => 45 :: str_of_uint d
  end.

(** [sep.join(parts)] *)
Fixpoint join (sep : str) (parts : list str) : str :=
  match parts with
  | [] => []
  | [p] => p
  | p :: rest => p ++ sep ++ join sep rest
  end.

End PyStr.
Export PyStr.

(* ================================================================= *)
(** ** JSON documents *)

Module Json.

(** The value [json.loads] returns.  A [dict] is the sequence of its
    bindings in insertion order; a key bound twice has its last binding. *)
#[warnings="-register-all"]
Inductive json :=
| JNull
| JBool (b : bool)
| JInt (z : Z)
| JFloat (f : spec_float)
| JString (s : str)
| JArray (items : list json)
| JObject (members : list (str * json)).

Definition dict := list (str * json).

Fixpoint dict_find (d : dict) (k : str) : option json :=
  match d with
  | [] => None
  | (k', v) :: rest =>
      match dict_find rest k with
      | Some w => Some w
      | None => if str_eqb k' k then Some v else None
      end
  end.

(** [d.get(k)]: the value, or [None] (which JSON [null] also loads to). *)
Definition dict_get (d : dict) (k : str) : json :=
  match dict_find d k with
  | Some v => v
  | None => JNull
  end.

(** [type(v).__name__] *)
Definition type_name (v : json) : str :=
  match v with
  | JNull => py "NoneType"
  | JBool _ => py "bool"
  | JInt _ => py "int"
  | JFloat _ => py "float"
  | JString _ => py "str"
  | JArray _ => py "list"
  | JObject _ => py "dict"
  end.

(** [isinstance(v, bool)] and [isinstance(v, int)]: [bool] is a subclass of
    [int], so [True] and [False] are instances of [int] as well. *)
Definition isinstance_bool (v : json) : bool :=
  match v with JBool _ => true | _ => false end.

Definition isinstance_int (v : json) : bool :=
  match v with JBool _ | JInt _ => true | _ => false end.

(** The integer an instance of [int] stands for ([True] is 1, [False] is 0). *)
Definition int_value (v : json) : Z :=
  match v with
  | JInt z => z
  | JBool true => 1%Z
  | _ => 0%Z
  end.

Definition json_is_str (v : json) (s : str) : bool :=
  match v with JString t => str_eqb t s | _ => false end.

End Json.
Export Json.

(* ================================================================= *)
(** ** Errors *)

Module Errors.

(** [UserError]: one constructor for each [raise UserError(...)] of the
    source, with the values its message interpolates.

    - [ExpectedObject]: "Expected object at {where}, got {type(v).__name__}"
    - [ExpectedArray]: "Expected array at {where}, got {type(v).__name__}"
    - [ExpectedNonEmptyString]: "Expected non-empty string at {where}"
    - [ExpectedInteger]: "Expected integer at {where}"
    - [InvalidUUID]: "Invalid UUID: {u}"
    - [ShortIdNotHex]: "shortId must be hex, got: {sid}"
    - [ShortIdOddLength]: "shortId must have even length, got len={len(sid)} ({sid})"
    - [PrivateKeyBadFormat]: "privateKey has unexpected format: {pk}"
    - [NoInbounds]: "No inbounds found in config"
    - [ProtocolNotVless]: "inbounds[{idx}] protocol is not vless: {protocol!r}"
    - [PortOutOfRange]: "inbounds[{idx}].port out of range: {port}"
    - [ClientsEmpty]: "inbounds[{idx}].settings.clients is empty"
    - [SecurityNotReality]: "inbounds[{idx}] streamSettings.security is not reality: {security!r}"
    - [ServerNamesEmpty], [ShortIdsEmpty]: "inbounds[{idx}]...serverNames is empty", "...shortIds is empty"
    - [InboundIndexOutOfRange]: "--inbound-index {inbound_index} is out of range (0..{len(inbounds)-1})"
    - [NoMatchingInbound]: "No matching inbound found (need protocol=vless + security=reality). Last error: {last_err}"
    - [XrayNotFound]: "xray binary not found in PATH. ..."
    - [XrayFailed]: "xray x25519 -i failed (exit {proc.returncode}). Output:\n{out}..."
    - [PublicKeyParseFailed]: "Failed to parse public key from xray output:\n{out}"
    - [PublicKeyBadFormat]: "Parsed publicKey has unexpected format: {pub}" *)
#[warnings="-register-all"]
Inductive UserError :=
| ExpectedObject (where_ tyname : str)
| ExpectedArray (where_ tyname : str)
| ExpectedNonEmptyString (where_ : str)
| ExpectedInteger (where_ : str)
| InvalidUUID (u : str)
| ShortIdNotHex (sid : str)
| ShortIdOddLength (len : nat) (sid : str)
| PrivateKeyBadFormat (pk : str)
| NoInbounds
| ProtocolNotVless (idx : Z) (protocol : json)
| PortOutOfRange (idx : Z) (port : Z)
| ClientsEmpty (idx : Z)
| SecurityNotReality (idx : Z) (security : str)
| ServerNamesEmpty (idx : Z)
| ShortIdsEmpty (idx : Z)
| InboundIndexOutOfRange (inbound_index : Z) (upper : Z)
| NoMatchingInbound (last_err : option UserError)
| XrayNotFound
| XrayFailed (returncode : Z) (out : str)
| PublicKeyParseFailed (out : str)
| PublicKeyBadFormat (pub : str).

(** The outcome of a call that may raise. *)
Inductive res (A : Type) :=
| Ok (a : A)
| Raise (e : UserError).

Arguments Ok {A} a.
Arguments Raise {A} e.

Definition bind {A B : Type} (m : res A) (k : A -> res B) : res B :=
  match m with
  | Ok a => k a
  | Raise e => Raise e
  end.

End Errors.
Export Errors.

Notation "x <- m ;; k" := (bind m (fun x => k))
  (at level 61, m at next level, right associativity).
Notation "m ;;; k" := (bind m (fun _ => k))
  (at level 61, right associativity).

(* ================================================================= *)
(** ** Regular expressions of the source *)

Module Re.

Definition in_range (lo hi c : N) : bool := (lo <=? c) && (c <=? hi).

(** The class [[0-9a-fA-F]]. *)
Definition is_hex (c : N) : bool :=
  in_range 48 57 c || in_range 97 102 c || in_range 65 70 c.

(** The class [[A-Za-z0-9_-]]. *)
Definition is_b64url (c : N) : bool :=
  in_range 65 90 c || in_range 97 122 c || in_range 48 57 c
  || (c =? 95) || (c =? 45).

(** [re.compile("^[cls]{lo,}$").match(s)] without [MULTILINE], for a class
    that does not hold the newline: the longest run of class characters from
    the start has at least [lo] of them, and [$] holds after it, which is at
    the end of the string or just before a newline that ends the string. *)
Definition match_class_run (cls : N -> bool) (lo : nat) (s : str) : bool :=
  let run := takewhile cls s in
  let rest := dropwhile cls s in
  (lo <=? List.length run)%nat && (str_eqb rest [] || str_eqb rest [10]).

(** [_HEX_RE = re.compile(r"^[0-9a-fA-F]+$")], [_HEX_RE.match(s)] *)
Definition _HEX_RE_match (s : str) : bool := match_class_run is_hex 1 s.

(** [_B64URL_RE = re.compile(r"^[A-Za-z0-9_-]{32,}$")], [_B64URL_RE.match(s)] *)
Definition _B64URL_RE_match (s : str) : bool := match_class_run is_b64url 32 s.

(** One attempt of [^(?:Password|PublicKey):\s*(\S+)\s*$] at a position where
    [^] holds; [s] is the rest of the string from there.  After the label,
    [\s*] takes the longest run of white space (line breaks are white space),
    [(\S+)] the longest run of other characters, which must not be empty.
    [\s*$] then succeeds when the white space after the token reaches the end
    of the string or holds a newline: [$] with [MULTILINE] holds at the end
    and before every newline.  A shorter [\S+] is followed by a character of
    the token, where [\s*$] fails, so the attempt has no other outcome. *)
Definition match_label_here (s : str) : option str :=
  let after_label :=
    if startswith (py "Password:") s then Some (skipn 9 s)
    else if startswith (py "PublicKey:") s then Some (skipn 10 s)
    else None in
  match after_label with
  | None => None
  | Some r =>
      let r1 := dropwhile isspace r in
      let tok := takewhile (fun c => negb (isspace c)) r1 in
      let r2 := dropwhile (fun c => negb (isspace c)) r1 in
      let ws := takewhile isspace r2 in
      let r3 := dropwhile isspace r2 in
      if is_empty tok then None
      else if is_empty r3 || existsb (N.eqb 10) ws then Some tok
      else None
  end.

(** [re.search(..., out, flags=re.MULTILINE)]: the leftmost position where an
    attempt succeeds.  [^] holds at the start of the string and after every
    newline; [bol] tells whether it holds at the head of [s]. *)
Fixpoint search_label (bol : bool) (s : str) : option str :=
  match (if bol then match_label_here s else None) with
  | Some tok => Some tok
  | None =>
      match s with
      | [] => None
      | c :: rest => search_label (c =? 10) rest
      end
  end.

(** [m = re.search(r"^(?:Password|PublicKey):\s*(\S+)\s*$", out, re.MULTILINE)],
    then [m.group(1)]; [None] when there is no match. *)
Definition search_public_key (out : str) : option str := search_label true out.

End Re.
Export Re.

(* ================================================================= *)
(** ** [uuid.UUID(hex)] of the standard library *)

Module PyUuid.

(** First code points of the runs of ten decimal digits of the Unicode
    database (version 14.0). *)
Definition decimal_zero_starts : list N :=
  [ 48; 1632; 1776; 1984; 2406; 2534; 2662; 2790; 2918; 3046; 3174; 3302;
    3430; 3558; 3664; 3792; 3872; 4160; 4240; 6112; 6160; 6470; 6608; 6784;
    6800; 6992; 7088; 7232; 7248; 42528; 43216; 43264; 43472; 43504; 43600;
    44016; 65296; 66720; 68912; 69734; 69872; 69942; 70096; 70384; 70736;
    70864; 71248; 71360; 71472; 71904; 72016; 72784; 73040; 73120; 92768;
    92864; 93008; 120782; 120792; 120802; 120812; 120822; 123200; 123632;
    125264; 130032 ].

(** [Py_UNICODE_TODECIMAL] *)
Definition unicode_decimal (c : N) : option N :=
  match find (fun z => (z <=? c) && (c <? z + 10)) decimal_zero_starts with
  | Some z => Some (c - z)
  | None => None
  end.

(** [_PyUnicode_TransformDecimalAndSpaceToASCII]: an ASCII string is
    returned as it is; otherwise white space becomes a blank, a decimal digit
    its ASCII digit, and the result ends with [?] at the first other
    character that is not below 127. *)
Fixpoint transform_decimal_and_space (s : str) : str :=
  match s with
  | [] => []
  | c :: rest =>
      if c <? 127 then c :: transform_decimal_and_space rest
      else if isspace c then 32 :: transform_decimal_and_space rest
      else match unicode_decimal c with
           | Some d => (48 + d) :: transform_decimal_and_space rest
           | None => [63]
           end
  end.

Definition to_ascii_decimal_and_space (s : str) : str :=
  if forallb (fun c => c <? 128) s then s else transform_decimal_and_space s.

(** [Py_ISSPACE] *)
Definition Py_ISSPACE (c : N) : bool := Re.in_range 9 13 c || (c =? 32).

(** [_PyLong_DigitValue[c] < 16] *)
Definition hex_digit_value (c : N) : option Z :=
  if Re.in_range 48 57 c then Some (Z.of_N (c - 48))
  else if Re.in_range 97 102 c then Some (Z.of_N (c - 87))
  else if Re.in_range 65 70 c then Some (Z.of_N (c - 55))
  else None.

(** The digit loop of [long_from_binary_base]: digits with single
    underscores between them.  [prev_us] tells whether the previous character
    was an underscore; the result is the value, the number of digits and the
    rest of the input. *)
Fixpoint scan_hex_digits (prev_us : bool) (acc : Z) (n : nat) (s : str)
  : option (Z * nat * str) :=
  match s with
  | [] => if prev_us then None else Some (acc, n, [])
  | c :: rest =>
      if c =? 95 then
        if prev_us then None else scan_hex_digits true acc n rest
      else
        match hex_digit_value c with
        | Some d => scan_hex_digits false (16 * acc + d)%Z (S n) rest
        | None => if prev_us then None else Some (acc, n, s)
        end
  end.

(** The sign that [PyLong_FromString] reads, and the rest of the input. *)
Definition parse_sign (s : str) : Z * str :=
  match s with
  | 43 :: r => (1%Z, r)
  | 45 :: r => ((-1)%Z, r)
  | _ => (1%Z, s)
  end.

(** The prefix [0x] or [0X] that base 16 allows, with the one underscore
    that may follow it. *)
Definition skip_prefix_16 (s : str) : str :=
  match s with
  | 48 :: x :: r =>
      if (x =? 120) || (x =? 88)
      then match r with 95 :: r' => r' | _ => r end
      else s
  | _ => s
  end.

(** [PyLong_FromString(s, base=16)] on the transformed string: leading
    blanks, a sign, the prefix, the digits, which may not start with an
    underscore and must be there, trailing blanks, and nothing else. *)
Definition long_from_string_16 (s : str) : option Z :=
  let s1 := dropwhile Py_ISSPACE s in
  let '(sign, s2) := parse_sign s1 in
  let s3 := skip_prefix_16 s2 in
  if startswith [95] s3 then None
  else
    match scan_hex_digits false 0%Z O s3 with
    | None => None
    | Some (v, n, rest) =>
        match n with
        | O => None
        | S _ =>
            if is_empty (dropwhile Py_ISSPACE rest)
            then Some (sign * v)%Z
            else None
        end
    end.

(** [int(s, 16)] for a [str]; [None] stands for [ValueError]. *)
Definition int_16 (s : str) : option Z :=
  long_from_string_16 (to_ascii_decimal_and_space s).

(** [uuid.UUID(hex)]: the 128-bit integer, or [None] for [ValueError]. *)
Definition UUID (hex : str) : option Z :=
  let hex := replace_with_empty (py "uuid:") (replace_with_empty (py "urn:") hex) in
  let hex := replace_with_empty (py "-") (strip_chars (py "{}") hex) in
  if negb (List.length hex =? 32)%nat then None
  else
    match int_16 hex with
    | None => None
    | Some i => if ((0 <=? i) && (i <? 2 ^ 128))%Z then Some i else None
    end.

End PyUuid.

(* ================================================================= *)
(** ** Accessors, validators and the extraction of an inbound *)

(** [@dataclass(frozen=True) class RealityInbound] *)
Record RealityInbound := {
  uuid : str;
  flow : option str;
  port : Z;
  network : str;
  sni : str;
  short_id : str;
  private_key : str
}.

(** [not l] for a list *)
Definition is_empty_list {A : Type} (l : list A) : bool :=
  match l with [] => true | _ :: _ => false end.

Definition _expect_dict (v : json) (where_ : str) : res dict :=
  match v with
  | JObject d => Ok d
  | _ => Raise (ExpectedObject where_ (type_name v))
  end.

Definition _expect_list (v : json) (where_ : str) : res (list json) :=
  match v with
  | JArray l => Ok l
  | _ => Raise (ExpectedArray where_ (type_name v))
  end.

Definition _expect_str (v : json) (where_ : str) : res str :=
  match v with
  | JString s =>
      if is_empty (strip s) then Raise (ExpectedNonEmptyString where_)
      else Ok (strip s)
  | _ => Raise (ExpectedNonEmptyString where_)
  end.

Definition _expect_int (v : json) (where_ : str) : res Z :=
  if isinstance_bool v || negb (isinstance_int v)
  then Raise (ExpectedInteger where_)
  else Ok (int_value v).

Definition _validate_uuid (u : str) : res unit :=
  match PyUuid.UUID u with
  | Some _ => Ok tt
  | None => Raise (InvalidUUID u)
  end.

Definition _validate_short_id (sid : str) : res unit :=
  if negb (_HEX_RE_match sid) then Raise (ShortIdNotHex sid)
  else if negb (Nat.even (List.length sid))
       then Raise (ShortIdOddLength (List.length sid) sid)
       else Ok tt.

Definition _validate_private_key (pk : str) : res unit :=
  if negb (_B64URL_RE_match pk) then Raise (PrivateKeyBadFormat pk)
  else Ok tt.

(** f"inbounds[{idx}]" followed by [suffix]. *)
Definition at_inbound (idx : Z) (suffix : string) : str :=
  py "inbounds[" ++ str_of_int idx ++ py "]" ++ py suffix.

(** The nested function [parse_one] of [_select_inbound]. *)
Definition parse_one (idx : Z) (inbound_any : json) : res RealityInbound :=
  ib <- _expect_dict inbound_any (at_inbound idx "") ;;
  let protocol := dict_get ib (py "protocol") in
  if negb (json_is_str protocol (py "vless"))
  then Raise (ProtocolNotVless idx protocol)
  else
  port <- _expect_int (dict_get ib (py "port")) (at_inbound idx ".port") ;;
  if negb ((1 <=? port) && (port <=? 65535))%Z
  then Raise (PortOutOfRange idx port)
  else
  settings <- _expect_dict (dict_get ib (py "settings")) (at_inbound idx ".settings") ;;
  clients <- _expect_list (dict_get settings (py "clients"))
                          (at_inbound idx ".settings.clients") ;;
  match clients with
  | [] => Raise (ClientsEmpty idx)
  | client0 :: _ =>
  c0 <- _expect_dict client0 (at_inbound idx ".settings.clients[0]") ;;
  uuid <- _expect_str (dict_get c0 (py "id")) (at_inbound idx ".settings.clients[0].id") ;;
  flow <- match dict_get c0 (py "flow") with
          | JNull => Ok None
          | fl => f <- _expect_str fl (at_inbound idx ".settings.clients[0].flow") ;;
                  Ok (Some f)
          end ;;
  stream <- _expect_dict (dict_get ib (py "streamSettings"))
                         (at_inbound idx ".streamSettings") ;;
  network <- _expect_str (dict_get stream (py "network"))
                         (at_inbound idx ".streamSettings.network") ;;
  security <- _expect_str (dict_get stream (py "security"))
                          (at_inbound idx ".streamSettings.security") ;;
  if negb (str_eqb security (py "reality"))
  then Raise (SecurityNotReality idx security)
  else
  reality <- _expect_dict (dict_get stream (py "realitySettings"))
                          (at_inbound idx ".streamSettings.realitySettings") ;;
  server_names <- _expect_list (dict_get reality (py "serverNames"))
                    (at_inbound idx ".streamSettings.realitySettings.serverNames") ;;
  match server_names with
  | [] => Raise (ServerNamesEmpty idx)
  | server_name0 :: _ =>
  sni <- _expect_str server_name0
           (at_inbound idx ".streamSettings.realitySettings.serverNames[0]") ;;
  short_ids <- _expect_list (dict_get reality (py "shortIds"))
                 (at_inbound idx ".streamSettings.realitySettings.shortIds") ;;
  match short_ids with
  | [] => Raise (ShortIdsEmpty idx)
  | short_id0 :: _ =>
  short_id <- _expect_str short_id0
                (at_inbound idx ".streamSettings.realitySettings.shortIds[0]") ;;
  private_key <- _expect_str (dict_get reality (py "privateKey"))
                   (at_inbound idx ".streamSettings.realitySettings.privateKey") ;;
  _validate_uuid uuid ;;;
  _validate_short_id short_id ;;;
  _validate_private_key private_key ;;;
  Ok {| uuid := uuid;
        flow := flow;
        port := port;
        network := network;
        sni := sni;
        short_id := lower short_id;
        private_key := private_key |}
  end end end.

(** The loop [for idx, ib in enumerate(inbounds)] with its [try]/[except]:
    [idx] is the index of the head of [inbounds], [last_err] the exception of
    the latest failed candidate. *)
Fixpoint scan_inbounds (idx : Z) (inbounds : list json)
    (last_err : option UserError) : res RealityInbound :=
  match inbounds with
  | [] => Raise (NoMatchingInbound last_err)
  | ib :: rest =>
      match parse_one idx ib with
      | Ok r => Ok r
      | Raise e => scan_inbounds (idx + 1)%Z rest (Some e)
      end
  end.

Definition _select_inbound (cfg : dict) (inbound_index : option Z)
  : res RealityInbound :=
  inbounds <- _expect_list (dict_get cfg (py "inbounds")) (py "inbounds") ;;
  if is_empty_list inbounds then Raise NoInbounds
  else
    match inbound_index with
    | Some i =>
        if ((i <? 0) || (i >=? Z.of_nat (List.length inbounds)))%Z
        then Raise (InboundIndexOutOfRange i (Z.of_nat (List.length inbounds) - 1)%Z)
        else parse_one i (nth (Z.to_nat i) inbounds JNull)
    | None => scan_inbounds 0%Z inbounds None
    end.

(* ================================================================= *)
(** ** Derivation of the public key *)

(** What [subprocess.run([xray, "x25519", "-i", private_key], check=False,
    stdout=PIPE, stderr=STDOUT, text=True)] does: it raises
    [FileNotFoundError]; or it raises another exception, such as
    [PermissionError] for a program that cannot be executed (the empty name
    is one) and [UnicodeDecodeError] for an output that is not text; or the
    process completes with an exit status and its combined output. *)
Inductive proc_outcome :=
| FileNotFound
| OtherError
| Completed (returncode : Z) (stdout : str).

(** What a call gives through which an exception other than [UserError] can
    pass: what it returns or the [UserError] it raises, or that exception. *)
Inductive outcome (A : Type) :=
| Within (r : res A)
| Escaped.

Arguments Within {A} r.
Arguments Escaped {A}.

Coercion Within : res >-> outcome.

Section KeyDeriver.

(** [os.environ.get("XRAY_BIN")] *)
Variable env_XRAY_BIN : option str.
(** The external program, from the argument vector. *)
Variable subprocess_run : list str -> proc_outcome.

Definition compute_public_key_from_private (private_key : str) : outcome str :=
  let xray := match env_XRAY_BIN with Some x => x | None => py "xray" end in
  match subprocess_run [xray; py "x25519"; py "-i"; private_key] with
  | FileNotFound => Raise XrayNotFound
  | OtherError => Escaped
  | Completed returncode stdout =>
      let out := strip stdout in
      if negb (returncode =? 0)%Z then Raise (XrayFailed returncode out)
      else
        match search_public_key out with
        | None => Raise (PublicKeyParseFailed out)
        | Some g1 =>
            let pub := strip g1 in
            if negb (_B64URL_RE_match pub) then Raise (PublicKeyBadFormat pub)
            else Ok pub
        end
  end.

End KeyDeriver.

(* ================================================================= *)
(** ** [urllib.parse.quote] and [urlencode] *)

Module UrlQuote.

(** A byte is a number below 256. *)
Definition bytes := list N.

(** [c.encode("utf-8", "strict")] for one code point; [None] stands for
    [UnicodeEncodeError], raised for a surrogate. *)
Definition utf8_encode_char (c : N) : option bytes :=
  if c <? 128 then Some [c]
  else if c <? 2048 then Some [192 + c / 64; 128 + c mod 64]
  else if c <? 65536 then
    if (55296 <=? c) && (c <? 57344) then None
    else Some [224 + c / 4096; 128 + (c / 64) mod 64; 128 + c mod 64]
  else if c <? 1114112 then
    Some [240 + c / 262144; 128 + (c / 4096) mod 64;
          128 + (c / 64) mod 64; 128 + c mod 64]
  else None.

(** [s.encode("utf-8", "strict")] *)
Fixpoint utf8_encode (s : str) : option bytes :=
  match s with
  | [] => Some []
  | c :: rest =>
      match utf8_encode_char c, utf8_encode rest with
      | Some b, Some bs => Some (b ++ bs)
      | _, _ => None
      end
  end.

(** [_ALWAYS_SAFE]: letters, digits and [_.-~]. *)
Definition always_safe (b : N) : bool :=
  Re.in_range 65 90 b || Re.in_range 97 122 b || Re.in_range 48 57 b
  || (b =? 95) || (b =? 46) || (b =? 45) || (b =? 126).

Definition hex_upper (d : N) : N := if d <? 10 then 48 + d else 55 + d.

(** [_Quoter.__missing__] with an empty [safe]: the character itself when
    always safe, else ["%{:02X}".format(b)]. *)
Definition quote_byte (b : N) : str :=
  if always_safe b then [b] else [37; hex_upper (b / 16); hex_upper (b mod 16)].

(** [quote_from_bytes(bs, safe="")] *)
Definition quote_from_bytes (bs : bytes) : str := flat_map quote_byte bs.

(** [quote(string, safe="")]; [None] stands for [UnicodeEncodeError]. *)
Definition quote (s : str) : option str :=
  if is_empty s then Some s
  else match utf8_encode s with
       | Some bs => Some (quote_from_bytes bs)
       | None => None
       end.

(** The loop of [urlencode(query, quote_via=quote)] over [query.items()]:
    [quote_via(k, safe="") + "=" + quote_via(v, safe="")] for each pair. *)
Fixpoint urlencode_items (items : list (str * str)) : option (list str) :=
  match items with
  | [] => Some []
  | (k, v) :: rest =>
      match quote k, quote v, urlencode_items rest with
      | Some qk, Some qv, Some l => Some ((qk ++ py "=" ++ qv) :: l)
      | _, _, _ => None
      end
  end.

Definition urlencode (params : list (str * str)) : option str :=
  match urlencode_items params with
  | Some l => Some (join (py "&") l)
  | None => None
  end.

End UrlQuote.
Export UrlQuote.

(* ================================================================= *)
(** ** Construction of the share link *)

(** [params[k] = v] on a [dict[str, str]] kept in insertion order. *)
Fixpoint dict_set (params : list (str * str)) (k v : str) : list (str * str) :=
  match params with
  | [] => [(k, v)]
  | (k', v') :: rest =>
      if str_eqb k' k then (k', v) :: rest else (k', v') :: dict_set rest k v
  end.

(** The truth value of an [Optional[str]]: [None] and [""] are false. *)
Definition truthy (o : option str) : bool :=
  match o with
  | None => false
  | Some s => negb (is_empty s)
  end.

(** [build_vless_link]; [None] stands for the [UnicodeEncodeError] that
    [quote] raises on a string holding a surrogate. *)
Definition build_vless_link (server name fp : str) (inbound : RealityInbound)
    (public_key : str) : option str :=
  let params :=
    [ (py "type", network inbound);
      (py "security", py "reality");
      (py "sni", sni inbound);
      (py "fp", fp);
      (py "pbk", public_key);
      (py "sid", short_id inbound) ] in
  let params :=
    if truthy (flow inbound)
    then dict_set params (py "flow")
           (match flow inbound with Some f => f | None => [] end)
    else params in
  match urlencode params with
  | None => None
  | Some query =>
      match quote name with
      | None => None
      | Some frag =>
          Some (py "vless://" ++ uuid inbound ++ py "@" ++ server ++ py ":"
                ++ str_of_int (port inbound) ++ py "?" ++ query ++ py "#" ++ frag)
      end
  end.

(* ================================================================= *)
(** ** Reference definitions the properties are stated against *)

Module Reference.

(** [n] hexadecimal digits at the head of [s]; the rest of [s]. *)
Fixpoint hex_group (n : nat) (s : str) : option str :=
  match n with
  | O => Some s
  | S k =>
      match s with
      | c :: rest => if is_hex c then hex_group k rest else None
      | [] => None
      end
  end.

(** A hyphen at the head of [s]; the rest of [s]. *)
Definition hyphen (s : str) : option str :=
  match s with
  | c :: rest => if c =? 45 then Some rest else None
  | [] => None
  end.

Definition and_then {A B : Type} (o : option A) (f : A -> option B) : option B :=
  match o with
  | Some a => f a
  | None => None
  end.

(** The canonical text of a UUID: 36 characters, groups of 8, 4, 4, 4 and 12
    hexadecimal digits with a hyphen between them. *)
Definition is_canonical_uuid (s : str) : bool :=
  match
    and_then (and_then (and_then (and_then (and_then (and_then (and_then (and_then
      (hex_group 8 s) hyphen) (hex_group 4)) hyphen) (hex_group 4)) hyphen)
      (hex_group 4)) hyphen) (hex_group 12)
  with
  | Some [] => true
  | _ => false
  end.

(** What [uuid.UUID] reads after it has dropped [urn:], [uuid:], braces at
    both ends and hyphens. *)
Definition uuid_digits (u : str) : str :=
  replace_with_empty (py "-")
    (strip_chars (py "{}")
       (replace_with_empty (py "uuid:") (replace_with_empty (py "urn:") u))).

(** A character that no text read by [int(text, 16)] holds: it is not a
    hexadecimal digit, a decimal digit of Unicode, white space, an
    underscore, a sign, [x] or [X]. *)
Definition outside_literal (c : N) : bool :=
  negb (is_hex c
        || match PyUuid.unicode_decimal c with Some _ => true | None => false end
        || isspace c || PyUuid.Py_ISSPACE c
        || (c =? 95) || (c =? 43) || (c =? 45) || (c =? 120) || (c =? 88)).

(** *** Percent-decoding *)

Definition hex_val (c : N) : option N :=
  if Re.in_range 48 57 c then Some (c - 48)
  else if Re.in_range 97 102 c then Some (c - 87)
  else if Re.in_range 65 70 c then Some (c - 55)
  else None.

(** [urllib.parse.unquote_to_bytes] on an ASCII string: [%] followed by two
    hexadecimal digits is one byte, every other character stands for itself. *)
Fixpoint unquote_to_bytes (s : str) : bytes :=
  match s with
  | [] => []
  | c :: rest =>
      match rest with
      | h :: l :: rest' =>
          match (if c =? 37 then hex_val h else None),
                (if c =? 37 then hex_val l else None) with
          | Some a, Some b => (16 * a + b) :: unquote_to_bytes rest'
          | _, _ => c :: unquote_to_bytes rest
          end
      | _ => c :: unquote_to_bytes rest
      end
  end.

Definition is_cont (b : N) : bool := (128 <=? b) && (b <? 192).

(** [bs.decode("utf-8", "strict")]; [None] stands for [UnicodeDecodeError]
    (overlong forms, surrogates, values above U+10FFFF, broken sequences). *)
Fixpoint utf8_decode (bs : bytes) : option str :=
  match bs with
  | [] => Some []
  | b0 :: r0 =>
      if b0 <? 128 then option_map (cons b0) (utf8_decode r0)
      else if b0 <? 194 then None
      else if b0 <? 224 then
        match r0 with
        | b1 :: r1 =>
            if is_cont b1
            then option_map (cons ((b0 - 192) * 64 + (b1 - 128))) (utf8_decode r1)
            else None
        | _ => None
        end
      else if b0 <? 240 then
        match r0 with
        | b1 :: b2 :: r2 =>
            if is_cont b1 && is_cont b2 then
              let c := (b0 - 224) * 4096 + (b1 - 128) * 64 + (b2 - 128) in
              if (c <? 2048) || ((55296 <=? c) && (c <? 57344)) then None
              else option_map (cons c) (utf8_decode r2)
            else None
        | _ => None
        end
      else if b0 <? 245 then
        match r0 with
        | b1 :: b2 :: b3 :: r3 =>
            if is_cont b1 && is_cont b2 && is_cont b3 then
              let c := (b0 - 240) * 262144 + (b1 - 128) * 4096
                       + (b2 - 128) * 64 + (b3 - 128) in
              if (c <? 65536) || (1114112 <=? c) then None
              else option_map (cons c) (utf8_decode r3)
            else None
        | _ => None
        end
      else None
  end.

(** Percent-decoding of one component, as [urllib.parse.unquote] does it on
    the ASCII text of a URI; [None] when the bytes are not UTF-8 (where
    [unquote] would substitute U+FFFD) or the text is not ASCII. *)
Definition unquote (s : str) : option str :=
  if forallb (fun c => c <? 128) s then utf8_decode (unquote_to_bytes s)
  else None.

(** *** Generic URI syntax *)

(** [s.partition(chr(c))]: the text before the first [c] and the text after
    it; [None] when [c] does not occur. *)
Fixpoint partition_at (c : N) (s : str) : option (str * str) :=
  match s with
  | [] => None
  | x :: rest =>
      if x =? c then Some ([], rest)
      else match partition_at c rest with
           | Some (a, b) => Some (x :: a, b)
           | None => None
           end
  end.

(** [s.split(chr(c))] *)
Fixpoint split_on (c : N) (s : str) : list str :=
  match s with
  | [] => [[]]
  | x :: rest =>
      if x =? c then [] :: split_on c rest
      else match split_on c rest with
           | cur :: others => (x :: cur) :: others
           | [] => [[x]]
           end
  end.

(** The fragment of a URI is what follows the first [#]; the query is what
    lies between the first [?] and the fragment. *)
Definition uri_fragment (uri : str) : option str :=
  match partition_at 35 uri with
  | Some (_, frag) => Some frag
  | None => None
  end.

Definition uri_query (uri : str) : option str :=
  let before := match partition_at 35 uri with
                | Some (b, _) => b
                | None => uri
                end in
  match partition_at 63 before with
  | Some (_, q) => Some q
  | None => None
  end.

Fixpoint decode_fields (fields : list str) : option (list (str * str)) :=
  match fields with
  | [] => Some []
  | f :: rest =>
      let '(k, v) := match partition_at 61 f with
                     | Some kv => kv
                     | None => (f, [])
                     end in
      match unquote k, unquote v, decode_fields rest with
      | Some k', Some v', Some l => Some ((k', v') :: l)
      | _, _, _ => None
      end
  end.

(** The decoded parameters of the query, in order, and the decoded fragment. *)
Definition decode_link (uri : str) : option (list (str * str) * str) :=
  match uri_query uri, uri_fragment uri with
  | Some q, Some f =>
      match decode_fields (split_on 38 q), unquote f with
      | Some params, Some name => Some (params, name)
      | _, _ => None
      end
  | _, _ => None
  end.

(** *** A labelled token on one line *)

(** The line is a label, [Password:] or [PublicKey:], then optional blanks,
    a token without blanks, and optional blanks up to the end of the line. *)
Definition line_token (line : str) : option str :=
  let after_label :=
    if startswith (py "Password:") line then Some (skipn 9 line)
    else if startswith (py "PublicKey:") line then Some (skipn 10 line)
    else None in
  match after_label with
  | None => None
  | Some r =>
      let r1 := dropwhile isspace r in
      let tok := takewhile (fun c => negb (isspace c)) r1 in
      let r2 := dropwhile (fun c => negb (isspace c)) r1 in
      if is_empty tok then None
      else if forallb isspace r2 then Some tok
      else None
  end.

(** The token of the first line that carries one. *)
Definition first_token (lines : list str) : option str :=
  match filter (fun l => match line_token l with Some _ => true | None => false end)
               lines with
  | l :: _ => line_token l
  | [] => None
  end.

(** The token of the first line of [out] that carries one. *)
Definition first_line_token (out : str) : option str :=
  first_token (split_on 10 out).

(** The line is a label with nothing but blanks after it. *)
Definition bare_label (line : str) : bool :=
  if startswith (py "Password:") line then forallb isspace (skipn 9 line)
  else if startswith (py "PublicKey:") line then forallb isspace (skipn 10 line)
  else false.

(** What follows a line in the output: nothing, or a newline and more. *)
Definition line_end (tail : str) : Prop :=
  tail = [] \/ exists rest, tail = 10 :: rest.

(** *** Percent-encoded text *)

(** The characters of a percent-encoded text: the always safe ones and [%]. *)
Definition is_quoted_char (c : N) : bool := always_safe c || (c =? 37).

(** The parameters of the link of a record, in the order of the query. *)
Definition link_params (fp : str) (r : RealityInbound) (public_key : str)
  : list (str * str) :=
  [ (py "type", network r);
    (py "security", py "reality");
    (py "sni", sni r);
    (py "fp", fp);
    (py "pbk", public_key);
    (py "sid", short_id r) ]
  ++ match flow r with
     | Some f => [ (py "flow", f) ]
     | None => []
     end.

(** *** The documented link format *)

(** The format the module documents:
    [vless://{uuid}@{server}:{port}?type={network}&security=reality&sni={sni}&fp={fp}&pbk={publicKey}&sid={shortId}{&flow=...}#{name}],
    each value percent-encoded, the [flow] parameter there exactly when the
    record has a flow.  [None] when a value cannot be encoded. *)
Definition documented_link (server name fp : str) (r : RealityInbound)
    (public_key : str) : option str :=
  match quote (network r), quote (sni r), quote fp, quote public_key,
        quote (short_id r), quote name,
        match flow r with
        | None => Some []
        | Some f => option_map (app (py "&flow=")) (quote f)
        end
  with
  | Some q_type, Some q_sni, Some q_fp, Some q_pbk, Some q_sid, Some q_name,
    Some flow_param =>
      Some (py "vless://" ++ uuid r ++ py "@" ++ server ++ py ":"
            ++ str_of_int (port r)
            ++ py "?type=" ++ q_type
            ++ py "&security=reality"
            ++ py "&sni=" ++ q_sni
            ++ py "&fp=" ++ q_fp
            ++ py "&pbk=" ++ q_pbk
            ++ py "&sid=" ++ q_sid
            ++ flow_param
            ++ py "#" ++ q_name)
  | _, _, _, _, _, _, _ => None
  end.

End Reference.
Export Reference.

(* ================================================================= *)
(** ** Character classes and value lists of the further properties *)

Module Formats.

(** The class [[0-9a-f]]. *)
Definition is_lower_hex (c : N) : bool :=
  Re.in_range 48 57 c || Re.in_range 97 102 c.

(** A code point that UTF-8 encodes: below 0x110000 and not a surrogate. *)
Definition is_scalar (c : N) : bool :=
  (c <? 1114112) && negb ((55296 <=? c) && (c <? 57344)).

(** The values that [build_vless_link] encodes: the flow only when it is
    true. *)
Definition encoded_values (name fp : str) (r : RealityInbound)
    (public_key : str) : list str :=
  [network r; sni r; fp; public_key; short_id r]
  ++ (if truthy (flow r)
      then match flow r with Some f => [f] | None => [] end
      else [])
  ++ [name].

(** The characters of a query: those of percent-encoded text, [&] and [=]. *)
Definition is_query_char (c : N) : bool :=
  is_quoted_char c || (c =? 38) || (c =? 61).

End Formats.
Export Formats.

(* ================================================================= *)
(** ** Sample documents *)

Module Samples.

(** One element of [inbounds], with the given port, client, network and
    first short id; the other fields are those of the sample below. *)
Definition mk_inbound (port : json) (client : dict) (network short_id0 : str)
  : json :=
  JObject
    [ (py "protocol", JString (py "vless"));
      (py "port", port);
      (py "settings", JObject [ (py "clients", JArray [JObject client]) ]);
      (py "streamSettings",
       JObject
         [ (py "network", JString network);
           (py "security", JString (py "reality"));
           (py "realitySettings",
            JObject
              [ (py "serverNames", JArray [JString (py "example.com")]);
                (py "shortIds", JArray [JString short_id0]);
                (py "privateKey", JString (repeat 97 32)) ]) ]) ].

Definition sample_id : str := py "11111111-1111-1111-1111-111111111111".

Definition sample_inbound : json :=
  mk_inbound (JInt 443) [ (py "id", JString sample_id) ] (py "tcp") (py "ab12").

(** The document of the example scenario. *)
Definition sample_cfg : dict := [ (py "inbounds", JArray [sample_inbound]) ].

Definition sample_record : RealityInbound :=
  {| uuid := sample_id;
     flow := None;
     port := 443;
     network := py "tcp";
     sni := py "example.com";
     short_id := py "ab12";
     private_key := repeat 97 32 |}.

(** ["PUBKEY" + "B"*26] *)
Definition sample_public_key : str := py "PUBKEY" ++ repeat 66 26.

(** An inbound of another protocol. *)
Definition other_inbound : json :=
  JObject [ (py "protocol", JString (py "vmess")); (py "port", JInt 80) ].

(** A valid candidate behind one that is not. *)
Definition fallback_cfg : dict :=
  [ (py "inbounds", JArray [other_inbound; sample_inbound]) ].

(** No candidate is valid. *)
Definition hopeless_cfg : dict :=
  [ (py "inbounds", JArray [other_inbound; JInt 7]) ].

(** An inbound whose short id has an odd number of digits. *)
Definition odd_inbound : json :=
  mk_inbound (JInt 443) [ (py "id", JString sample_id) ] (py "tcp") (py "ab1").

Definition odd_first_cfg : dict :=
  [ (py "inbounds", JArray [odd_inbound; sample_inbound]) ].

(** The network and the short id are written with blanks around them. *)
Definition padded_inbound : json :=
  mk_inbound (JInt 443) [ (py "id", JString sample_id) ] (py " tcp") (py " AB12 ").

Definition padded_cfg : dict := [ (py "inbounds", JArray [padded_inbound]) ].

(** The client has a [flow]. *)
Definition vision_inbound : json :=
  mk_inbound (JInt 443)
    [ (py "id", JString sample_id); (py "flow", JString (py "xtls-rprx-vision")) ]
    (py "tcp") (py "ab12").

Definition vision_cfg : dict := [ (py "inbounds", JArray [vision_inbound]) ].

Definition vision_record : RealityInbound :=
  {| uuid := sample_id;
     flow := Some (py "xtls-rprx-vision");
     port := 443;
     network := py "tcp";
     sni := py "example.com";
     short_id := py "ab12";
     private_key := repeat 97 32 |}.

(** The client has a [flow] made of blanks. *)
Definition blank_flow_inbound : json :=
  mk_inbound (JInt 443)
    [ (py "id", JString sample_id); (py "flow", JString (py "  ")) ]
    (py "tcp") (py "ab12").

End Samples.
Export Samples.

(* ================================================================= *)
(** ** [urllib.parse.quote_plus], the default [urlencode] and form decoding *)

Module FormEncoding.

(** [_Quoter.__missing__] with [safe=" "]: the space stands for itself as
    the always safe characters do. *)
Definition quote_byte_keep_space (b : N) : str :=
  if (b =? 32) || always_safe b then [b]
  else [37; hex_upper (b / 16); hex_upper (b mod 16)].

(** [quote(string, safe=" ")]; [None] stands for [UnicodeEncodeError]. *)
Definition quote_keep_space (s : str) : option str :=
  if is_empty s then Some s
  else match utf8_encode s with
       | Some bs => Some (flat_map quote_byte_keep_space bs)
       | None => None
       end.

(** [string.replace(" ", "+")] *)
Definition spaces_to_plus (s : str) : str :=
  map (fun c => if c =? 32 then 43 else c) s.

(** [quote_plus(string, safe="")]: [quote] when the string has no space,
    else [quote(string, " ").replace(" ", "+")]. *)
Definition quote_plus (s : str) : option str :=
  if forallb (fun c => negb (c =? 32)) s then quote s
  else option_map spaces_to_plus (quote_keep_space s).

(** The loop of [urlencode(query)] with the default [quote_via=quote_plus]. *)
Fixpoint urlencode_plus_items (items : list (str * str)) : option (list str) :=
  match items with
  | [] => Some []
  | (k, v) :: rest =>
      match quote_plus k, quote_plus v, urlencode_plus_items rest with
      | Some qk, Some qv, Some l => Some ((qk ++ py "=" ++ qv) :: l)
      | _, _, _ => None
      end
  end.

(** [urlencode(query)] *)
Definition urlencode_plus (query : list (str * str)) : option str :=
  match urlencode_plus_items query with
  | Some l => Some (join (py "&") l)
  | None => None
  end.

(** *** Reading a form body

    The decoding of [application/x-www-form-urlencoded] data: the body is
    ASCII text, split at [&] into fields, each field at its first [=] into a
    name and a value; in both, [+] stands for a space and [%XX] for a byte
    of the UTF-8 text. *)

Definition plus_to_spaces (s : str) : str :=
  map (fun c => if c =? 43 then 32 else c) s.

Fixpoint form_fields (fields : list str) : option (list (str * str)) :=
  match fields with
  | [] => Some []
  | f :: rest =>
      let '(k, v) := match partition_at 61 f with
                     | Some kv => kv
                     | None => (f, [])
                     end in
      match unquote (plus_to_spaces k), unquote (plus_to_spaces v),
            form_fields rest with
      | Some k', Some v', Some l => Some ((k', v') :: l)
      | _, _, _ => None
      end
  end.

Definition form_decode (body : bytes) : option (list (str * str)) :=
  form_fields (split_on 38 body).

End FormEncoding.
Export FormEncoding.

(* ================================================================= *)
(** ** The programs: [main] of [xray_reality_qr] and the commands of [vpn_cli]

    The programs call the world outside: files, the [qrcode] package,
    external commands, HTTP.  Each such call is a field of [World] that
    gives what the call does at the moment the program makes it.  A run
    yields the list of the outputs it made, in order, and a value or an
    exception.  [os.environ["XRAY_BIN"]], which [_ensure_xray_available]
    may set, is passed along explicitly. *)

Module Programs.

(** *** Exceptions *)

(** [xray_reality_qr.UserError]: the errors of the functions above, and
    those of [_load_json], [qr_png] and [qr_ansi].

    - [ConfigFileNotFound]: "Config file not found: {path}"
    - [InvalidJson]: "Invalid JSON in {path}: {e}"
    - [QrcodeMissing]: "Python dependency 'qrcode' is missing. Install: ..."
    - [QrcodeMissingForPrintQr]: "Python dependency 'qrcode' is missing
      (needed for --print-qr). Install: ..." *)
Inductive ScriptError :=
| Core (e : UserError)
| ConfigFileNotFound (path : str)
| InvalidJson (path detail : str)
| QrcodeMissing
| QrcodeMissingForPrintQr.

(** [vpn_cli.UserError], a class of its own beside the one of
    [xray_reality_qr]; both derive from [RuntimeError].

    - [CommandFailed]: "Command failed: {' '.join(cmd)}\n{proc.stdout}"
    - [SendMessageFailed]: "Telegram sendMessage failed: HTTP {resp.status}"
    - [SendPhotoFailed]: "Telegram sendPhoto failed: HTTP {resp.status}"
    - [ReleaseQueryFailed]: "Failed to query Xray latest release: HTTP
      {resp.status}"
    - [TagNameMissing]: "Failed to parse tag_name from GitHub releases API"
    - [ZipDownloadFailed]: "Failed to download xray zip: HTTP {resp.status}" *)
Inductive CliUserError :=
| CommandFailed (cmd : list str) (output : str)
| SendMessageFailed (status : Z)
| SendPhotoFailed (status : Z)
| ReleaseQueryFailed (status : Z)
| TagNameMissing
| ZipDownloadFailed (status : Z).

(** What a call can raise. *)
Inductive exn :=
| QrUserError (e : ScriptError)
| CliError (e : CliUserError)
| UnicodeEncodeError
| OtherException.

(** *** The world outside *)

(** [json.loads(path.read_text(encoding="utf-8"))] *)
Inductive load_outcome :=
| NoSuchFile
| NotJson (detail : str)
| LoadFailed
| Loaded (v : json).

(** A use of the [qrcode] package: done, the import failed, or another
    exception. *)
Inductive qr_outcome :=
| QrDone
| QrImportFailed
| QrFailed.

(** [print(link)]: done, or it raises [UnicodeEncodeError] (the standard
    output cannot encode the link) or another exception (the standard
    output is closed or broken); when it raises, nothing was written. *)
Inductive print_outcome :=
| PrintDone
| PrintEncodeFailed
| PrintFailed.

(** [urlopen(req, timeout=...)]: a response with its status, or an
    exception. *)
Inductive http_outcome :=
| Responded (status : Z)
| UrlopenFailed.

(** A [Request]: its address, its data (empty when it has none), its
    method ([get_method()]: the one given, and [GET] for a request without
    data and method) and the headers given or added to it. *)
Record Request := {
  req_url : str;
  req_data : bytes;
  req_method : str;
  req_headers : list (str * str)
}.

(** What the programs do to files.

    - [MakeDirs]: [out_dir.mkdir(parents=True, exist_ok=True)]
    - [WriteKey]: the [with tempfile.NamedTemporaryFile("w", delete=False)]
      block, which creates the file and writes the content to it
    - [Chmod]: [os.chmod(path, mode)]
    - [Unlink]: [key_path.unlink(missing_ok=True)]
    - [MakeTempDir]: [tempfile.mkdtemp(prefix=prefix)], which made [path]
    - [WriteBytes]: [path.write_bytes(content)]
    - [ExtractMember]: the [with zipfile.ZipFile(zip_path) as z] block,
      [z.extract(member, path=dest_dir)] *)
Inductive fs_action :=
| MakeDirs (path : str)
| WriteKey (path content : str)
| Chmod (path : str) (mode : Z)
| Unlink (path : str)
| MakeTempDir (prefix path : str)
| WriteBytes (path : str) (content : bytes)
| ExtractMember (zip_path member dest_dir : str).

Record World := {
  (** [json.loads(path.read_text(encoding="utf-8"))] *)
  read_json : str -> load_outcome;
  (** [subprocess.run(argv, stdout=PIPE, stderr=STDOUT, text=True)] *)
  subprocess_run : list str -> proc_outcome;
  (** The body of [qr_png(link, out_path)] *)
  qrcode_png : str -> str -> qr_outcome;
  (** The body of [qr_ansi(link)] *)
  qrcode_ansi : str -> qr_outcome;
  (** [print(link)] *)
  print_line : str -> print_outcome;
  (** [shutil_which("xray")] *)
  which_xray : option str;
  (** [urlopen(req, timeout=timeout)] *)
  urlopen : Request -> Z -> http_outcome;
  (** [json.loads(resp.read().decode("utf-8"))] for the response to a
      request; [None] when it raises *)
  response_json : Request -> option json;
  (** [resp.read()] for the response to a request; [None] when it raises *)
  response_bytes : Request -> option bytes;
  (** The directory that [tempfile.mkdtemp] makes *)
  temp_dir : str;
  (** Whether an action on a file succeeds, or raises. *)
  fs_ok : fs_action -> bool;
  (** [str(Path(dir) / name)] *)
  path_join : str -> str -> str;
  (** [f.name] of the [NamedTemporaryFile] *)
  temp_name : str;
  (** [path.name] *)
  path_name : str -> str;
  (** [mimetypes.guess_type(filename)[0]] *)
  guess_type : str -> option str;
  (** [path.read_bytes()]; [None] when it raises *)
  read_bytes : str -> option bytes
}.

(** *** Runs *)

(** What a run does outside, in order.

    - [Printed]: [print(link)] returned
    - [PngSaved]: [qr_png(link, path)] returned
    - [QrPrinted]: [qr_ansi(link)] returned
    - [Called]: [run(cmd)] called [subprocess.run] with this argument vector
    - [Requested]: [urlopen(req, timeout=timeout)] was called
    - [Fs]: an action on a file was tried, and whether it succeeded

    The call of [xray] by the key derivation only computes, and reading a
    file or a response changes nothing; they are not listed. *)
Inductive event :=
| Printed (line : str)
| PngSaved (link path : str)
| QrPrinted (link : str)
| Called (argv : list str)
| Requested (req : Request) (timeout : Z)
| Fs (a : fs_action) (ok : bool).

Definition io (A : Type) : Type := (list event * (exn + A))%type.

Definition ret {A : Type} (a : A) : io A := ([], inr a).

Definition throw {A : Type} (e : exn) : io A := ([], inl e).

Definition emit (ev : event) : io unit := ([ev], inr tt).

Definition bind_io {A B : Type} (m : io A) (k : A -> io B) : io B :=
  match m with
  | (t, inr a) => let '(t', r) := k a in (t ++ t', r)
  | (t, inl e) => (t, inl e)
  end.

(** A call of a function of [xray_reality_qr] that raises its [UserError]. *)
Definition of_res {A : Type} (r : res A) : io A :=
  match r with
  | Ok a => ret a
  | Raise e => throw (QrUserError (Core e))
  end.

(** A call through which another exception can pass. *)
Definition of_outcome {A : Type} (o : outcome A) : io A :=
  match o with
  | Within r => of_res r
  | Escaped => throw OtherException
  end.

(** A call that raises [UnicodeEncodeError]. *)
Definition of_encoded {A : Type} (o : option A) : io A :=
  match o with
  | Some a => ret a
  | None => throw UnicodeEncodeError
  end.

(** [try: body finally: cleanup], for a cleanup that swallows its own
    exceptions. *)
Definition try_finally {A : Type} (body : io A) (cleanup : io unit) : io A :=
  let '(t, r) := body in (t ++ fst cleanup, r).

(** An action on a file that raises when it fails. *)
Definition fs (w : World) (a : fs_action) : io unit :=
  if fs_ok w a then emit (Fs a true) else ([Fs a false], inl OtherException).

(** [print(link)] *)
Definition print (w : World) (link : str) : io unit :=
  match print_line w link with
  | PrintDone => emit (Printed link)
  | PrintEncodeFailed => throw UnicodeEncodeError
  | PrintFailed => throw OtherException
  end.

(** How the process ends. *)
Inductive process_end :=
| Exit (code : Z)
| ErrorLine (e : exn)
| Traceback (e : exn).

(** The exit status: [_die] and [die] leave with 2, an exception that
    nothing catches ends the interpreter with 1. *)
Definition exit_status (p : process_end) : Z :=
  match p with
  | Exit code => code
  | ErrorLine _ => 2%Z
  | Traceback _ => 1%Z
  end.

End Programs.

Notation "x <<- m ;; k" := (Programs.bind_io m (fun x => k))
  (at level 61, m at next level, right associativity).
Notation "m >>> k" := (Programs.bind_io m (fun _ => k))
  (at level 61, right associativity).

(* ================================================================= *)
(** ** [xray_reality_qr]: [_load_json], [qr_png], [qr_ansi], [main] *)

Module XrayRealityQr.
Import Programs.

Definition _load_json (w : World) (path : str) : io json :=
  match read_json w path with
  | Loaded v => ret v
  | NoSuchFile => throw (QrUserError (ConfigFileNotFound path))
  | NotJson detail => throw (QrUserError (InvalidJson path detail))
  | LoadFailed => throw OtherException
  end.

Definition qr_png (w : World) (link out_path : str) : io unit :=
  match qrcode_png w link out_path with
  | QrDone => emit (PngSaved link out_path)
  | QrImportFailed => throw (QrUserError QrcodeMissing)
  | QrFailed => throw OtherException
  end.

Definition qr_ansi (w : World) (link : str) : io unit :=
  match qrcode_ansi w link with
  | QrDone => emit (QrPrinted link)
  | QrImportFailed => throw (QrUserError QrcodeMissingForPrintQr)
  | QrFailed => throw OtherException
  end.

(** The parsed arguments of [xray_reality_qr] and of [vpn_cli qr]. *)
Record QrArgs := {
  config : str;
  server : str;
  name : str;
  fp : str;
  out : str;
  print_link : bool;
  print_qr : bool;
  inbound_index : option Z;
  dry_run : bool
}.

(** [main], after [parse_args]. *)
Definition main (w : World) (env_XRAY_BIN : option str) (args : QrArgs)
  : io Z :=
  cfg_any <<- _load_json w (config args) ;;
  cfg <<- of_res (_expect_dict cfg_any (py "root")) ;;
  inbound <<- of_res (_select_inbound cfg (inbound_index args)) ;;
  public_key <<- of_outcome (compute_public_key_from_private env_XRAY_BIN
                           (subprocess_run w) (private_key inbound)) ;;
  link <<- of_encoded (build_vless_link (server args) (name args) (fp args)
                         inbound public_key) ;;
  if dry_run args then
    print w link >>> ret 0%Z
  else
    qr_png w link (out args) >>>
    (if print_link args then print w link else ret tt) >>>
    (if print_qr args then qr_ansi w link else ret tt) >>>
    ret 0%Z.

(** The [__main__] block: [raise SystemExit(main())], and [_die(str(e), 2)]
    for a [UserError] of this module. *)
Definition script (w : World) (env_XRAY_BIN : option str) (args : QrArgs)
  : list event * process_end :=
  match main w env_XRAY_BIN args with
  | (t, inr code) => (t, Exit code)
  | (t, inl (QrUserError e)) => (t, ErrorLine (QrUserError e))
  | (t, inl e) => (t, Traceback e)
  end.

End XrayRealityQr.

(* ================================================================= *)
(** ** [vpn_cli] *)

Module VpnCli.
Import Programs.

(** [run(cmd)] *)
Definition run (w : World) (cmd : list str) : io unit :=
  emit (Called cmd) >>>
  match subprocess_run w cmd with
  | FileNotFound => throw OtherException
  | OtherError => throw OtherException
  | Completed returncode stdout =>
      if negb (returncode =? 0)%Z then throw (CliError (CommandFailed cmd stdout))
      else ret tt
  end.

Definition scp_download (w : World) (server key_path remote_path local_path : str)
  : io unit :=
  run w
    [ py "scp"; py "-i"; key_path;
      py "-o"; py "StrictHostKeyChecking=no";
      py "-o"; py "UserKnownHostsFile=/dev/null";
      py "-o"; py "ConnectTimeout=10";
      py "root@" ++ server ++ py ":" ++ remote_path;
      local_path ].

(** The head of the [with urlopen(req, timeout=...) as resp] blocks: the
    call, and the [UserError] for a status of 300 or more. *)
Definition with_urlopen (w : World) (req : Request) (timeout : Z)
    (failed : Z -> CliUserError) : io unit :=
  emit (Requested req timeout) >>>
  match urlopen w req timeout with
  | UrlopenFailed => throw OtherException
  | Responded status =>
      if (300 <=? status)%Z then throw (CliError (failed status)) else ret tt
  end.

Definition tg_send_message (w : World) (bot_token chat_id text : str)
  : io unit :=
  let url := py "https://api.telegram.org/bot" ++ bot_token ++ py "/sendMessage" in
  query <<- of_encoded (urlencode_plus [ (py "chat_id", chat_id); (py "text", text) ]) ;;
  data <<- of_encoded (utf8_encode query) ;;
  with_urlopen w {| req_url := url; req_data := data; req_method := py "POST";
            req_headers := [] |} 20 SendMessageFailed.

Definition boundary : str := py "----vpnxrayformboundary".

(** The first loop of [_multipart_form]. *)
Fixpoint multipart_fields (fields : list (str * str)) : option (list bytes) :=
  match fields with
  | [] => Some []
  | (name, value) :: rest =>
      match utf8_encode (py "--" ++ boundary ++ [13; 10]),
            utf8_encode (py "Content-Disposition: form-data; name=" ++ [34]
                         ++ name ++ [34; 13; 10; 13; 10]),
            utf8_encode value,
            multipart_fields rest with
      | Some b1, Some b2, Some b3, Some l => Some (b1 :: b2 :: b3 :: [13; 10] :: l)
      | _, _, _, _ => None
      end
  end.

(** The second loop of [_multipart_form]. *)
Fixpoint multipart_files (w : World) (files : list (str * str))
  : io (list bytes) :=
  match files with
  | [] => ret []
  | (name, path) :: rest =>
      let filename := path_name w path in
      let ctype := match guess_type w filename with
                   | Some t => if is_empty t then py "application/octet-stream" else t
                   | None => py "application/octet-stream"
                   end in
      b1 <<- of_encoded (utf8_encode (py "--" ++ boundary ++ [13; 10])) ;;
      b2 <<- of_encoded (utf8_encode
                           (py "Content-Disposition: form-data; name=" ++ [34]
                            ++ name ++ [34] ++ py "; filename=" ++ [34]
                            ++ filename ++ [34; 13; 10])) ;;
      b3 <<- of_encoded (utf8_encode (py "Content-Type: " ++ ctype
                                      ++ [13; 10; 13; 10])) ;;
      b4 <<- match read_bytes w path with
             | Some content => ret content
             | None => throw OtherException
             end ;;
      l <<- multipart_files w rest ;;
      ret (b1 :: b2 :: b3 :: b4 :: [13; 10] :: l)
  end.

Definition _multipart_form (w : World) (fields files : list (str * str))
  : io (bytes * str) :=
  l1 <<- of_encoded (multipart_fields fields) ;;
  l2 <<- multipart_files w files ;;
  l3 <<- of_encoded (utf8_encode (py "--" ++ boundary ++ py "--" ++ [13; 10])) ;;
  ret (List.concat (l1 ++ l2 ++ [l3]), boundary).

Definition tg_send_photo (w : World) (bot_token chat_id photo_path caption : str)
  : io unit :=
  let url := py "https://api.telegram.org/bot" ++ bot_token ++ py "/sendPhoto" in
  bb <<- _multipart_form w [ (py "chat_id", chat_id); (py "caption", caption) ]
           [ (py "photo", photo_path) ] ;;
  with_urlopen w {| req_url := url; req_data := fst bb; req_method := py "POST";
            req_headers := [ (py "Content-Type",
                              py "multipart/form-data; boundary=" ++ snd bb) ] |}
    30 SendPhotoFailed.

(** [_download_latest_xray_linux_64]; the result is [str(xray_path)]. *)
Definition _download_latest_xray_linux_64 (w : World) (dest_dir : str)
  : io str :=
  let api := py "https://api.github.com/repos/XTLS/Xray-core/releases/latest" in
  let req := {| req_url := api; req_data := []; req_method := py "GET";
                req_headers := [ (py "Accept",
                                  py "application/vnd.github+json") ] |} in
  with_urlopen w req 20 ReleaseQueryFailed >>>
  data <<- match response_json w req with
           | Some v => ret v
           | None => throw OtherException
           end ;;
  tag <<- match data with
          | JObject d => ret (dict_get d (py "tag_name"))
          | _ => throw OtherException
          end ;;
  tag <<- match tag with
          | JString t =>
              if is_empty (strip t) then throw (CliError TagNameMissing)
              else ret (strip t)
          | _ => throw (CliError TagNameMissing)
          end ;;
  let url := py "https://github.com/XTLS/Xray-core/releases/download/" ++ tag
             ++ py "/Xray-linux-64.zip" in
  let zip_path := path_join w dest_dir (py "xray.zip") in
  let req := {| req_url := url; req_data := []; req_method := py "GET";
                req_headers := [] |} in
  with_urlopen w req 60 ZipDownloadFailed >>>
  content <<- match response_bytes w req with
              | Some b => ret b
              | None => throw OtherException
              end ;;
  fs w (WriteBytes zip_path content) >>>
  fs w (ExtractMember zip_path (py "xray") dest_dir) >>>
  let xray_path := path_join w dest_dir (py "xray") in
  fs w (Chmod xray_path 493) >>>
  ret xray_path.

(** [_ensure_xray_available]: the value of [XRAY_BIN] after the call. *)
Definition _ensure_xray_available (w : World) (env_XRAY_BIN : option str)
  : io (option str) :=
  if negb (is_empty (strip (match env_XRAY_BIN with Some v => v | None => [] end)))
  then ret env_XRAY_BIN
  else if truthy (which_xray w) then ret env_XRAY_BIN
  else
    let tmp := temp_dir w in
    fs w (MakeTempDir (py "xray-bin-") tmp) >>>
    xray_path <<- _download_latest_xray_linux_64 w tmp ;;
    ret (Some xray_path).

Definition cmd_qr (w : World) (env_XRAY_BIN : option str)
    (args : XrayRealityQr.QrArgs) : io Z :=
  env <<- _ensure_xray_available w env_XRAY_BIN ;;
  cfg_any <<- XrayRealityQr._load_json w (XrayRealityQr.config args) ;;
  cfg <<- of_res (_expect_dict cfg_any (py "root")) ;;
  inbound <<- of_res (_select_inbound cfg (XrayRealityQr.inbound_index args)) ;;
  public_key <<- of_outcome (compute_public_key_from_private env
                           (subprocess_run w) (private_key inbound)) ;;
  link <<- of_encoded (build_vless_link (XrayRealityQr.server args)
                         (XrayRealityQr.name args) (XrayRealityQr.fp args)
                         inbound public_key) ;;
  if XrayRealityQr.dry_run args then
    print w link >>> ret 0%Z
  else
    XrayRealityQr.qr_png w link (XrayRealityQr.out args) >>>
    (if XrayRealityQr.print_link args then print w link else ret tt) >>>
    (if XrayRealityQr.print_qr args then XrayRealityQr.qr_ansi w link else ret tt) >>>
    ret 0%Z.

(** The parsed arguments of [vpn_cli generate]. *)
Record GenerateArgs := {
  server : str;
  ssh_private_key : str;
  remote_config_path : str;
  out_dir : str;
  out_png : str;
  name : str;
  fp : str;
  print_link : bool;
  inbound_index : option Z;
  telegram_bot_token : str;
  telegram_chat_id : str
}.

(** [cmd_generate]: the statements before the [try] raise when they fail;
    the [finally] clause tries to unlink the key file and swallows what that
    raises. *)
Definition cmd_generate (w : World) (env_XRAY_BIN : option str)
    (args : GenerateArgs) : io Z :=
  env <<- _ensure_xray_available w env_XRAY_BIN ;;
  fs w (MakeDirs (out_dir args)) >>>
  let qr_path := path_join w (out_dir args) (out_png args) in
  let key_path := temp_name w in
  fs w (WriteKey key_path (ssh_private_key args ++ [10])) >>>
  fs w (Chmod key_path 384) >>>
  try_finally
    (let local_cfg := path_join w (out_dir args) (py "server-config.json") in
     scp_download w (server args) key_path (remote_config_path args) local_cfg >>>
     cfg_any <<- XrayRealityQr._load_json w local_cfg ;;
     cfg <<- of_res (_expect_dict cfg_any (py "root")) ;;
     inbound <<- of_res (_select_inbound cfg (inbound_index args)) ;;
     public_key <<- of_outcome (compute_public_key_from_private env
                              (subprocess_run w) (private_key inbound)) ;;
     link <<- of_encoded (build_vless_link (server args) (name args) (fp args)
                            inbound public_key) ;;
     XrayRealityQr.qr_png w link qr_path >>>
     (if print_link args then print w link else ret tt) >>>
     (if negb (is_empty (telegram_bot_token args))
         && negb (is_empty (telegram_chat_id args))
      then tg_send_message w (telegram_bot_token args) (telegram_chat_id args)
             (py "VLESS Reality link:" ++ [10] ++ link) >>>
           tg_send_photo w (telegram_bot_token args) (telegram_chat_id args)
             qr_path (py "VLESS Reality QR")
      else ret tt) >>>
     ret 0%Z)
    (emit (Fs (Unlink key_path) (fs_ok w (Unlink key_path)))).

(** The subcommand that [parse_args] found. *)
Inductive Command :=
| Qr (args : XrayRealityQr.QrArgs)
| Generate (args : GenerateArgs).

(** [main], after [parse_args]: [int(args.func(args))]. *)
Definition main (w : World) (env_XRAY_BIN : option str) (cmd : Command)
  : io Z :=
  match cmd with
  | Qr args => cmd_qr w env_XRAY_BIN args
  | Generate args => cmd_generate w env_XRAY_BIN args
  end.

(** The [__main__] block: [raise SystemExit(main())], and [die(str(e), 2)]
    for a [UserError] of this module. *)
Definition script (w : World) (env_XRAY_BIN : option str) (cmd : Command)
  : list event * process_end :=
  match main w env_XRAY_BIN cmd with
  | (t, inr code) => (t, Exit code)
  | (t, inl (CliError e)) => (t, ErrorLine (CliError e))
  | (t, inl e) => (t, Traceback e)
  end.

End VpnCli.
(* ================================================================= *)
(** ** What the programs share *)

Module Outputs.
Import Programs.

(** The steps from the configuration file to the link, which [main],
    [cmd_qr] and [cmd_generate] each spell out. *)
Definition link_of_config (w : World) (env_XRAY_BIN : option str)
    (config : str) (inbound_index : option Z) (server name fp : str)
  : io str :=
  cfg_any <<- XrayRealityQr._load_json w config ;;
  cfg <<- of_res (_expect_dict cfg_any (py "root")) ;;
  inbound <<- of_res (_select_inbound cfg inbound_index) ;;
  public_key <<- of_outcome (compute_public_key_from_private env_XRAY_BIN
                           (subprocess_run w) (private_key inbound)) ;;
  of_encoded (build_vless_link server name fp inbound public_key).

(** [link] is the link of the record extracted from the object in the file
    [config] and of the key derived from its private key. *)
Definition built_link (w : World) (env_XRAY_BIN : option str)
    (config : str) (inbound_index : option Z) (server name fp link : str)
  : Prop :=
  exists cfg inbound public_key,
    read_json w config = Loaded (JObject cfg)
    /\ _select_inbound cfg inbound_index = Ok inbound
    /\ compute_public_key_from_private env_XRAY_BIN (subprocess_run w)
         (private_key inbound) = Ok public_key
    /\ build_vless_link server name fp inbound public_key = Some link.

(** What [_download_latest_xray_linux_64] and the [mkdtemp] before it do
    outside: requests to GitHub, the temporary directory, the archive, the
    extracted program and its mode. *)
Definition download_event (ev : event) : bool :=
  match ev with
  | Requested req _ =>
      startswith (py "https://api.github.com/") (req_url req)
      || startswith (py "https://github.com/") (req_url req)
  | Fs (MakeTempDir _ _) _ => true
  | Fs (WriteBytes _ _) _ => true
  | Fs (ExtractMember _ _ _) _ => true
  | Fs (Chmod _ mode) _ => (mode =? 493)%Z
  | _ => false
  end.

(** A request to the Telegram API. *)
Definition to_telegram (req : Request) : bool :=
  startswith (py "https://api.telegram.org/") (req_url req).

(** [XRAY_BIN] is unset, empty or made of blanks. *)
Definition blank_variable (env_XRAY_BIN : option str) : bool :=
  is_empty (strip (match env_XRAY_BIN with Some v => v | None => [] end)).

(** What the [try] block of [cmd_generate] does once it has the link. *)
Definition send_out (w : World) (args : VpnCli.GenerateArgs)
    (qr_path link : str) : io Z :=
  XrayRealityQr.qr_png w link qr_path >>>
  (if VpnCli.print_link args then print w link else ret tt) >>>
  (if negb (is_empty (VpnCli.telegram_bot_token args))
      && negb (is_empty (VpnCli.telegram_chat_id args))
   then VpnCli.tg_send_message w (VpnCli.telegram_bot_token args)
          (VpnCli.telegram_chat_id args)
          (py "VLESS Reality link:" ++ [10] ++ link) >>>
        VpnCli.tg_send_photo w (VpnCli.telegram_bot_token args)
          (VpnCli.telegram_chat_id args) qr_path (py "VLESS Reality QR")
   else ret tt) >>>
  ret 0%Z.

End Outputs.
(* ================================================================= *)
(** ** Sample runs *)

Module SampleRuns.
Import Programs.

(** A world where the configuration is the sample document, [xray] is on
    the path and prints the sample key, [scp] succeeds, the [qrcode] package
    is there, Telegram answers 200 and files can be written. *)
Definition sample_world : World :=
  {| read_json := fun path =>
       if str_eqb path (py "config.json")
          || str_eqb path (py "generated/server-config.json")
       then Loaded (JObject sample_cfg)
       else NoSuchFile;
     subprocess_run := fun argv =>
       match argv with
       | prog :: _ =>
           if str_eqb prog (py "xray")
              || str_eqb prog (py "/tmp/xray-bin-0/xray")
           then Completed 0 (py "PrivateKey: abc" ++ [10] ++ py "PublicKey: "
                             ++ sample_public_key ++ [10])
           else if str_eqb prog (py "scp") then Completed 0 []
           else if is_empty prog then OtherError
           else FileNotFound
       | [] => FileNotFound
       end;
     qrcode_png := fun _ _ => QrDone;
     qrcode_ansi := fun _ => QrDone;
     print_line := fun _ => PrintDone;
     which_xray := Some (py "/usr/bin/xray");
     urlopen := fun _ _ => Responded 200;
     response_json := fun _ =>
       Some (JObject [ (py "tag_name", JString (py "v1.8.4")) ]);
     response_bytes := fun _ => Some [80; 75; 3; 4];
     temp_dir := py "/tmp/xray-bin-0";
     fs_ok := fun _ => true;
     path_join := fun dir name => dir ++ py "/" ++ name;
     temp_name := py "/tmp/tmpkey";
     path_name := fun _ => py "vless.png";
     guess_type := fun _ => Some (py "image/png");
     read_bytes := fun _ => Some [137; 80; 78; 71] |}.

(** The sample world with another answer to [shutil_which("xray")] and
    another standard output. *)
Definition sample_world_with (which : option str)
    (print_line : str -> print_outcome) : World :=
  {| read_json := read_json sample_world;
     subprocess_run := subprocess_run sample_world;
     qrcode_png := qrcode_png sample_world;
     qrcode_ansi := qrcode_ansi sample_world;
     print_line := print_line;
     which_xray := which;
     urlopen := urlopen sample_world;
     response_json := response_json sample_world;
     response_bytes := response_bytes sample_world;
     temp_dir := temp_dir sample_world;
     fs_ok := fs_ok sample_world;
     path_join := path_join sample_world;
     temp_name := temp_name sample_world;
     path_name := path_name sample_world;
     guess_type := guess_type sample_world;
     read_bytes := read_bytes sample_world |}.

(** [xray] is not on the path: it is downloaded. *)
Definition download_world : World :=
  sample_world_with None (fun _ => PrintDone).

(** The standard output is closed. *)
Definition mute_world : World :=
  sample_world_with (Some (py "/usr/bin/xray")) (fun _ => PrintFailed).

(** The sample world without the configuration file and without [xray] on
    the path. *)
Definition bare_world : World :=
  {| read_json := fun _ => NoSuchFile;
     subprocess_run := subprocess_run sample_world;
     qrcode_png := qrcode_png sample_world;
     qrcode_ansi := qrcode_ansi sample_world;
     print_line := print_line sample_world;
     which_xray := None;
     urlopen := fun _ _ => Responded 403;
     response_json := response_json sample_world;
     response_bytes := response_bytes sample_world;
     temp_dir := temp_dir sample_world;
     fs_ok := fs_ok sample_world;
     path_join := path_join sample_world;
     temp_name := temp_name sample_world;
     path_name := path_name sample_world;
     guess_type := guess_type sample_world;
     read_bytes := read_bytes sample_world |}.

Definition sample_qr_args (dry_run print_qr : bool) : XrayRealityQr.QrArgs :=
  {| XrayRealityQr.config := py "config.json";
     XrayRealityQr.server := py "1.2.3.4";
     XrayRealityQr.name := py "x";
     XrayRealityQr.fp := py "chrome";
     XrayRealityQr.out := py "vless.png";
     XrayRealityQr.print_link := true;
     XrayRealityQr.print_qr := print_qr;
     XrayRealityQr.inbound_index := None;
     XrayRealityQr.dry_run := dry_run |}.

Definition sample_generate_args : VpnCli.GenerateArgs :=
  {| VpnCli.server := py "1.2.3.4";
     VpnCli.ssh_private_key := py "KEY";
     VpnCli.remote_config_path := py "/etc/xray/config.json";
     VpnCli.out_dir := py "generated";
     VpnCli.out_png := py "vless.png";
     VpnCli.name := py "x";
     VpnCli.fp := py "chrome";
     VpnCli.print_link := true;
     VpnCli.inbound_index := None;
     VpnCli.telegram_bot_token := py "123:abc";
     VpnCli.telegram_chat_id := py "@chan" |}.

(** The link of the example scenario. *)
Definition sample_link : str :=
  py "vless://11111111-1111-1111-1111-111111111111@1.2.3.4:443?type=tcp&security=reality&sni=example.com&fp=chrome&pbk=PUBKEYBBBBBBBBBBBBBBBBBBBBBBBBBB&sid=ab12#x".

(** The message with the sample link. *)
Definition sample_message : Request :=
  {| req_url := py "https://api.telegram.org/bot123:abc/sendMessage";
     req_data := py "chat_id=%40chan&text=VLESS+Reality+link%3A%0Avless%3A%2F%2F11111111-1111-1111-1111-111111111111%401.2.3.4%3A443%3Ftype%3Dtcp%26security%3Dreality%26sni%3Dexample.com%26fp%3Dchrome%26pbk%3DPUBKEYBBBBBBBBBBBBBBBBBBBBBBBBBB%26sid%3Dab12%23x";
     req_method := py "POST";
     req_headers := [] |}.

(** The two requests of the download in the sample world. *)
Definition sample_release_query : Request :=
  {| req_url := py "https://api.github.com/repos/XTLS/Xray-core/releases/latest";
     req_data := [];
     req_method := py "GET";
     req_headers := [ (py "Accept", py "application/vnd.github+json") ] |}.

Definition sample_zip_request : Request :=
  {| req_url := py "https://github.com/XTLS/Xray-core/releases/download/v1.8.4/Xray-linux-64.zip";
     req_data := [];
     req_method := py "GET";
     req_headers := [] |}.

End SampleRuns.

(* ================================================================= *)
(** * Properties *)

(** ** Strings *)

Lemma str_eqb_eq (a b : str) : str_eqb a b = true <-> a = b.
Proof.
  unfold str_eqb. destruct (list_eq_dec N.eq_dec a b); split; congruence.
Qed.

Lemma str_eqb_refl (a : str) : str_eqb a a = true.
Proof. now apply str_eqb_eq. Qed.

Lemma is_empty_true (s : str) : is_empty s = true <-> s = [].
Proof. destruct s; simpl; split; congruence. Qed.

Lemma is_empty_false (s : str) : is_empty s = false <-> s <> [].
Proof. destruct s; simpl; split; congruence. Qed.

(** ** The definitions on sample inputs *)

Example strip_sample :
  strip (py "  xtls-rprx-vision ") = py "xtls-rprx-vision"
  /\ strip [160; 9; 97; 32; 98; 10; 8232] = [97; 32; 98].
Proof. split; reflexivity. Qed.

Example hex_re_sample :
  _HEX_RE_match (py "ab12") = true
  /\ _HEX_RE_match (py "ab1g") = false
  /\ _HEX_RE_match [] = false
  /\ _HEX_RE_match (py "ab" ++ [10]) = true.
Proof. repeat split; reflexivity. Qed.

Example uuid_samples :
  PyUuid.UUID sample_id = Some 0x11111111111111111111111111111111%Z
  /\ PyUuid.UUID (py "urn:uuid:11111111-1111-1111-1111-111111111111")
     = Some 0x11111111111111111111111111111111%Z
  /\ PyUuid.UUID (py "11111111-1111-1111-1111-11111111111") = None
  /\ PyUuid.UUID (py "1111111g-1111-1111-1111-111111111111") = None.
Proof. repeat split; vm_compute; reflexivity. Qed.

Example quote_sample :
  quote (py "a b/~" ++ [233; 8364]) = Some (py "a%20b%2F~%C3%A9%E2%82%AC")
  /\ quote [55296] = None
  /\ unquote (py "a%20b%2F~%C3%A9%E2%82%AC") = Some (py "a b/~" ++ [233; 8364]).
Proof. repeat split; vm_compute; reflexivity. Qed.

Example search_public_key_sample :
  search_public_key
    (py "PrivateKey: abc" ++ [10] ++ py "Password: TOKEN" ++ [10] ++ py "Hash32: xyz")
  = Some (py "TOKEN")
  /\ search_public_key (py "Private key: abc" ++ [10] ++ py "Public key: TOKEN")
     = None
  /\ search_public_key (py "PublicKey: TOKEN extra") = None.
Proof. repeat split; vm_compute; reflexivity. Qed.

(** The short id [ab1] has an odd number of digits: the candidate fails with
    the error of [_validate_short_id]. *)
Example odd_short_id_rejected :
  parse_one 0%Z odd_inbound = Raise (ShortIdOddLength 3 (py "ab1"))
  /\ _select_inbound [ (py "inbounds", JArray [odd_inbound]) ] None
     = Raise (NoMatchingInbound (Some (ShortIdOddLength 3 (py "ab1")))).
Proof. split; vm_compute; reflexivity. Qed.

Example empty_inbounds_rejected :
  _select_inbound [ (py "inbounds", JArray []) ] None = Raise NoInbounds
  /\ _select_inbound [ (py "inbounds", JArray []) ] (Some 0%Z) = Raise NoInbounds
  /\ _select_inbound [] None
     = Raise (ExpectedArray (py "inbounds") (py "NoneType")).
Proof. repeat split; reflexivity. Qed.

(** ** The example scenario *)

(** C1: on the sample document, extraction yields the sample record, and the
    link built from it for server 1.2.3.4, name x, fingerprint chrome and the
    public key PUBKEY followed by 26 B is the expected one. *)
Theorem example_scenario_link :
  _select_inbound sample_cfg None = Ok sample_record
  /\ build_vless_link (py "1.2.3.4") (py "x") (py "chrome") sample_record
       sample_public_key
     = Some (py "vless://11111111-1111-1111-1111-111111111111@1.2.3.4:443?type=tcp&security=reality&sni=example.com&fp=chrome&pbk=PUBKEYBBBBBBBBBBBBBBBBBBBBBBBBBB&sid=ab12#x").
Proof. split; vm_compute; reflexivity. Qed.

(** ** The integer accessor *)

(** C9: a boolean is an instance of [int], yet [_expect_int] raises on it;
    on an integer that is not a boolean it returns the integer. *)
Theorem expect_int_rejects_bool :
  (forall (b : bool) (where_ : str),
      isinstance_int (JBool b) = true
      /\ _expect_int (JBool b) where_ = Raise (ExpectedInteger where_))
  /\ (forall (z : Z) (where_ : str), _expect_int (JInt z) where_ = Ok z).
Proof.
  split.
  - intros b w. split; reflexivity.
  - intros z w. reflexivity.
Qed.

(** ** Selection of the inbound *)

Section Selection.

Variable cfg : dict.
Variable inbounds : list json.
Hypothesis cfg_inbounds : dict_get cfg (py "inbounds") = JArray inbounds.

Lemma select_explicit (i : Z) :
  inbounds <> [] ->
  _select_inbound cfg (Some i)
  = if ((i <? 0) || (i >=? Z.of_nat (List.length inbounds)))%Z
    then Raise (InboundIndexOutOfRange i (Z.of_nat (List.length inbounds) - 1)%Z)
    else parse_one i (nth (Z.to_nat i) inbounds JNull).
Proof.
  intros Hne. unfold _select_inbound. rewrite cfg_inbounds. simpl.
  destruct inbounds; [congruence | reflexivity].
Qed.

Lemma select_auto :
  inbounds <> [] ->
  _select_inbound cfg None = scan_inbounds 0%Z inbounds None.
Proof.
  intros Hne. unfold _select_inbound. rewrite cfg_inbounds. simpl.
  destruct inbounds; [congruence | reflexivity].
Qed.

End Selection.

(** The scan returns the record of the first candidate that validates. *)
Lemma scan_first_valid (pre : list json) :
  forall (idx : Z) (last_err : option UserError) (ib : json)
         (post : list json) (r : RealityInbound),
    (forall j x, nth_error pre j = Some x ->
                 exists e, parse_one (idx + Z.of_nat j)%Z x = Raise e) ->
    parse_one (idx + Z.of_nat (List.length pre))%Z ib = Ok r ->
    scan_inbounds idx (pre ++ ib :: post) last_err = Ok r.
Proof.
  induction pre as [|p pre IH]; intros idx last_err ib post r Hpre Hib.
  - simpl in *. rewrite Z.add_0_r in Hib. now rewrite Hib.
  - simpl. destruct (Hpre O p eq_refl) as [e He].
    rewrite Z.add_0_r in He. rewrite He.
    apply IH.
    + intros j x Hj. destruct (Hpre (S j) x Hj) as [e' He'].
      exists e'. rewrite <- He'. f_equal. lia.
    + rewrite <- Hib. f_equal. simpl List.length. lia.
Qed.

(** When every candidate fails, the scan raises the aggregate error with the
    failure of the last candidate. *)
Lemma scan_all_fail (l : list json) :
  forall (idx : Z) (last_err : option UserError),
    l <> [] ->
    (forall j x, nth_error l j = Some x ->
                 exists e, parse_one (idx + Z.of_nat j)%Z x = Raise e) ->
    exists e,
      parse_one (idx + Z.of_nat (List.length l - 1))%Z (last l JNull) = Raise e
      /\ scan_inbounds idx l last_err = Raise (NoMatchingInbound (Some e)).
Proof.
  induction l as [|a l IH]; intros idx last_err Hne Hall; [congruence|].
  destruct (Hall O a eq_refl) as [e He]. rewrite Z.add_0_r in He.
  simpl scan_inbounds. rewrite He.
  destruct l as [|b l'].
  - exists e. simpl. rewrite Z.add_0_r. split; [exact He | reflexivity].
  - destruct (IH (idx + 1)%Z (Some e)) as [e' [He' Hs]]; [discriminate| |].
    + intros j x Hj. destruct (Hall (S j) x Hj) as [e' He'].
      exists e'. rewrite <- He'. f_equal. lia.
    + exists e'. split; [|exact Hs].
      rewrite <- He'. f_equal. simpl List.length. lia.
Qed.

(** C2: without an explicit index the candidates are tried in array order.
    The record of the first candidate that validates is returned, whatever
    failed before it; when every candidate fails, the aggregate error carries
    the failure of the last one. *)
Theorem auto_select_first_valid_or_last_error
    (cfg : dict) (inbounds : list json)
    (cfg_inbounds : dict_get cfg (py "inbounds") = JArray inbounds) :
  (forall (pre : list json) (ib : json) (post : list json) (r : RealityInbound),
      inbounds = pre ++ ib :: post ->
      (forall j x, nth_error pre j = Some x ->
                   exists e, parse_one (Z.of_nat j) x = Raise e) ->
      parse_one (Z.of_nat (List.length pre)) ib = Ok r ->
      _select_inbound cfg None = Ok r)
  /\ (inbounds <> [] ->
      (forall j x, nth_error inbounds j = Some x ->
                   exists e, parse_one (Z.of_nat j) x = Raise e) ->
      exists e,
        parse_one (Z.of_nat (List.length inbounds - 1)) (last inbounds JNull)
        = Raise e
        /\ _select_inbound cfg None = Raise (NoMatchingInbound (Some e))).
Proof.
  split.
  - intros pre ib post r Heq Hpre Hib.
    rewrite (select_auto cfg inbounds cfg_inbounds).
    + subst inbounds. now apply scan_first_valid.
    + subst inbounds. now destruct pre.
  - intros Hne Hall.
    rewrite (select_auto cfg inbounds cfg_inbounds Hne).
    destruct (scan_all_fail inbounds 0%Z None Hne Hall) as [e [He Hs]].
    exists e. split; [exact He | exact Hs].
Qed.

Lemma auto_select_first_valid_or_last_error_witness :
  dict_get fallback_cfg (py "inbounds") = JArray [other_inbound; sample_inbound]
  /\ _select_inbound fallback_cfg None = Ok sample_record
  /\ dict_get hopeless_cfg (py "inbounds") = JArray [other_inbound; JInt 7]
  /\ exists e,
       parse_one 1%Z (JInt 7) = Raise e
       /\ _select_inbound hopeless_cfg None = Raise (NoMatchingInbound (Some e)).
Proof.
  split; [reflexivity|]. split.
  - apply (proj1 (auto_select_first_valid_or_last_error fallback_cfg
                    [other_inbound; sample_inbound] eq_refl)
             [other_inbound] sample_inbound [] sample_record eq_refl).
    + intros [|[|j]] x Hj; simpl in Hj; try discriminate.
      injection Hj as <-. eexists. vm_compute. reflexivity.
    + vm_compute. reflexivity.
  - split; [reflexivity|].
    apply (proj2 (auto_select_first_valid_or_last_error hopeless_cfg
                    [other_inbound; JInt 7] eq_refl)).
    + discriminate.
    + intros [|[|[|j]]] x Hj; simpl in Hj; try discriminate;
        injection Hj as <-; eexists; vm_compute; reflexivity.
Defined.

(** C3: with an explicit index and a non-empty [inbounds] array, an index
    outside [0 <= index < len(inbounds)] raises the range error, which names
    the range 0..len-1; an index inside it gives exactly the outcome of
    validating that candidate, so its failure is the failure of the
    extraction whatever the other candidates are. *)
Theorem explicit_index_checks_one_candidate
    (cfg : dict) (inbounds : list json) (i : Z)
    (cfg_inbounds : dict_get cfg (py "inbounds") = JArray inbounds)
    (nonempty : inbounds <> []) :
  ((i < 0 \/ Z.of_nat (List.length inbounds) <= i)%Z ->
   _select_inbound cfg (Some i)
   = Raise (InboundIndexOutOfRange i (Z.of_nat (List.length inbounds) - 1)%Z))
  /\ ((0 <= i < Z.of_nat (List.length inbounds))%Z ->
      exists ib,
        nth_error inbounds (Z.to_nat i) = Some ib
        /\ _select_inbound cfg (Some i) = parse_one i ib
        /\ forall e, parse_one i ib = Raise e ->
                     _select_inbound cfg (Some i) = Raise e).
Proof.
  rewrite (select_explicit cfg inbounds cfg_inbounds i nonempty).
  split.
  - intros Hout.
    replace ((i <? 0) || (i >=? Z.of_nat (List.length inbounds)))%Z with true;
      [reflexivity|].
    symmetry. apply orb_true_iff. rewrite Z.ltb_lt, Z.geb_le. lia.
  - intros Hin.
    replace ((i <? 0) || (i >=? Z.of_nat (List.length inbounds)))%Z with false.
    + destruct (nth_error inbounds (Z.to_nat i)) as [ib|] eqn:Hnth.
      * exists ib. rewrite (nth_error_nth _ _ JNull Hnth).
        split; [reflexivity|]. split; [reflexivity|]. intros e He. exact He.
      * apply nth_error_None in Hnth. lia.
    + symmetry. apply orb_false_iff. rewrite Z.ltb_ge.
      split; [lia|]. rewrite Z.geb_leb. apply Z.leb_gt. lia.
Qed.

Lemma explicit_index_checks_one_candidate_witness :
  dict_get odd_first_cfg (py "inbounds") = JArray [odd_inbound; sample_inbound]
  /\ _select_inbound odd_first_cfg (Some 0%Z)
     = Raise (ShortIdOddLength 3 (py "ab1"))
  /\ parse_one 1%Z sample_inbound = Ok sample_record
  /\ _select_inbound odd_first_cfg (Some 2%Z)
     = Raise (InboundIndexOutOfRange 2 1).
Proof.
  pose proof (explicit_index_checks_one_candidate odd_first_cfg
                [odd_inbound; sample_inbound]) as T.
  split; [reflexivity|]. split; [|split].
  - destruct (proj2 (T 0%Z eq_refl ltac:(discriminate))) as [ib [Hnth [_ Hfail]]].
    + simpl. lia.
    + injection Hnth as <-. apply Hfail. vm_compute. reflexivity.
  - vm_compute. reflexivity.
  - apply (proj1 (T 2%Z eq_refl ltac:(discriminate))). simpl. lia.
Defined.

(** ** Trimming *)

Section Trimming.

Variable p : N -> bool.

Lemma dropwhile_head (s : str) (c : N) (t : str) :
  dropwhile p s = c :: t -> p c = false.
Proof.
  induction s as [|a s IH]; simpl; [discriminate|].
  destruct (p a) eqn:Ha; [exact IH|].
  intros H. injection H as <- _. exact Ha.
Qed.

Lemma dropwhile_idem (s : str) : dropwhile p (dropwhile p s) = dropwhile p s.
Proof.
  induction s as [|a s IH]; simpl; [reflexivity|].
  destruct (p a) eqn:Ha; [exact IH|]. simpl. now rewrite Ha.
Qed.

Lemma dropwhile_app_last (l : str) (c : N) :
  p c = false -> dropwhile p (l ++ [c]) = dropwhile p l ++ [c].
Proof.
  intros Hc. induction l as [|a l IH]; simpl.
  - now rewrite Hc.
  - destruct (p a); [exact IH | reflexivity].
Qed.

Lemma rstrip_by_cons (c : N) (s : str) :
  p c = false -> rstrip_by p (c :: s) = c :: rstrip_by p s.
Proof.
  intros Hc. unfold rstrip_by. simpl rev.
  rewrite (dropwhile_app_last _ _ Hc), rev_app_distr. reflexivity.
Qed.

Lemma rstrip_by_idem (s : str) : rstrip_by p (rstrip_by p s) = rstrip_by p s.
Proof.
  unfold rstrip_by. now rewrite rev_involutive, dropwhile_idem.
Qed.

Lemma strip_by_idem (s : str) : strip_by p (strip_by p s) = strip_by p s.
Proof.
  unfold strip_by, lstrip_by.
  destruct (dropwhile p s) as [|c t] eqn:Hd.
  - reflexivity.
  - pose proof (dropwhile_head _ _ _ Hd) as Hc.
    rewrite (rstrip_by_cons _ _ Hc). simpl. rewrite Hc.
    rewrite <- (rstrip_by_cons _ _ Hc). apply rstrip_by_idem.
Qed.

Lemma dropwhile_none (s : str) :
  forallb (fun c => negb (p c)) s = true -> dropwhile p s = s.
Proof.
  destruct s as [|a s]; simpl; [reflexivity|].
  intros H. apply andb_true_iff in H as [Ha _].
  apply negb_true_iff in Ha. now rewrite Ha.
Qed.

Lemma strip_by_none (s : str) :
  forallb (fun c => negb (p c)) s = true -> strip_by p s = s.
Proof.
  intros H. unfold strip_by, lstrip_by, rstrip_by.
  rewrite (dropwhile_none _ H), dropwhile_none.
  - apply rev_involutive.
  - rewrite forallb_forall in *. intros x Hx. apply H. now apply in_rev.
Qed.

End Trimming.

Lemma strip_idem (s : str) : strip (strip s) = strip s.
Proof. apply strip_by_idem. Qed.

(** ** The accessors *)

Lemma expect_str_ok (v : json) (where_ s : str) :
  _expect_str v where_ = Ok s ->
  exists raw, v = JString raw /\ s = strip raw /\ s <> [].
Proof.
  unfold _expect_str. destruct v; try discriminate.
  destruct (is_empty (strip s0)) eqn:He; [discriminate|].
  intros H. injection H as <-. exists s0.
  split; [reflexivity|]. split; [reflexivity|]. now apply is_empty_false.
Qed.

Lemma expect_str_strip (raw where_ : str) :
  strip raw <> [] -> _expect_str (JString raw) where_ = Ok (strip raw).
Proof.
  intros H. unfold _expect_str. apply is_empty_false in H. now rewrite H.
Qed.

Lemma expect_str_blank (raw where_ : str) :
  strip raw = [] ->
  _expect_str (JString raw) where_ = Raise (ExpectedNonEmptyString where_).
Proof. intros H. unfold _expect_str. now rewrite H. Qed.

(** ** Validation of one candidate *)

Ltac step_ok H :=
  match type of H with
  | bind ?m _ = Ok _ =>
      let E := fresh "E" in
      destruct m eqn:E; simpl bind in H; [|discriminate H]
  | (if ?c then _ else _) = Ok _ =>
      let E := fresh "E" in
      destruct c eqn:E; [discriminate H|]
  | match ?x with [] => _ | _ :: _ => _ end = Ok _ =>
      let E := fresh "E" in
      destruct x eqn:E; [discriminate H|]
  end.


(** What a record returned by [parse_one] is known to satisfy. *)
Lemma parse_one_ok_inv (idx : Z) (ib : json) (r : RealityInbound) :
  parse_one idx ib = Ok r ->
  exists id_raw net_raw sni_raw sid_raw pk_raw,
    uuid r = strip id_raw
    /\ network r = strip net_raw /\ network r <> []
    /\ sni r = strip sni_raw /\ sni r <> []
    /\ short_id r = lower (strip sid_raw)
    /\ private_key r = strip pk_raw
    /\ (1 <= port r <= 65535)%Z
    /\ _validate_uuid (uuid r) = Ok tt
    /\ _validate_short_id (strip sid_raw) = Ok tt
    /\ _validate_private_key (private_key r) = Ok tt
    /\ (flow r = None
        \/ exists raw, flow r = Some (strip raw) /\ strip raw <> []).
Proof.
  unfold parse_one. intros H.
  repeat step_ok H.
  injection H as <-. simpl.
  repeat match goal with
         | E : _expect_str _ _ = Ok _ |- _ =>
             apply expect_str_ok in E as [? [? [? ?]]]
         | u : unit |- _ => destruct u
         end.
  subst.
  match goal with
  | E : negb ((1 <=? ?p)%Z && (?p <=? 65535)%Z) = false |- _ =>
      apply negb_false_iff, andb_true_iff in E as [P1 P2];
      apply Z.leb_le in P1, P2
  end.
  do 5 eexists.
  repeat (split; [first [reflexivity | eassumption | lia]|]).
  match goal with
  | E : match dict_get ?d ?k with _ => _ end = Ok ?f |- _ =>
      destruct (dict_get d k) eqn:Hf; try discriminate E
  end.
  - left. congruence.
  - match goal with
    | E : bind ?m _ = Ok _ |- _ =>
        destruct m eqn:Es; simpl in E; [|discriminate E]
    end.
    match goal with
    | E : Ok (Some _) = Ok _ |- _ => injection E as <-
    end.
    right.
    match goal with
    | E : (if is_empty (strip ?s) then _ else _) = Ok _ |- _ =>
        exists s; destruct (is_empty (strip s)) eqn:Hs; [discriminate E|];
        injection E as <-; split; [reflexivity | now apply is_empty_false]
    end.
Qed.

Lemma scan_ok_inv (l : list json) :
  forall (idx : Z) (last_err : option UserError) (r : RealityInbound),
    scan_inbounds idx l last_err = Ok r ->
    exists i ib, parse_one i ib = Ok r.
Proof.
  induction l as [|a l IH]; intros idx last_err r; simpl; [discriminate|].
  destruct (parse_one idx a) eqn:Ha.
  - intros H. injection H as <-. now exists idx, a.
  - apply IH.
Qed.

Lemma select_ok_inv (cfg : dict) (inbound_index : option Z) (r : RealityInbound) :
  _select_inbound cfg inbound_index = Ok r ->
  exists i ib, parse_one i ib = Ok r.
Proof.
  unfold _select_inbound.
  destruct (_expect_list _ _) as [inbounds|]; simpl; [|discriminate].
  destruct (is_empty_list inbounds); [discriminate|].
  destruct inbound_index as [i|].
  - destruct (_ || _)%bool; [discriminate|]. intros H. eauto.
  - apply scan_ok_inv.
Qed.

Ltac step_raise :=
  match goal with
  | |- exists e, Raise _ = Raise e => eexists; reflexivity
  | |- exists e, bind ?m _ = Raise e =>
      let E := fresh "E" in destruct m eqn:E; cbn [bind]
  | |- exists e, (if ?c then _ else _) = Raise e =>
      let E := fresh "E" in destruct c eqn:E
  | |- exists e, match ?x with [] => _ | _ :: _ => _ end = Raise e =>
      let E := fresh "E" in destruct x eqn:E
  end.

(** A candidate whose client has a [flow] made of white space only does not
    validate. *)
Lemma blank_flow_fails (idx : Z) (d settings c0 : dict) (rest : list json)
    (s : str) :
  dict_get d (py "settings") = JObject settings ->
  dict_get settings (py "clients") = JArray (JObject c0 :: rest) ->
  dict_get c0 (py "flow") = JString s ->
  strip s = [] ->
  exists e, parse_one idx (JObject d) = Raise e.
Proof.
  intros Hset Hcl Hfl Hs. unfold parse_one.
  cbn [_expect_dict bind]. rewrite Hset.
  cbn [_expect_dict bind]. rewrite Hcl.
  cbn [_expect_list _expect_dict bind]. rewrite Hfl.
  rewrite (expect_str_blank _ _ Hs). cbn [bind].
  repeat step_raise.
Qed.

Lemma validate_uuid_nonempty (u : str) : _validate_uuid u = Ok tt -> u <> [].
Proof. intros H ->. discriminate H. Qed.

Lemma validate_short_id_nonempty (s : str) :
  _validate_short_id s = Ok tt -> s <> [].
Proof. intros H ->. discriminate H. Qed.

Lemma validate_private_key_nonempty (s : str) :
  _validate_private_key s = Ok tt -> s <> [].
Proof. intros H ->. discriminate H. Qed.

Section Candidate.

Variables (idx : Z) (ib settings c0 stream reality : dict).
Variables (clients_rest names_rest ids_rest : list json).
Variables (p : Z) (id_in net_in sec_in sni_in sid_in pk_in : str).
Variable flow_out : option str.

Hypothesis H_protocol : dict_get ib (py "protocol") = JString (py "vless").
Hypothesis H_port : dict_get ib (py "port") = JInt p.
Hypothesis H_range : (1 <= p <= 65535)%Z.
Hypothesis H_settings : dict_get ib (py "settings") = JObject settings.
Hypothesis H_clients :
  dict_get settings (py "clients") = JArray (JObject c0 :: clients_rest).
Hypothesis H_id : dict_get c0 (py "id") = JString id_in.
Hypothesis H_flow :
  (dict_get c0 (py "flow") = JNull /\ flow_out = None)
  \/ (exists f, dict_get c0 (py "flow") = JString f /\ strip f <> []
                /\ flow_out = Some (strip f)).
Hypothesis H_stream : dict_get ib (py "streamSettings") = JObject stream.
Hypothesis H_network : dict_get stream (py "network") = JString net_in.
Hypothesis H_network_ne : strip net_in <> [].
Hypothesis H_security : dict_get stream (py "security") = JString sec_in.
Hypothesis H_reality_lit : strip sec_in = py "reality".
Hypothesis H_reality :
  dict_get stream (py "realitySettings") = JObject reality.
Hypothesis H_names :
  dict_get reality (py "serverNames") = JArray (JString sni_in :: names_rest).
Hypothesis H_sni_ne : strip sni_in <> [].
Hypothesis H_ids :
  dict_get reality (py "shortIds") = JArray (JString sid_in :: ids_rest).
Hypothesis H_pk : dict_get reality (py "privateKey") = JString pk_in.
Hypothesis H_uuid_ok : _validate_uuid (strip id_in) = Ok tt.
Hypothesis H_sid_ok : _validate_short_id (strip sid_in) = Ok tt.
Hypothesis H_pk_ok : _validate_private_key (strip pk_in) = Ok tt.

Lemma parse_one_complete :
  parse_one idx (JObject ib)
  = Ok {| uuid := strip id_in;
          flow := flow_out;
          port := p;
          network := strip net_in;
          sni := strip sni_in;
          short_id := lower (strip sid_in);
          private_key := strip pk_in |}.
Proof.
  unfold parse_one. cbn [_expect_dict bind].
  rewrite H_protocol.
  replace (json_is_str (JString (py "vless")) (py "vless")) with true
    by reflexivity.
  cbn [negb]. rewrite H_port. cbn [_expect_int isinstance_bool isinstance_int
                                   orb negb int_value bind].
  replace ((1 <=? p)%Z && (p <=? 65535)%Z) with true
    by (symmetry; apply andb_true_iff; split; apply Z.leb_le; lia).
  cbn [negb]. rewrite H_settings. cbn [_expect_dict bind].
  rewrite H_clients. cbn [_expect_list _expect_dict bind].
  rewrite H_id.
  rewrite (expect_str_strip id_in _ (validate_uuid_nonempty _ H_uuid_ok)).
  cbn [bind].
  assert (Hfl : match dict_get c0 (py "flow") with
                | JNull => Ok None
                | fl => f <- _expect_str fl
                               (at_inbound idx ".settings.clients[0].flow") ;;
                        Ok (Some f)
                end = Ok flow_out).
  { destruct H_flow as [[-> ->] | [f [-> [Hne ->]]]]; [reflexivity|].
    now rewrite (expect_str_strip f _ Hne). }
  rewrite Hfl. cbn [bind].
  rewrite H_stream. cbn [_expect_dict bind].
  rewrite H_network, (expect_str_strip net_in _ H_network_ne). cbn [bind].
  rewrite H_security.
  rewrite (expect_str_strip sec_in); [|rewrite H_reality_lit; discriminate].
  cbn [bind]. rewrite H_reality_lit, str_eqb_refl. cbn [negb].
  rewrite H_reality. cbn [_expect_dict bind].
  rewrite H_names. cbn [_expect_list bind].
  rewrite (expect_str_strip sni_in _ H_sni_ne). cbn [bind].
  rewrite H_ids. cbn [_expect_list bind].
  rewrite (expect_str_strip sid_in _ (validate_short_id_nonempty _ H_sid_ok)).
  cbn [bind]. rewrite H_pk.
  rewrite (expect_str_strip pk_in _ (validate_private_key_nonempty _ H_pk_ok)).
  cbn [bind]. rewrite H_uuid_ok, H_sid_ok, H_pk_ok. reflexivity.
Qed.

End Candidate.

(** ** The share link *)

Lemma build_vless_link_shape (server name fp : str) (r : RealityInbound)
    (public_key : str) :
  flow r <> Some [] ->
  build_vless_link server name fp r public_key
  = documented_link server name fp r public_key.
Proof.
  intros Hflow. unfold build_vless_link, documented_link, urlencode.
  destruct (flow r) as [f|] eqn:Hf.
  - assert (Ht : truthy (Some f) = true).
    { destruct f as [|c f']; [exfalso; apply Hflow; reflexivity | reflexivity]. }
    rewrite Ht.
    change (dict_set _ (py "flow") f)
      with [ (py "type", network r); (py "security", py "reality");
             (py "sni", sni r); (py "fp", fp); (py "pbk", public_key);
             (py "sid", short_id r); (py "flow", f) ].
    cbn [urlencode_items].
    change (quote (py "type")) with (Some (py "type")).
    change (quote (py "security")) with (Some (py "security")).
    change (quote (py "reality")) with (Some (py "reality")).
    change (quote (py "sni")) with (Some (py "sni")).
    change (quote (py "fp")) with (Some (py "fp")).
    change (quote (py "pbk")) with (Some (py "pbk")).
    change (quote (py "sid")) with (Some (py "sid")).
    change (quote (py "flow")) with (Some (py "flow")).
    destruct (quote (network r)) as [qt|]; [|reflexivity].
    destruct (quote (sni r)) as [qs|]; [|reflexivity].
    destruct (quote fp) as [qf|]; [|reflexivity].
    destruct (quote public_key) as [qp|]; [|reflexivity].
    destruct (quote (short_id r)) as [qi|]; [|reflexivity].
    destruct (quote f) as [qfl|]; cbn [option_map].
    + destruct (quote name) as [qn|]; [|reflexivity].
      cbn [join]. f_equal. repeat rewrite <- app_assoc. reflexivity.
    + destruct (quote name); reflexivity.
  - cbn [truthy urlencode_items].
    change (quote (py "type")) with (Some (py "type")).
    change (quote (py "security")) with (Some (py "security")).
    change (quote (py "reality")) with (Some (py "reality")).
    change (quote (py "sni")) with (Some (py "sni")).
    change (quote (py "fp")) with (Some (py "fp")).
    change (quote (py "pbk")) with (Some (py "pbk")).
    change (quote (py "sid")) with (Some (py "sid")).
    destruct (quote (network r)) as [qt|]; [|reflexivity].
    destruct (quote (sni r)) as [qs|]; [|reflexivity].
    destruct (quote fp) as [qf|]; [|reflexivity].
    destruct (quote public_key) as [qp|]; [|reflexivity].
    destruct (quote (short_id r)) as [qi|]; [|reflexivity].
    destruct (quote name) as [qn|]; [|reflexivity].
    cbn [join]. f_equal. repeat rewrite <- app_assoc. reflexivity.
Qed.

(** ** Records produced by extraction *)

(** C10: the flow of an extracted record is absent or a non-empty trimmed
    string, so its truth value, which [build_vless_link] tests, tells exactly
    whether it is present; a candidate whose [flow] is a string of white
    space only (the empty string too) does not validate. *)
Theorem extracted_flow_absent_or_nonempty :
  (forall (cfg : dict) (inbound_index : option Z) (r : RealityInbound),
      _select_inbound cfg inbound_index = Ok r ->
      (flow r = None
       \/ exists f, flow r = Some f /\ f <> [] /\ strip f = f)
      /\ (truthy (flow r) = true <-> flow r <> None))
  /\ (forall (idx : Z) (d settings c0 : dict) (rest : list json) (s : str),
         dict_get d (py "settings") = JObject settings ->
         dict_get settings (py "clients") = JArray (JObject c0 :: rest) ->
         dict_get c0 (py "flow") = JString s ->
         strip s = [] ->
         exists e, parse_one idx (JObject d) = Raise e).
Proof.
  split; [|exact blank_flow_fails].
  intros cfg inbound_index r H.
  apply select_ok_inv in H as [i [ib H]].
  apply parse_one_ok_inv in H
    as (_ & _ & _ & _ & _ & _ & _ & _ & _ & _ & _ & _ & _ & _ & _ & _ & Hflow).
  destruct Hflow as [Hn | [raw [Hf Hne]]].
  - split; [now left|]. rewrite Hn. simpl. split; [discriminate | congruence].
  - split.
    + right. exists (strip raw). split; [exact Hf|]. split; [exact Hne|].
      apply strip_idem.
    + rewrite Hf. simpl. apply is_empty_false in Hne. rewrite Hne. simpl.
      split; [discriminate | reflexivity].
Qed.

Lemma extracted_flow_absent_or_nonempty_witness :
  _select_inbound vision_cfg None = Ok vision_record
  /\ (truthy (flow vision_record) = true <-> flow vision_record <> None)
  /\ strip (py "  ") = []
  /\ exists e, parse_one 0%Z blank_flow_inbound = Raise e.
Proof.
  assert (Hv : _select_inbound vision_cfg None = Ok vision_record)
    by (vm_compute; reflexivity).
  split; [exact Hv|]. split; [|split].
  - exact (proj2 (proj1 extracted_flow_absent_or_nonempty _ _ _ Hv)).
  - reflexivity.
  - eapply (proj2 extracted_flow_absent_or_nonempty 0%Z); reflexivity.
Defined.

Lemma extracted_flow_not_empty (cfg : dict) (inbound_index : option Z)
    (r : RealityInbound) :
  _select_inbound cfg inbound_index = Ok r -> flow r <> Some [].
Proof.
  intros H. apply select_ok_inv in H as [i [ib H]].
  apply parse_one_ok_inv in H
    as (_ & _ & _ & _ & _ & _ & _ & _ & _ & _ & _ & _ & _ & _ & _ & _ & Hflow).
  destruct Hflow as [Hn | [raw [Hf Hne]]]; congruence.
Qed.

(** C5, as amended: a document whose only candidate has the expected
    protocol and security and valid fields yields a record whose string
    fields are the input values with the surrounding white space trimmed,
    the short id moreover in lower case; the port is the input port. *)
Theorem single_candidate_fields_trimmed
    (cfg ib settings c0 stream reality : dict)
    (clients_rest names_rest ids_rest : list json)
    (p : Z) (id_in net_in sec_in sni_in sid_in pk_in : str)
    (flow_out : option str) (inbound_index : option Z) :
  dict_get cfg (py "inbounds") = JArray [JObject ib] ->
  inbound_index = None \/ inbound_index = Some 0%Z ->
  dict_get ib (py "protocol") = JString (py "vless") ->
  dict_get ib (py "port") = JInt p ->
  (1 <= p <= 65535)%Z ->
  dict_get ib (py "settings") = JObject settings ->
  dict_get settings (py "clients") = JArray (JObject c0 :: clients_rest) ->
  dict_get c0 (py "id") = JString id_in ->
  (dict_get c0 (py "flow") = JNull /\ flow_out = None)
  \/ (exists f, dict_get c0 (py "flow") = JString f /\ strip f <> []
                /\ flow_out = Some (strip f)) ->
  dict_get ib (py "streamSettings") = JObject stream ->
  dict_get stream (py "network") = JString net_in ->
  strip net_in <> [] ->
  dict_get stream (py "security") = JString sec_in ->
  strip sec_in = py "reality" ->
  dict_get stream (py "realitySettings") = JObject reality ->
  dict_get reality (py "serverNames") = JArray (JString sni_in :: names_rest) ->
  strip sni_in <> [] ->
  dict_get reality (py "shortIds") = JArray (JString sid_in :: ids_rest) ->
  dict_get reality (py "privateKey") = JString pk_in ->
  _validate_uuid (strip id_in) = Ok tt ->
  _validate_short_id (strip sid_in) = Ok tt ->
  _validate_private_key (strip pk_in) = Ok tt ->
  _select_inbound cfg inbound_index
  = Ok {| uuid := strip id_in;
          flow := flow_out;
          port := p;
          network := strip net_in;
          sni := strip sni_in;
          short_id := lower (strip sid_in);
          private_key := strip pk_in |}.
Proof.
  intros Hcfg Hidx. intros.
  assert (Hp : parse_one 0%Z (JObject ib)
               = Ok {| uuid := strip id_in; flow := flow_out; port := p;
                       network := strip net_in; sni := strip sni_in;
                       short_id := lower (strip sid_in);
                       private_key := strip pk_in |}).
  { eapply parse_one_complete; eassumption. }
  destruct Hidx as [-> | ->].
  - rewrite (select_auto cfg [JObject ib] Hcfg); [|discriminate].
    simpl. now rewrite Hp.
  - rewrite (select_explicit cfg [JObject ib] Hcfg); [|discriminate].
    exact Hp.
Qed.

Lemma single_candidate_fields_trimmed_witness :
  _select_inbound padded_cfg None
  = Ok {| uuid := strip sample_id;
          flow := None;
          port := 443;
          network := strip (py " tcp");
          sni := strip (py "example.com");
          short_id := lower (strip (py " AB12 "));
          private_key := strip (repeat 97 32) |}.
Proof.
  eapply (single_candidate_fields_trimmed padded_cfg);
    try reflexivity; try discriminate.
  - now left.
  - simpl. lia.
  - left. split; reflexivity.
Defined.

(** The claim C5 as stated fails on a document whose network is written
    [" tcp"] and whose short id is written [" AB12 "]: both are valid, and
    the record holds ["tcp"] and ["ab12"], not the input values. *)
Lemma padded_fields_not_unchanged :
  padded_inbound
  = mk_inbound (JInt 443) [ (py "id", JString sample_id) ] (py " tcp")
      (py " AB12 ")
  /\ exists r,
       _select_inbound padded_cfg None = Ok r
       /\ network r <> py " tcp"
       /\ short_id r <> lower (py " AB12 ").
Proof.
  split; [reflexivity|].
  exists sample_record. split; [vm_compute; reflexivity|].
  split; discriminate.
Qed.

(** C6: for a record produced by extraction the link is the documented one:
    the parameters come in the order type, security, sni, fp, pbk, sid, and
    the flow parameter is there exactly when the record has a flow, as the
    last parameter, just before the fragment.  The link depends on the
    arguments only. *)
Theorem link_is_deterministic_and_ordered
    (cfg : dict) (inbound_index : option Z) (r : RealityInbound)
    (server name fp public_key : str) :
  _select_inbound cfg inbound_index = Ok r ->
  build_vless_link server name fp r public_key
  = documented_link server name fp r public_key
  /\ (forall u1 u2,
         build_vless_link server name fp r public_key = u1 ->
         build_vless_link server name fp r public_key = u2 ->
         u1 = u2).
Proof.
  intros H. split.
  - apply build_vless_link_shape. exact (extracted_flow_not_empty _ _ _ H).
  - intros u1 u2 <- <-. reflexivity.
Qed.

Lemma link_is_deterministic_and_ordered_witness :
  _select_inbound vision_cfg None = Ok vision_record
  /\ build_vless_link (py "1.2.3.4") (py "x") (py "chrome") vision_record
       sample_public_key
     = Some (py "vless://11111111-1111-1111-1111-111111111111@1.2.3.4:443?type=tcp&security=reality&sni=example.com&fp=chrome&pbk=PUBKEYBBBBBBBBBBBBBBBBBBBBBBBBBB&sid=ab12&flow=xtls-rprx-vision#x").
Proof.
  assert (Hv : _select_inbound vision_cfg None = Ok vision_record)
    by (vm_compute; reflexivity).
  split; [exact Hv|].
  rewrite (proj1 (link_is_deterministic_and_ordered vision_cfg None
                    vision_record (py "1.2.3.4") (py "x") (py "chrome")
                    sample_public_key Hv)).
  vm_compute. reflexivity.
Defined.

(** ** Validation of the UUID *)

Lemma is_hex_cases (c : N) :
  is_hex c = true ->
  (48 <= c <= 57) \/ (97 <= c <= 102) \/ (65 <= c <= 70).
Proof.
  unfold is_hex, Re.in_range. intros H.
  repeat (apply orb_true_iff in H as [H|H]);
    apply andb_true_iff in H as [H1 H2];
    apply N.leb_le in H1, H2; lia.
Qed.

Lemma hex_digit_value_hex (c : N) :
  is_hex c = true -> exists d, PyUuid.hex_digit_value c = Some d /\ (0 <= d < 16)%Z.
Proof.
  intros H. unfold PyUuid.hex_digit_value, is_hex in *.
  destruct (Re.in_range 48 57 c) eqn:E1.
  - eexists; split; [reflexivity|]. unfold Re.in_range in E1.
    apply andb_true_iff in E1 as [A B]. apply N.leb_le in A, B. lia.
  - destruct (Re.in_range 97 102 c) eqn:E2.
    + eexists; split; [reflexivity|]. unfold Re.in_range in E2.
      apply andb_true_iff in E2 as [A B]. apply N.leb_le in A, B. lia.
    + destruct (Re.in_range 65 70 c) eqn:E3; [|discriminate].
      eexists; split; [reflexivity|]. unfold Re.in_range in E3.
      apply andb_true_iff in E3 as [A B]. apply N.leb_le in A, B. lia.
Qed.

Lemma scan_hex_digits_all (s : str) :
  forall (acc : Z) (n : nat),
    forallb is_hex s = true ->
    (0 <= acc)%Z ->
    exists v,
      PyUuid.scan_hex_digits false acc n s = Some (v, (n + List.length s)%nat, [])
      /\ (0 <= v < (acc + 1) * 16 ^ Z.of_nat (List.length s))%Z.
Proof.
  induction s as [|c s IH]; intros acc n Hall Hacc.
  - exists acc. simpl. rewrite Nat.add_0_r. split; [reflexivity | lia].
  - simpl in Hall. apply andb_true_iff in Hall as [Hc Hs].
    destruct (hex_digit_value_hex c Hc) as [d [Hd Hr]].
    pose proof (is_hex_cases c Hc) as Hcases.
    cbn [PyUuid.scan_hex_digits].
    replace (c =? 95) with false by (symmetry; apply N.eqb_neq; lia).
    rewrite Hd.
    destruct (IH (16 * acc + d)%Z (S n) Hs ltac:(lia)) as [v [Hv Hb]].
    exists v. split.
    + rewrite Hv. do 3 f_equal. simpl. lia.
    + replace (Z.of_nat (List.length (c :: s)))
        with (Z.succ (Z.of_nat (List.length s))) by (simpl List.length; lia).
      rewrite Z.pow_succ_r by lia. nia.
Qed.

Ltac crack_char :=
  repeat match goal with
         | |- context [match ?p with xI _ => _ | xO _ => _ | xH => _ end] =>
             destruct p
         | |- context [match ?c with N0 => _ | Npos _ => _ end] => destruct c
         end.

Lemma parse_sign_other (c : N) (t : str) :
  c <> 43 -> c <> 45 -> PyUuid.parse_sign (c :: t) = (1%Z, c :: t).
Proof.
  intros H1 H2. unfold PyUuid.parse_sign.
  crack_char; try reflexivity; congruence.
Qed.

Lemma skip_prefix_16_other (c : N) (t : str) :
  c <> 48 -> PyUuid.skip_prefix_16 (c :: t) = c :: t.
Proof.
  intros H. unfold PyUuid.skip_prefix_16.
  crack_char; try reflexivity; try congruence; destruct t; reflexivity.
Qed.

Lemma skip_prefix_16_zero (x : N) (r : str) :
  x <> 120 -> x <> 88 -> PyUuid.skip_prefix_16 (48 :: x :: r) = 48 :: x :: r.
Proof.
  intros H1 H2. unfold PyUuid.skip_prefix_16.
  apply N.eqb_neq in H1, H2. now rewrite H1, H2.
Qed.

Lemma skip_prefix_16_hex (h : str) :
  forallb is_hex h = true -> PyUuid.skip_prefix_16 h = h.
Proof.
  destruct h as [|c [|x r]]; intros H.
  - reflexivity.
  - destruct (N.eq_dec c 48) as [->|Hc]; [reflexivity|].
    now apply skip_prefix_16_other.
  - destruct (N.eq_dec c 48) as [->|Hc].
    + simpl in H. apply andb_true_iff in H as [Hx _].
      apply is_hex_cases in Hx. apply skip_prefix_16_zero; lia.
    + now apply skip_prefix_16_other.
Qed.

Lemma long_from_string_16_hex (h : str) :
  h <> [] ->
  forallb is_hex h = true ->
  exists v, PyUuid.long_from_string_16 h = Some v
            /\ (0 <= v < 16 ^ Z.of_nat (List.length h))%Z.
Proof.
  intros Hne Hall. destruct h as [|c t]; [congruence|].
  pose proof Hall as Hall'. simpl in Hall'.
  apply andb_true_iff in Hall' as [Hc _].
  pose proof (is_hex_cases c Hc) as Hcases.
  unfold PyUuid.long_from_string_16.
  assert (Hsp : PyUuid.Py_ISSPACE c = false).
  { unfold PyUuid.Py_ISSPACE, Re.in_range.
    apply orb_false_iff. split.
    - apply andb_false_iff. destruct (N.leb_spec 9 c); [right|now left].
      apply N.leb_gt. lia.
    - apply N.eqb_neq. lia. }
  cbn [dropwhile]. rewrite Hsp.
  rewrite parse_sign_other by lia.
  rewrite (skip_prefix_16_hex _ Hall).
  cbn [startswith].
  replace (95 =? c) with false by (symmetry; apply N.eqb_neq; lia).
  cbn [andb].
  destruct (scan_hex_digits_all (c :: t) 0%Z O Hall ltac:(lia)) as [v [Hv Hb]].
  rewrite Hv. change (0 + List.length (c :: t))%nat with (S (List.length t)).
  cbn [dropwhile is_empty].
  exists v. split; [f_equal; lia | lia].
Qed.

Lemma hex_group_spec (n : nat) :
  forall (s rest : str),
    hex_group n s = Some rest ->
    exists g, s = g ++ rest /\ List.length g = n /\ forallb is_hex g = true.
Proof.
  induction n as [|n IH]; intros s rest H; simpl in H.
  - injection H as <-. now exists [].
  - destruct s as [|c s]; [discriminate|].
    destruct (is_hex c) eqn:Hc; [|discriminate].
    destruct (IH _ _ H) as [g [-> [Hl Hg]]].
    exists (c :: g). simpl. rewrite Hc, Hl, Hg. now repeat split.
Qed.

Lemma hyphen_spec (s rest : str) : hyphen s = Some rest -> s = 45 :: rest.
Proof.
  destruct s as [|c s]; simpl; [discriminate|].
  destruct (N.eqb_spec c 45) as [->|]; [|discriminate].
  intros H. now injection H as <-.
Qed.

Lemma and_then_some {A B : Type} (o : option A) (f : A -> option B) (b : B) :
  and_then o f = Some b -> exists a, o = Some a /\ f a = Some b.
Proof. destruct o as [a|]; simpl; [|discriminate]. intros H. now exists a. Qed.

Lemma canonical_groups (u : str) :
  is_canonical_uuid u = true ->
  exists g1 g2 g3 g4 g5,
    u = g1 ++ 45 :: g2 ++ 45 :: g3 ++ 45 :: g4 ++ 45 :: g5
    /\ (List.length g1 = 8 /\ List.length g2 = 4 /\ List.length g3 = 4
        /\ List.length g4 = 4 /\ List.length g5 = 12)%nat
    /\ forallb is_hex (g1 ++ g2 ++ g3 ++ g4 ++ g5) = true.
Proof.
  unfold is_canonical_uuid.
  destruct (and_then _ (hex_group 12)) as [[|? ?]|] eqn:H; try discriminate.
  intros _.
  apply and_then_some in H as [s8 [H H5]].
  apply and_then_some in H as [s7 [H Hh4]].
  apply and_then_some in H as [s6 [H H4]].
  apply and_then_some in H as [s5 [H Hh3]].
  apply and_then_some in H as [s4 [H H3]].
  apply and_then_some in H as [s3 [H Hh2]].
  apply and_then_some in H as [s2 [H H2]].
  apply and_then_some in H as [s1 [H1 Hh1]].
  apply hex_group_spec in H1 as [g1 [-> [L1 F1]]].
  apply hyphen_spec in Hh1 as ->.
  apply hex_group_spec in H2 as [g2 [-> [L2 F2]]].
  apply hyphen_spec in Hh2 as ->.
  apply hex_group_spec in H3 as [g3 [-> [L3 F3]]].
  apply hyphen_spec in Hh3 as ->.
  apply hex_group_spec in H4 as [g4 [-> [L4 F4]]].
  apply hyphen_spec in Hh4 as ->.
  apply hex_group_spec in H5 as [g5 [-> [L5 F5]]].
  exists g1, g2, g3, g4, g5. rewrite app_nil_r.
  split; [reflexivity|]. split; [tauto|].
  rewrite !forallb_app, F1, F2, F3, F4, F5. reflexivity.
Qed.

Lemma remove_from_absent (p0 : N) (pat s : str) :
  (forall c, In c s -> c <> p0) ->
  remove_from (p0 :: pat) O s = s.
Proof.
  induction s as [|c s IH]; intros H; [reflexivity|].
  cbn [remove_from startswith].
  replace (p0 =? c) with false
    by (symmetry; apply N.eqb_neq; intros Heq; apply (H c); [now left | now symmetry]).
  cbn [andb]. f_equal. apply IH. intros x Hx. apply H. now right.
Qed.

Lemma remove_from_char (c : N) (s : str) :
  remove_from [c] O s = filter (fun x => negb (c =? x)) s.
Proof.
  induction s as [|x s IH]; [reflexivity|].
  cbn [remove_from startswith filter List.length pred].
  destruct (c =? x); cbn [andb negb]; [exact IH | now rewrite IH].
Qed.

Lemma filter_all {A : Type} (f : A -> bool) (l : list A) :
  forallb f l = true -> filter f l = l.
Proof.
  induction l as [|a l IH]; simpl; [reflexivity|].
  intros H. apply andb_true_iff in H as [Ha Hl]. now rewrite Ha, IH.
Qed.

Lemma forallb_impl {A : Type} (f g : A -> bool) (l : list A) :
  (forall a, f a = true -> g a = true) ->
  forallb f l = true -> forallb g l = true.
Proof.
  intros Hfg. rewrite !forallb_forall. intros H x Hx. auto.
Qed.

Lemma hex_not_hyphen (c : N) : is_hex c = true -> negb (45 =? c) = true.
Proof.
  intros H. apply is_hex_cases in H. apply negb_true_iff, N.eqb_neq. lia.
Qed.

(** Dropping the hyphens of a canonical text leaves its 32 digits. *)
Lemma canonical_digits (u : str) :
  is_canonical_uuid u = true ->
  uuid_digits u <> [] /\ List.length (uuid_digits u) = 32%nat
  /\ forallb is_hex (uuid_digits u) = true.
Proof.
  intros H. apply canonical_groups in H
    as (g1 & g2 & g3 & g4 & g5 & -> & (L1 & L2 & L3 & L4 & L5) & Hhex).
  set (u := g1 ++ 45 :: g2 ++ 45 :: g3 ++ 45 :: g4 ++ 45 :: g5).
  assert (Hchars : forall c, In c u -> is_hex c = true \/ c = 45).
  { intros c Hc. unfold u in Hc.
    assert (Hh : In c g1 \/ In c g2 \/ In c g3 \/ In c g4 \/ In c g5 ->
                 is_hex c = true).
    { intros Hin. rewrite forallb_forall in Hhex. apply Hhex.
      rewrite !in_app_iff. tauto. }
    repeat (rewrite in_app_iff in Hc; cbn [In] in Hc).
    intuition auto. }
  assert (Hne : forall x c, In c u -> is_hex x = false -> x <> 45 -> c <> x).
  { intros x c Hc Hx Hx' ->. destruct (Hchars x Hc); congruence. }
  unfold uuid_digits.
  assert (E1 : replace_with_empty (py "urn:") u = u).
  { apply (remove_from_absent 117). intros c Hc. now apply (Hne 117 c Hc). }
  rewrite E1.
  assert (E2 : replace_with_empty (py "uuid:") u = u).
  { apply (remove_from_absent 117). intros c Hc. now apply (Hne 117 c Hc). }
  rewrite E2.
  assert (E3 : strip_chars (py "{}") u = u).
  { apply strip_by_none. apply forallb_forall. intros c Hc.
    apply negb_true_iff. simpl.
    replace (c =? 123) with false
      by (symmetry; apply N.eqb_neq; now apply (Hne 123 c Hc)).
    replace (c =? 125) with false
      by (symmetry; apply N.eqb_neq; now apply (Hne 125 c Hc)).
    reflexivity. }
  rewrite E3.
  assert (E4 : replace_with_empty (py "-") u = g1 ++ g2 ++ g3 ++ g4 ++ g5).
  { change (replace_with_empty (py "-") u) with (remove_from [45] O u).
    rewrite remove_from_char. unfold u.
    rewrite !forallb_app in Hhex.
    repeat (apply andb_true_iff in Hhex as [? Hhex]).
    repeat (rewrite filter_app; cbn [filter N.eqb Pos.eqb negb]).
    rewrite !filter_all by (eapply forallb_impl; [apply hex_not_hyphen|assumption]).
    reflexivity. }
  rewrite E4. split; [|split].
  - destruct g1; [discriminate L1 | discriminate].
  - rewrite !length_app. lia.
  - exact Hhex.
Qed.

Lemma hex_is_ascii (c : N) : is_hex c = true -> (c <? 128) = true.
Proof. intros H. apply is_hex_cases in H. apply N.ltb_lt. lia. Qed.

Lemma validate_uuid_digits (u : str) :
  uuid_digits u <> [] ->
  List.length (uuid_digits u) = 32%nat ->
  forallb is_hex (uuid_digits u) = true ->
  _validate_uuid u = Ok tt.
Proof.
  intros Hne Hlen Hhex. unfold _validate_uuid, PyUuid.UUID.
  change (replace_with_empty (py "-") _) with (uuid_digits u).
  rewrite Hlen. cbn [Nat.eqb negb].
  unfold PyUuid.int_16, PyUuid.to_ascii_decimal_and_space.
  rewrite (forallb_impl _ _ _ hex_is_ascii Hhex).
  destruct (long_from_string_16_hex _ Hne Hhex) as [v [Hv Hb]].
  rewrite Hv. rewrite Hlen in Hb.
  replace ((0 <=? v)%Z && (v <? 2 ^ 128)%Z) with true; [reflexivity|].
  symmetry. apply andb_true_iff. split; [apply Z.leb_le | apply Z.ltb_lt].
  - lia.
  - change (2 ^ 128)%Z with (16 ^ Z.of_nat 32)%Z. lia.
Qed.

Lemma validate_uuid_wrong_length (u : str) :
  List.length (uuid_digits u) <> 32%nat ->
  _validate_uuid u = Raise (InvalidUUID u).
Proof.
  intros Hlen. unfold _validate_uuid, PyUuid.UUID.
  change (replace_with_empty (py "-") _) with (uuid_digits u).
  apply Nat.eqb_neq in Hlen. rewrite Hlen. reflexivity.
Qed.

(** The claim C4 as stated fails: 32 hexadecimal digits without hyphens, and
    a canonical text in braces, are not canonical and are accepted. *)
Lemma bare_hex_uuid_accepted :
  is_canonical_uuid (repeat 49 32) = false
  /\ _validate_uuid (repeat 49 32) = Ok tt
  /\ is_canonical_uuid (py "{11111111-1111-1111-1111-111111111111}") = false
  /\ _validate_uuid (py "{11111111-1111-1111-1111-111111111111}") = Ok tt.
Proof. repeat split; vm_compute; reflexivity. Qed.

(** ** Percent-encoding *)

(** A check of every byte. *)
Lemma all_bytes (P : N -> bool) :
  forallb P (map N.of_nat (seq 0 256)) = true ->
  forall b, b < 256 -> P b = true.
Proof.
  intros H b Hb. rewrite forallb_forall in H. apply H.
  apply in_map_iff. exists (N.to_nat b). split; [lia|].
  apply in_seq. lia.
Qed.

Lemma quote_byte_chars (b : N) :
  b < 256 -> forallb is_quoted_char (quote_byte b) = true.
Proof.
  apply (all_bytes (fun b => forallb is_quoted_char (quote_byte b))).
  vm_compute. reflexivity.
Qed.

Lemma unquote_plain (c : N) (rest : str) :
  c <> 37 -> unquote_to_bytes (c :: rest) = c :: unquote_to_bytes rest.
Proof.
  intros H. apply N.eqb_neq in H.
  destruct rest as [|h [|l r]]; cbn [unquote_to_bytes]; rewrite ?H; reflexivity.
Qed.

Lemma unquote_escape (h l a b : N) (rest : str) :
  hex_val h = Some a -> hex_val l = Some b ->
  unquote_to_bytes (37 :: h :: l :: rest) = (16 * a + b) :: unquote_to_bytes rest.
Proof.
  intros Ha Hb. cbn [unquote_to_bytes].
  change (37 =? 37) with true. cbn iota. now rewrite Ha, Hb.
Qed.

Lemma quote_byte_cases (b : N) :
  b < 256 ->
  (quote_byte b = [b] /\ b <> 37)
  \/ (quote_byte b = [37; hex_upper (b / 16); hex_upper (b mod 16)]
      /\ hex_val (hex_upper (b / 16)) = Some (b / 16)
      /\ hex_val (hex_upper (b mod 16)) = Some (b mod 16)).
Proof.
  intros Hb. unfold quote_byte. destruct (always_safe b) eqn:Hs.
  - left. split; [reflexivity|]. intros ->. discriminate Hs.
  - right. split; [reflexivity|].
    pose proof (all_bytes
                  (fun b => match hex_val (hex_upper (b / 16)),
                                  hex_val (hex_upper (b mod 16)) with
                            | Some x, Some y => (x =? b / 16) && (y =? b mod 16)
                            | _, _ => false
                            end)
                  ltac:(vm_compute; reflexivity) b Hb) as H.
    cbv beta in H.
    destruct (hex_val (hex_upper (b / 16))) as [x|]; [|discriminate].
    destruct (hex_val (hex_upper (b mod 16))) as [y|]; [|discriminate].
    apply andb_true_iff in H as [Hx Hy].
    apply N.eqb_eq in Hx, Hy. now subst.
Qed.

Lemma unquote_quote_byte (b : N) (rest : str) :
  b < 256 ->
  unquote_to_bytes (quote_byte b ++ rest) = b :: unquote_to_bytes rest.
Proof.
  intros Hb. destruct (quote_byte_cases b Hb) as [[-> Hn] | [-> [Hh Hl]]].
  - now apply unquote_plain.
  - cbn [app]. rewrite (unquote_escape _ _ _ _ rest Hh Hl). f_equal.
    pose proof (N.div_mod b 16). lia.
Qed.

Lemma unquote_quote_bytes (bs : bytes) :
  Forall (fun b => b < 256) bs ->
  unquote_to_bytes (quote_from_bytes bs) = bs.
Proof.
  induction 1 as [|b bs Hb _ IH]; [reflexivity|].
  unfold quote_from_bytes in *. cbn [flat_map].
  now rewrite unquote_quote_byte, IH.
Qed.

Lemma quote_from_bytes_chars (bs : bytes) :
  Forall (fun b => b < 256) bs ->
  forallb is_quoted_char (quote_from_bytes bs) = true.
Proof.
  induction 1 as [|b bs Hb _ IH]; [reflexivity|].
  unfold quote_from_bytes in *. cbn [flat_map].
  now rewrite forallb_app, quote_byte_chars, IH.
Qed.

(** ** UTF-8 *)

Ltac some_inj E :=
  match type of E with
  | Some ?x = Some ?y => assert (y = x) by congruence; subst y; clear E
  end.

(** Names the quotient and the remainder of [c] by [k] and keeps the two
    facts that tie them to [c]. *)
Ltac euclid c k :=
  let q := fresh "q" in
  let r := fresh "r" in
  pose proof (N.div_mod c k ltac:(lia));
  pose proof (N.mod_lt c k ltac:(lia));
  set (q := c / k) in *; set (r := c mod k) in *;
  clearbody q r.

Ltac forall_bytes := repeat (apply Forall_cons; [cbv beta; lia|]); apply Forall_nil.

Lemma utf8_encode_char_bytes (c : N) (bs : bytes) :
  utf8_encode_char c = Some bs -> Forall (fun b => b < 256) bs.
Proof.
  unfold utf8_encode_char.
  replace (c / 262144) with (c / 64 / 64 / 64)
    by (rewrite !N.Div0.div_div; reflexivity).
  replace (c / 4096) with (c / 64 / 64)
    by (rewrite !N.Div0.div_div; reflexivity).
  destruct (N.ltb_spec c 128); [intros E; some_inj E; forall_bytes|].
  destruct (N.ltb_spec c 2048).
  { intros E; some_inj E. euclid c 64. forall_bytes. }
  destruct (N.ltb_spec c 65536).
  { destruct ((55296 <=? c) && (c <? 57344)); [discriminate|].
    intros E; some_inj E. euclid c 64. euclid q 64. forall_bytes. }
  destruct (N.ltb_spec c 1114112); [|discriminate].
  intros E; some_inj E. euclid c 64. euclid q 64. euclid q0 64. forall_bytes.
Qed.

Lemma is_cont_tail (r : N) : r < 64 -> is_cont (128 + r) = true.
Proof.
  intros H. unfold is_cont. apply andb_true_iff.
  split; [apply N.leb_le | apply N.ltb_lt]; lia.
Qed.

Ltac ltb_false := apply N.ltb_ge; lia.
Ltac ltb_true := apply N.ltb_lt; lia.

Lemma utf8_decode_1 (b : N) (rest : bytes) :
  b < 128 -> utf8_decode (b :: rest) = option_map (cons b) (utf8_decode rest).
Proof.
  intros H. cbn [utf8_decode].
  replace (b <? 128) with true by (symmetry; ltb_true). reflexivity.
Qed.

Lemma utf8_decode_2 (b0 b1 : N) (rest : bytes) :
  194 <= b0 < 224 -> is_cont b1 = true ->
  utf8_decode (b0 :: b1 :: rest)
  = option_map (cons ((b0 - 192) * 64 + (b1 - 128))) (utf8_decode rest).
Proof.
  intros H H1. cbn [utf8_decode].
  replace (b0 <? 128) with false by (symmetry; ltb_false).
  replace (b0 <? 194) with false by (symmetry; ltb_false).
  replace (b0 <? 224) with true by (symmetry; ltb_true).
  now rewrite H1.
Qed.

Lemma utf8_decode_3 (b0 b1 b2 : N) (rest : bytes) :
  224 <= b0 < 240 -> is_cont b1 = true -> is_cont b2 = true ->
  2048 <= (b0 - 224) * 4096 + (b1 - 128) * 64 + (b2 - 128) ->
  ((b0 - 224) * 4096 + (b1 - 128) * 64 + (b2 - 128) < 55296
   \/ 57344 <= (b0 - 224) * 4096 + (b1 - 128) * 64 + (b2 - 128)) ->
  utf8_decode (b0 :: b1 :: b2 :: rest)
  = option_map (cons ((b0 - 224) * 4096 + (b1 - 128) * 64 + (b2 - 128)))
      (utf8_decode rest).
Proof.
  intros H H1 H2 Hlo Hsur. cbn [utf8_decode].
  replace (b0 <? 128) with false by (symmetry; ltb_false).
  replace (b0 <? 194) with false by (symmetry; ltb_false).
  replace (b0 <? 224) with false by (symmetry; ltb_false).
  replace (b0 <? 240) with true by (symmetry; ltb_true).
  rewrite H1, H2. cbn [andb]. cbv zeta.
  set (c := (b0 - 224) * 4096 + (b1 - 128) * 64 + (b2 - 128)) in *.
  replace (c <? 2048) with false by (symmetry; ltb_false).
  replace ((55296 <=? c) && (c <? 57344)) with false; [reflexivity|].
  symmetry. apply andb_false_iff.
  destruct Hsur; [left; apply N.leb_gt | right; apply N.ltb_ge]; lia.
Qed.

Lemma utf8_decode_4 (b0 b1 b2 b3 : N) (rest : bytes) :
  240 <= b0 < 245 ->
  is_cont b1 = true -> is_cont b2 = true -> is_cont b3 = true ->
  65536 <= (b0 - 240) * 262144 + (b1 - 128) * 4096 + (b2 - 128) * 64 + (b3 - 128)
           < 1114112 ->
  utf8_decode (b0 :: b1 :: b2 :: b3 :: rest)
  = option_map
      (cons ((b0 - 240) * 262144 + (b1 - 128) * 4096 + (b2 - 128) * 64 + (b3 - 128)))
      (utf8_decode rest).
Proof.
  intros H H1 H2 H3 Hr. cbn [utf8_decode].
  replace (b0 <? 128) with false by (symmetry; ltb_false).
  replace (b0 <? 194) with false by (symmetry; ltb_false).
  replace (b0 <? 224) with false by (symmetry; ltb_false).
  replace (b0 <? 240) with false by (symmetry; ltb_false).
  replace (b0 <? 245) with true by (symmetry; ltb_true).
  rewrite H1, H2, H3. cbn [andb]. cbv zeta.
  set (c := (b0 - 240) * 262144 + (b1 - 128) * 4096 + (b2 - 128) * 64 + (b3 - 128)) in *.
  replace (c <? 65536) with false by (symmetry; ltb_false).
  replace (1114112 <=? c) with false by (symmetry; apply N.leb_gt; lia).
  reflexivity.
Qed.

(** Decoding undoes the encoding of one code point. *)
Lemma utf8_decode_encode_char (c : N) (bs rest : bytes) :
  utf8_encode_char c = Some bs ->
  utf8_decode (bs ++ rest) = option_map (cons c) (utf8_decode rest).
Proof.
  unfold utf8_encode_char.
  replace (c / 262144) with (c / 64 / 64 / 64)
    by (rewrite !N.Div0.div_div; reflexivity).
  replace (c / 4096) with (c / 64 / 64)
    by (rewrite !N.Div0.div_div; reflexivity).
  destruct (N.ltb_spec c 128).
  { intros E; some_inj E. now apply utf8_decode_1. }
  destruct (N.ltb_spec c 2048).
  { intros E; some_inj E. euclid c 64. cbn [app].
    rewrite utf8_decode_2; [|lia|now apply is_cont_tail].
    do 2 f_equal. lia. }
  destruct (N.ltb_spec c 65536).
  { destruct ((55296 <=? c) && (c <? 57344)) eqn:Hs; [discriminate|].
    intros E; some_inj E.
    apply andb_false_iff in Hs.
    assert (Hsur : c < 55296 \/ 57344 <= c).
    { destruct Hs as [Hs|Hs]; [left; apply N.leb_gt in Hs | right; apply N.ltb_ge in Hs]; lia. }
    euclid c 64. euclid q 64. cbn [app].
    assert (Hc : (224 + q0 - 224) * 4096 + (128 + r0 - 128) * 64 + (128 + r - 128) = c)
      by lia.
    rewrite utf8_decode_3; try (now apply is_cont_tail); try lia.
    rewrite Hc. reflexivity. }
  destruct (N.ltb_spec c 1114112); [|discriminate].
  intros E; some_inj E.
  euclid c 64. euclid q 64. euclid q0 64. cbn [app].
  assert (Hc : (240 + q1 - 240) * 262144 + (128 + r1 - 128) * 4096
               + (128 + r0 - 128) * 64 + (128 + r - 128) = c) by lia.
  rewrite utf8_decode_4; try (now apply is_cont_tail); try lia.
  rewrite Hc. reflexivity.
Qed.

Lemma utf8_encode_bytes (s : str) :
  forall bs, utf8_encode s = Some bs -> Forall (fun b => b < 256) bs.
Proof.
  induction s as [|c s IH]; intros bs; cbn [utf8_encode].
  - intros E; some_inj E. constructor.
  - destruct (utf8_encode_char c) as [b|] eqn:Hc; [|discriminate].
    destruct (utf8_encode s) as [bs'|]; [|discriminate].
    intros E; some_inj E. apply Forall_app. split.
    + now apply (utf8_encode_char_bytes c).
    + now apply IH.
Qed.

(** Decoding undoes the encoding. *)
Lemma utf8_decode_encode (s : str) :
  forall bs, utf8_encode s = Some bs -> utf8_decode bs = Some s.
Proof.
  induction s as [|c s IH]; intros bs; cbn [utf8_encode].
  - intros E; some_inj E. reflexivity.
  - destruct (utf8_encode_char c) as [b|] eqn:Hc; [|discriminate].
    destruct (utf8_encode s) as [bs'|]; [|discriminate].
    intros E; some_inj E.
    rewrite (utf8_decode_encode_char c b bs' Hc), (IH bs' eq_refl).
    reflexivity.
Qed.

(** ** Quoted text *)

Lemma is_quoted_char_spec (c : N) :
  is_quoted_char c = true ->
  c < 128 /\ c <> 35 /\ c <> 63 /\ c <> 38 /\ c <> 61.
Proof.
  unfold is_quoted_char, always_safe, Re.in_range. intros H.
  repeat (apply orb_true_iff in H as [H|H]);
    try (apply andb_true_iff in H as [H1 H2]; apply N.leb_le in H1, H2; lia);
    apply N.eqb_eq in H; lia.
Qed.

Lemma quoted_is_ascii (q : str) :
  forallb is_quoted_char q = true -> forallb (fun c => c <? 128) q = true.
Proof.
  apply forallb_impl. intros c Hc. apply N.ltb_lt.
  now apply is_quoted_char_spec.
Qed.

Lemma quoted_lacks (q : str) (c : N) :
  forallb is_quoted_char q = true ->
  c = 35 \/ c = 63 \/ c = 38 \/ c = 61 ->
  ~ In c q.
Proof.
  intros H Hc Hin. rewrite forallb_forall in H.
  apply H, is_quoted_char_spec in Hin. lia.
Qed.

Lemma quote_chars (s q : str) :
  quote s = Some q -> forallb is_quoted_char q = true.
Proof.
  unfold quote. destruct (is_empty s) eqn:He.
  - apply is_empty_true in He as ->. intros E; some_inj E. reflexivity.
  - destruct (utf8_encode s) as [bs|] eqn:Hb; [|discriminate].
    intros E; some_inj E.
    apply quote_from_bytes_chars. now apply (utf8_encode_bytes s).
Qed.

(** Percent-decoding undoes [quote]. *)
Lemma unquote_quote (s q : str) : quote s = Some q -> unquote q = Some s.
Proof.
  intros H. pose proof (quote_chars s q H) as Hq.
  unfold unquote. rewrite (quoted_is_ascii q Hq).
  unfold quote in H. destruct (is_empty s) eqn:He.
  - apply is_empty_true in He as ->. some_inj H. reflexivity.
  - destruct (utf8_encode s) as [bs|] eqn:Hb; [|discriminate].
    some_inj H.
    rewrite (unquote_quote_bytes bs (utf8_encode_bytes s bs Hb)).
    now apply utf8_decode_encode.
Qed.

(** ** Splitting *)

Lemma partition_at_app (c : N) (a b : str) :
  ~ In c a -> partition_at c (a ++ c :: b) = Some (a, b).
Proof.
  induction a as [|x a IH]; intros H; cbn [app partition_at].
  - now rewrite N.eqb_refl.
  - replace (x =? c) with false
      by (symmetry; apply N.eqb_neq; intros ->; apply H; now left).
    rewrite IH; [reflexivity|]. intros Hin. apply H. now right.
Qed.

Lemma split_on_absent (c : N) (a : str) : ~ In c a -> split_on c a = [a].
Proof.
  induction a as [|x a IH]; intros H; cbn [split_on]; [reflexivity|].
  replace (x =? c) with false
    by (symmetry; apply N.eqb_neq; intros ->; apply H; now left).
  rewrite IH; [reflexivity|]. intros Hin. apply H. now right.
Qed.

Lemma split_on_app (c : N) (a b : str) :
  ~ In c a -> split_on c (a ++ c :: b) = a :: split_on c b.
Proof.
  induction a as [|x a IH]; intros H; cbn [app split_on].
  - now rewrite N.eqb_refl.
  - replace (x =? c) with false
      by (symmetry; apply N.eqb_neq; intros ->; apply H; now left).
    rewrite IH; [reflexivity|]. intros Hin. apply H. now right.
Qed.

Lemma split_on_join (c : N) (fields : list str) :
  fields <> [] ->
  (forall f, In f fields -> ~ In c f) ->
  split_on c (join [c] fields) = fields.
Proof.
  induction fields as [|f fields IH]; intros Hne H; [congruence|].
  destruct fields as [|g fields].
  - cbn [join]. apply split_on_absent. apply H. now left.
  - change (join [c] (f :: g :: fields)) with (f ++ c :: join [c] (g :: fields)).
    rewrite split_on_app by (apply H; now left).
    f_equal. apply IH; [discriminate|].
    intros x Hx. apply H. now right.
Qed.

(** ** The query *)

Lemma urlencode_items_fields (items : list (str * str)) :
  forall l,
    urlencode_items items = Some l ->
    List.length l = List.length items
    /\ (forall f, In f l ->
                  forall c, c = 35 \/ c = 63 \/ c = 38 -> ~ In c f)
    /\ decode_fields l = Some items.
Proof.
  induction items as [|[k v] items IH]; intros l; cbn [urlencode_items].
  - intros E; some_inj E. repeat split. intros f [].
  - destruct (quote k) as [qk|] eqn:Hk; [|discriminate].
    destruct (quote v) as [qv|] eqn:Hv; [|discriminate].
    destruct (urlencode_items items) as [l'|]; [|discriminate].
    intros E; some_inj E.
    destruct (IH l' eq_refl) as [Hlen [Hch Hdec]].
    pose proof (quote_chars k qk Hk) as Hqk.
    pose proof (quote_chars v qv Hv) as Hqv.
    split; [cbn [List.length]; now rewrite Hlen|]. split.
    + intros f [<-|Hf] c Hc.
      * intros Hin. apply in_app_or in Hin as [Hin|Hin].
        -- revert Hin. apply quoted_lacks; [assumption | tauto].
        -- change (py "=" ++ qv) with (61 :: qv) in Hin.
           destruct Hin as [<-|Hin]; [lia|].
           revert Hin. apply quoted_lacks; [assumption | tauto].
      * now apply Hch.
    + cbn [decode_fields].
      change (qk ++ py "=" ++ qv) with (qk ++ 61 :: qv).
      rewrite partition_at_app by (apply quoted_lacks; [assumption | tauto]).
      now rewrite (unquote_quote k qk Hk), (unquote_quote v qv Hv), Hdec.
Qed.

Lemma join_lacks (c sep : N) (l : list str) :
  c <> sep ->
  (forall f, In f l -> ~ In c f) ->
  ~ In c (join [sep] l).
Proof.
  intros Hsep. induction l as [|f l IH]; intros H; [intros []|].
  destruct l as [|g l].
  - cbn [join]. apply H. now left.
  - change (join [sep] (f :: g :: l)) with (f ++ sep :: join [sep] (g :: l)).
    intros Hin. apply in_app_or in Hin as [Hin|[Hin|Hin]].
    + revert Hin. apply H. now left.
    + congruence.
    + revert Hin. apply IH. intros x Hx. apply H. now right.
Qed.

Lemma urlencode_decode (params : list (str * str)) (query : str) :
  params <> [] ->
  urlencode params = Some query ->
  ~ In 35 query /\ ~ In 63 query
  /\ decode_fields (split_on 38 query) = Some params.
Proof.
  intros Hne. unfold urlencode.
  destruct (urlencode_items params) as [l|] eqn:Hl; [|discriminate].
  intros E; some_inj E.
  destruct (urlencode_items_fields params l Hl) as [Hlen [Hch Hdec]].
  change (py "&") with [38].
  split; [|split].
  - apply join_lacks; [lia|]. intros f Hf. apply (Hch f Hf). tauto.
  - apply join_lacks; [lia|]. intros f Hf. apply (Hch f Hf). tauto.
  - rewrite split_on_join; [exact Hdec| |].
    + destruct l; [|discriminate]. destruct params; [congruence | discriminate].
    + intros f Hf. apply (Hch f Hf). tauto.
Qed.

(** ** Characters that a validated UUID cannot hold *)

Lemma dropwhile_keeps (p : N -> bool) (c : N) (s : str) :
  p c = false -> In c s -> In c (dropwhile p s).
Proof.
  intros Hc. induction s as [|x s IH]; [intros []|].
  cbn [dropwhile]. destruct (p x) eqn:Hx; [|auto].
  intros [->|Hin]; [congruence | auto].
Qed.

Lemma strip_by_keeps (p : N -> bool) (c : N) (s : str) :
  p c = false -> In c s -> In c (strip_by p s).
Proof.
  intros Hc Hin. unfold strip_by, rstrip_by, lstrip_by.
  apply in_rev. rewrite rev_involutive.
  apply dropwhile_keeps; [exact Hc|]. apply -> in_rev.
  now apply dropwhile_keeps.
Qed.

Lemma skipn_step {A : Type} (n : nat) (l : list A) (y : A) (rem : list A) :
  skipn n l = y :: rem -> skipn (S n) l = rem.
Proof.
  revert l. induction n as [|n IH]; intros l H.
  - simpl in H. now subst l.
  - destruct l as [|a l]; [discriminate|]. simpl in H. simpl. now apply IH.
Qed.

Lemma startswith_cons (y : N) (rem : str) (x : N) (s : str) :
  startswith (y :: rem) (x :: s) = true -> y = x /\ startswith rem s = true.
Proof.
  cbn [startswith]. intros H. apply andb_true_iff in H as [H1 H2].
  apply N.eqb_eq in H1. now split.
Qed.

Lemma remove_from_keeps (pat : str) (c : N) :
  pat <> [] -> ~ In c pat ->
  forall (s : str) (k : nat),
    (k <= List.length pat)%nat ->
    startswith (skipn (List.length pat - k) pat) s = true ->
    In c s -> In c (remove_from pat k s).
Proof.
  intros Hpat Hc. induction s as [|x s IH]; intros k Hk Hst Hin; [destruct Hin|].
  destruct k as [|k].
  - cbn [remove_from]. destruct (startswith pat (x :: s)) eqn:Hsw.
    + destruct pat as [|p0 pat']; [congruence|].
      apply startswith_cons in Hsw as [-> Hsw].
      apply IH.
      * cbn [List.length pred]. lia.
      * cbn [List.length pred].
        replace (S (List.length pat') - List.length pat')%nat with 1%nat by lia.
        exact Hsw.
      * destruct Hin as [->|Hin]; [|exact Hin]. exfalso. apply Hc. now left.
    + destruct Hin as [->|Hin]; [now left|]. right.
      apply IH; [lia| |exact Hin].
      rewrite Nat.sub_0_r, skipn_all. reflexivity.
  - cbn [remove_from].
    destruct (skipn (List.length pat - S k) pat) as [|y rem] eqn:Hsk.
    + exfalso. apply (f_equal (@List.length N)) in Hsk.
      rewrite length_skipn in Hsk. simpl in Hsk. lia.
    + apply startswith_cons in Hst as [-> Hst].
      apply IH.
      * lia.
      * replace (List.length pat - k)%nat with (S (List.length pat - S k)) by lia.
        now rewrite (skipn_step _ _ _ _ Hsk).
      * destruct Hin as [->|Hin]; [|exact Hin]. exfalso. apply Hc.
        rewrite <- (firstn_skipn (List.length pat - S k) pat), Hsk.
        apply in_or_app. right. now left.
Qed.

Lemma replace_with_empty_keeps (pat : str) (c : N) (s : str) :
  pat <> [] -> ~ In c pat -> In c s -> In c (replace_with_empty pat s).
Proof.
  intros Hpat Hc Hin. unfold replace_with_empty.
  apply remove_from_keeps; try assumption; [lia|].
  rewrite Nat.sub_0_r, skipn_all. reflexivity.
Qed.

Section IntLiteral.

(** [c] is a character that no base-16 literal holds. *)
Variable c : N.
Hypothesis c_bad : c = 35 \/ c = 63.

Lemma bad_not_space : PyUuid.Py_ISSPACE c = false.
Proof. destruct c_bad as [-> | ->]; reflexivity. Qed.

Lemma bad_not_digit : PyUuid.hex_digit_value c = None.
Proof. destruct c_bad as [-> | ->]; reflexivity. Qed.

Lemma parse_sign_keeps (s : str) :
  In c s -> In c (snd (PyUuid.parse_sign s)).
Proof.
  destruct s as [|x s]; [intros []|].
  destruct (N.eq_dec x 43) as [->|H43].
  { cbn. intros [H|H]; [lia | exact H]. }
  destruct (N.eq_dec x 45) as [->|H45].
  { cbn. intros [H|H]; [lia | exact H]. }
  now rewrite parse_sign_other.
Qed.

Lemma skip_prefix_16_keeps (s : str) :
  In c s -> In c (PyUuid.skip_prefix_16 s).
Proof.
  destruct s as [|x s]; [intros []|].
  destruct (N.eq_dec x 48) as [->|H48]; [|now rewrite skip_prefix_16_other].
  destruct s as [|y s]; [auto|].
  unfold PyUuid.skip_prefix_16.
  destruct ((y =? 120) || (y =? 88)) eqn:Hy; [|auto].
  intros [H|[H|H]]; [lia| |].
  - apply orb_true_iff in Hy as [Hy|Hy]; apply N.eqb_eq in Hy; lia.
  - destruct s as [|z s]; [destruct H|].
    destruct (N.eq_dec z 95) as [->|Hz].
    + destruct H as [H|H]; [lia | exact H].
    + revert H. clear -Hz. crack_char; intros H; try exact H; congruence.
Qed.

Lemma scan_hex_digits_keeps (s : str) :
  forall (prev_us : bool) (acc : Z) (n : nat) (v : Z) (n' : nat) (rest : str),
    PyUuid.scan_hex_digits prev_us acc n s = Some (v, n', rest) ->
    In c s -> In c rest.
Proof.
  induction s as [|x s IH]; intros prev_us acc n v n' rest H Hin; [destruct Hin|].
  cbn [PyUuid.scan_hex_digits] in H.
  destruct (N.eqb_spec x 95) as [->|Hx].
  - destruct prev_us; [discriminate|].
    destruct Hin as [Hin|Hin]; [lia|]. eauto.
  - destruct (PyUuid.hex_digit_value x) as [d|] eqn:Hd.
    + destruct Hin as [->|Hin]; [rewrite bad_not_digit in Hd; discriminate|].
      eauto.
    + destruct prev_us; [discriminate|]. injection H as _ _ <-. exact Hin.
Qed.

Lemma dropwhile_empty_all (p : N -> bool) (s : str) :
  is_empty (dropwhile p s) = true -> forall x, In x s -> p x = true.
Proof.
  induction s as [|y s IH]; cbn [dropwhile]; [intros _ x []|].
  destruct (p y) eqn:Hy; [|discriminate].
  intros H x [<-|Hx]; auto.
Qed.

Lemma long_from_string_16_lacks (s : str) (v : Z) :
  PyUuid.long_from_string_16 s = Some v -> ~ In c s.
Proof.
  unfold PyUuid.long_from_string_16. intros H Hin.
  apply (dropwhile_keeps PyUuid.Py_ISSPACE c s bad_not_space) in Hin.
  apply parse_sign_keeps in Hin.
  destruct (PyUuid.parse_sign (dropwhile PyUuid.Py_ISSPACE s)) as [sign s2].
  cbn [snd] in Hin. apply skip_prefix_16_keeps in Hin.
  destruct (startswith [95] (PyUuid.skip_prefix_16 s2)); [discriminate|].
  destruct (PyUuid.scan_hex_digits false 0 0 (PyUuid.skip_prefix_16 s2))
    as [[[v' n] rest]|] eqn:Hscan; [|discriminate].
  apply (scan_hex_digits_keeps _ _ _ _ _ _ _ Hscan) in Hin.
  destruct n; [discriminate|].
  destruct (is_empty (dropwhile PyUuid.Py_ISSPACE rest)) eqn:He; [|discriminate].
  pose proof (dropwhile_empty_all _ _ He c Hin) as Hsp.
  rewrite bad_not_space in Hsp. discriminate.
Qed.

Lemma transform_keeps (s : str) :
  In c s ->
  In c (PyUuid.transform_decimal_and_space s)
  \/ In 63 (PyUuid.transform_decimal_and_space s).
Proof.
  induction s as [|x s IH]; [intros []|].
  cbn [PyUuid.transform_decimal_and_space]. intros Hin.
  destruct (N.ltb_spec x 127) as [Hx|Hx].
  - destruct Hin as [->|Hin]; [left; now left|].
    destruct (IH Hin); [left | right]; now right.
  - assert (Hs : In c s) by (destruct Hin as [->|Hin]; [lia | exact Hin]).
    destruct (isspace x).
    + destruct (IH Hs); [left | right]; now right.
    + destruct (PyUuid.unicode_decimal x).
      * destruct (IH Hs); [left | right]; now right.
      * right. now left.
Qed.

End IntLiteral.

Lemma int_16_lacks (s : str) (v : Z) (c : N) :
  c = 35 \/ c = 63 -> PyUuid.int_16 s = Some v -> ~ In c s.
Proof.
  intros Hc. unfold PyUuid.int_16, PyUuid.to_ascii_decimal_and_space.
  destruct (forallb _ s).
  - now apply long_from_string_16_lacks.
  - intros H Hin. destruct (transform_keeps c Hc s Hin) as [Hin'|Hin'].
    + revert Hin'. now apply (long_from_string_16_lacks c Hc _ v).
    + revert Hin'. apply (long_from_string_16_lacks 63 (or_intror eq_refl) _ v H).
Qed.

(** A validated UUID holds neither [#] nor [?]. *)
Lemma validate_uuid_lacks (u : str) (c : N) :
  c = 35 \/ c = 63 -> _validate_uuid u = Ok tt -> ~ In c u.
Proof.
  intros Hc. unfold _validate_uuid.
  destruct (PyUuid.UUID u) as [i|] eqn:Hu; [intros _ | discriminate].
  unfold PyUuid.UUID in Hu.
  change (replace_with_empty (py "-") _) with (uuid_digits u) in Hu.
  destruct (negb _); [discriminate|].
  destruct (PyUuid.int_16 (uuid_digits u)) as [v|] eqn:Hv; [|discriminate].
  intros Hin. apply (int_16_lacks _ _ c Hc Hv).
  unfold uuid_digits.
  apply replace_with_empty_keeps;
    [discriminate | cbn; intros [H|[]]; lia |].
  apply strip_by_keeps; [destruct Hc as [-> | ->]; reflexivity|].
  apply replace_with_empty_keeps;
    [discriminate | cbn; intros H; repeat destruct H as [H|H]; lia |].
  apply replace_with_empty_keeps;
    [discriminate | cbn; intros H; repeat destruct H as [H|H]; lia |].
  exact Hin.
Qed.

(** ** Validation of the UUID, by the characters that remain *)

Section OutsideLiteral.

(** [c] is a character that no base-16 literal holds. *)
Variable c : N.
Hypothesis c_outside : outside_literal c = true.

Lemma outside_facts :
  is_hex c = false /\ PyUuid.unicode_decimal c = None /\ isspace c = false
  /\ PyUuid.Py_ISSPACE c = false
  /\ c <> 95 /\ c <> 43 /\ c <> 45 /\ c <> 120 /\ c <> 88.
Proof.
  pose proof c_outside as H. unfold outside_literal in H.
  apply negb_true_iff in H. rewrite !orb_false_iff in H.
  destruct H as ((((((((H1 & H2) & H3) & H4) & H5) & H6) & H7) & H8) & H9).
  destruct (PyUuid.unicode_decimal c); [discriminate|].
  apply N.eqb_neq in H5, H6, H7, H8, H9. now repeat split.
Qed.

Lemma outside_not_digit : PyUuid.hex_digit_value c = None.
Proof.
  destruct outside_facts as [H _]. unfold PyUuid.hex_digit_value, is_hex in *.
  apply orb_false_iff in H as [H H3]. apply orb_false_iff in H as [H1 H2].
  now rewrite H1, H2, H3.
Qed.

Lemma parse_sign_keeps_outside (s : str) :
  In c s -> In c (snd (PyUuid.parse_sign s)).
Proof.
  destruct outside_facts as (_ & _ & _ & _ & _ & H43 & H45 & _).
  destruct s as [|x s]; [intros []|].
  destruct (N.eq_dec x 43) as [->|Hx43].
  { cbn. intros [H|H]; [congruence | exact H]. }
  destruct (N.eq_dec x 45) as [->|Hx45].
  { cbn. intros [H|H]; [congruence | exact H]. }
  now rewrite parse_sign_other.
Qed.

Lemma skip_prefix_16_keeps_outside (s : str) :
  In c s -> In c (PyUuid.skip_prefix_16 s).
Proof.
  destruct outside_facts as (Hhex & _ & _ & _ & H95 & _ & _ & H120 & H88).
  destruct s as [|x s]; [intros []|].
  destruct (N.eq_dec x 48) as [->|H48]; [|now rewrite skip_prefix_16_other].
  destruct s as [|y s]; [auto|].
  unfold PyUuid.skip_prefix_16.
  destruct ((y =? 120) || (y =? 88)) eqn:Hy; [|auto].
  intros [H|[H|H]].
  - subst c. discriminate Hhex.
  - apply orb_true_iff in Hy as [Hy|Hy]; apply N.eqb_eq in Hy; congruence.
  - destruct s as [|z s]; [destruct H|].
    destruct (N.eq_dec z 95) as [->|Hz].
    + destruct H as [H|H]; [congruence | exact H].
    + revert H. clear -Hz. crack_char; intros H; try exact H; congruence.
Qed.

Lemma scan_hex_digits_keeps_outside (s : str) :
  forall (prev_us : bool) (acc : Z) (n : nat) (v : Z) (n' : nat) (rest : str),
    PyUuid.scan_hex_digits prev_us acc n s = Some (v, n', rest) ->
    In c s -> In c rest.
Proof.
  destruct outside_facts as (_ & _ & _ & _ & H95 & _).
  induction s as [|x s IH]; intros prev_us acc n v n' rest H Hin; [destruct Hin|].
  cbn [PyUuid.scan_hex_digits] in H.
  destruct (N.eqb_spec x 95) as [->|Hx].
  - destruct prev_us; [discriminate|].
    destruct Hin as [Hin|Hin]; [congruence|]. eauto.
  - destruct (PyUuid.hex_digit_value x) as [d|] eqn:Hd.
    + destruct Hin as [->|Hin]; [rewrite outside_not_digit in Hd; discriminate|].
      eauto.
    + destruct prev_us; [discriminate|]. injection H as _ _ <-. exact Hin.
Qed.

Lemma long_from_string_16_lacks_outside (s : str) (v : Z) :
  PyUuid.long_from_string_16 s = Some v -> ~ In c s.
Proof.
  destruct outside_facts as (_ & _ & _ & Hsp & _).
  unfold PyUuid.long_from_string_16. intros H Hin.
  apply (dropwhile_keeps PyUuid.Py_ISSPACE c s Hsp) in Hin.
  apply parse_sign_keeps_outside in Hin.
  destruct (PyUuid.parse_sign (dropwhile PyUuid.Py_ISSPACE s)) as [sign s2].
  cbn [snd] in Hin. apply skip_prefix_16_keeps_outside in Hin.
  destruct (startswith [95] (PyUuid.skip_prefix_16 s2)); [discriminate|].
  destruct (PyUuid.scan_hex_digits false 0 0 (PyUuid.skip_prefix_16 s2))
    as [[[v' n] rest]|] eqn:Hscan; [|discriminate].
  apply (scan_hex_digits_keeps_outside _ _ _ _ _ _ _ Hscan) in Hin.
  destruct n; [discriminate|].
  destruct (is_empty (dropwhile PyUuid.Py_ISSPACE rest)) eqn:He; [|discriminate].
  pose proof (dropwhile_empty_all _ _ He c Hin) as Hsp'.
  rewrite Hsp in Hsp'. discriminate.
Qed.

(** What [int] reads of a text that is not ASCII still holds the character,
    or holds a question mark. *)
Lemma transform_keeps_outside (s : str) :
  In c s ->
  In c (PyUuid.transform_decimal_and_space s)
  \/ In 63 (PyUuid.transform_decimal_and_space s).
Proof.
  destruct outside_facts as (_ & Hdec & Hus & _).
  induction s as [|x s IH]; [intros []|].
  cbn [PyUuid.transform_decimal_and_space]. intros Hin.
  destruct (N.ltb_spec x 127) as [Hx|Hx].
  - destruct Hin as [->|Hin]; [left; now left|].
    destruct (IH Hin); [left | right]; now right.
  - destruct (isspace x) eqn:Hsx.
    + destruct Hin as [->|Hin]; [congruence|].
      destruct (IH Hin); [left | right]; now right.
    + destruct (PyUuid.unicode_decimal x) eqn:Hdx.
      * destruct Hin as [->|Hin]; [congruence|].
        destruct (IH Hin); [left | right]; now right.
      * right. now left.
Qed.

End OutsideLiteral.

Lemma int_16_lacks_outside (s : str) (v : Z) (c : N) :
  outside_literal c = true -> PyUuid.int_16 s = Some v -> ~ In c s.
Proof.
  intros Hc. unfold PyUuid.int_16, PyUuid.to_ascii_decimal_and_space.
  destruct (forallb _ s).
  - now apply long_from_string_16_lacks_outside.
  - intros H Hin. destruct (transform_keeps_outside c Hc s Hin) as [Hin'|Hin'].
    + revert Hin'. now apply (long_from_string_16_lacks_outside c Hc _ v).
    + revert Hin'.
      now apply (long_from_string_16_lacks_outside 63 eq_refl _ v).
Qed.

(** What is left of the string is what [uuid.UUID] takes the length of and
    hands to [int]. *)
Lemma validate_uuid_exactly (u : str) :
  _validate_uuid u = Ok tt
  <-> List.length (uuid_digits u) = 32%nat
      /\ exists i, PyUuid.int_16 (uuid_digits u) = Some i
                   /\ (0 <= i < 2 ^ 128)%Z.
Proof.
  unfold _validate_uuid, PyUuid.UUID.
  change (replace_with_empty (py "-") _) with (uuid_digits u).
  destruct (Nat.eqb_spec (List.length (uuid_digits u)) 32) as [Hlen|Hlen];
    cbn [negb].
  2:{ split; [discriminate|]. intros [H _]. congruence. }
  destruct (PyUuid.int_16 (uuid_digits u)) as [i|].
  2:{ split; [discriminate|]. intros [_ [i [H _]]]. discriminate. }
  destruct ((0 <=? i)%Z && (i <? 2 ^ 128)%Z) eqn:Hr.
  - split; [|reflexivity]. intros _. split; [exact Hlen|]. exists i.
    apply andb_true_iff in Hr as [H1 H2].
    apply Z.leb_le in H1. apply Z.ltb_lt in H2. now repeat split.
  - split; [discriminate|]. intros [_ [j [E [H1 H2]]]].
    assert (j = i) by congruence. subst j.
    apply Z.leb_le in H1. apply Z.ltb_lt in H2.
    rewrite H1, H2 in Hr. discriminate.
Qed.

Lemma validate_uuid_outcomes (u : str) :
  _validate_uuid u = Ok tt \/ _validate_uuid u = Raise (InvalidUUID u).
Proof. unfold _validate_uuid. destruct (PyUuid.UUID u); auto. Qed.

Lemma validate_uuid_outside (u : str) (c : N) :
  In c (uuid_digits u) -> outside_literal c = true ->
  _validate_uuid u = Raise (InvalidUUID u).
Proof.
  intros Hin Hc. destruct (validate_uuid_outcomes u) as [H|H]; [|exact H].
  exfalso. apply validate_uuid_exactly in H as [_ [i [Hi _]]].
  now apply (int_16_lacks_outside _ _ c Hc Hi).
Qed.

(** A character that is left when [urn:], [uuid:], braces and hyphens are
    dropped. *)
Lemma uuid_digits_keeps (u : str) (c : N) :
  In c u -> ~ In c (py "urn:uuid:{}-") -> In c (uuid_digits u).
Proof.
  intros Hin Hc. unfold uuid_digits.
  apply replace_with_empty_keeps;
    [discriminate | intros H; apply Hc; cbn in *; tauto |].
  apply strip_by_keeps.
  { destruct (existsb (N.eqb c) (py "{}")) eqn:E; [|reflexivity].
    exfalso. apply Hc. apply existsb_exists in E as [x [Hx E]].
    apply N.eqb_eq in E. subst x. cbn in *. tauto. }
  apply replace_with_empty_keeps;
    [discriminate | intros H; apply Hc; cbn in *; tauto |].
  apply replace_with_empty_keeps;
    [discriminate | intros H; apply Hc; cbn in *; tauto |].
  exact Hin.
Qed.

(** C4, as amended: validation accepts a string exactly when what is left of
    it, once [urn:], [uuid:], braces at both ends and hyphens are dropped,
    is 32 characters that [int] reads in base 16.  So every canonical text
    is accepted, and so is every other spelling of 32 hexadecimal digits;
    every string of which something else than 32 characters is left is
    rejected; and so is every string of which a character is left that no
    base-16 literal holds, in particular a string that holds such a
    character which is not one of [urn:uuid:{}-]. *)
Theorem validate_uuid_by_remaining_text :
  (forall u, is_canonical_uuid u = true -> _validate_uuid u = Ok tt)
  /\ (forall u, List.length (uuid_digits u) <> 32%nat ->
                _validate_uuid u = Raise (InvalidUUID u))
  /\ (forall u, List.length (uuid_digits u) = 32%nat ->
                forallb is_hex (uuid_digits u) = true ->
                _validate_uuid u = Ok tt)
  /\ (forall u c, In c (uuid_digits u) -> outside_literal c = true ->
                  _validate_uuid u = Raise (InvalidUUID u))
  /\ (forall u c, In c u -> outside_literal c = true ->
                  ~ In c (py "urn:uuid:{}-") ->
                  _validate_uuid u = Raise (InvalidUUID u))
  /\ (forall u, _validate_uuid u = Ok tt
                <-> List.length (uuid_digits u) = 32%nat
                    /\ exists i, PyUuid.int_16 (uuid_digits u) = Some i
                                 /\ (0 <= i < 2 ^ 128)%Z)
  /\ (forall u, _validate_uuid u = Ok tt
                \/ _validate_uuid u = Raise (InvalidUUID u)).
Proof.
  split; [|split; [|split; [|split; [|split; [|split]]]]].
  - intros u H. destruct (canonical_digits u H) as [Hne [Hlen Hhex]].
    now apply validate_uuid_digits.
  - exact validate_uuid_wrong_length.
  - intros u Hlen Hhex. apply validate_uuid_digits; try assumption.
    intros E. rewrite E in Hlen. discriminate.
  - exact validate_uuid_outside.
  - intros u c Hin Hc Hn. apply (validate_uuid_outside u c); [|exact Hc].
    now apply uuid_digits_keeps.
  - exact validate_uuid_exactly.
  - exact validate_uuid_outcomes.
Qed.

Lemma validate_uuid_by_remaining_text_witness :
  is_canonical_uuid sample_id = true
  /\ _validate_uuid sample_id = Ok tt
  /\ List.length (uuid_digits (py "1111-1111")) <> 32%nat
  /\ _validate_uuid (py "1111-1111") = Raise (InvalidUUID (py "1111-1111"))
  /\ List.length (uuid_digits (py "urn:uuid:{11111111111111111111111111111111}"))
     = 32%nat
  /\ forallb is_hex
       (uuid_digits (py "urn:uuid:{11111111111111111111111111111111}")) = true
  /\ _validate_uuid (py "urn:uuid:{11111111111111111111111111111111}") = Ok tt
  /\ In 122 (py "zzzzzzzz-zzzz-zzzz-zzzz-zzzzzzzzzzzz")
  /\ outside_literal 122 = true
  /\ ~ In 122 (py "urn:uuid:{}-")
  /\ _validate_uuid (py "zzzzzzzz-zzzz-zzzz-zzzz-zzzzzzzzzzzz")
     = Raise (InvalidUUID (py "zzzzzzzz-zzzz-zzzz-zzzz-zzzzzzzzzzzz")).
Proof.
  assert (H1 : is_canonical_uuid sample_id = true) by reflexivity.
  assert (H2 : List.length (uuid_digits (py "1111-1111")) <> 32%nat)
    by (vm_compute; discriminate).
  assert (H3 : List.length
                 (uuid_digits (py "urn:uuid:{11111111111111111111111111111111}"))
               = 32%nat) by (vm_compute; reflexivity).
  assert (H4 : forallb is_hex
                 (uuid_digits (py "urn:uuid:{11111111111111111111111111111111}"))
               = true) by (vm_compute; reflexivity).
  assert (H5 : In 122 (py "zzzzzzzz-zzzz-zzzz-zzzz-zzzzzzzzzzzz"))
    by (left; reflexivity).
  assert (H6 : outside_literal 122 = true) by reflexivity.
  assert (H7 : ~ In 122 (py "urn:uuid:{}-"))
    by (cbn; intros H; repeat destruct H as [H|H]; try discriminate H; exact H).
  destruct validate_uuid_by_remaining_text
    as (T1 & T2 & T3 & _ & T5 & _ & _).
  split; [exact H1|]. split; [exact (T1 _ H1)|].
  split; [exact H2|]. split; [exact (T2 _ H2)|].
  split; [exact H3|]. split; [exact H4|]. split; [exact (T3 _ H3 H4)|].
  split; [exact H5|]. split; [exact H6|]. split; [exact H7|].
  exact (T5 _ _ H5 H6 H7).
Defined.

(** ** Decoding the link *)

Lemma str_of_uint_chars (d : Decimal.uint) (c : N) :
  In c (str_of_uint d) -> 48 <= c <= 57.
Proof.
  induction d; cbn [str_of_uint]; intros H;
    try (destruct H as [<-|H]; [lia | auto]).
  destruct H.
Qed.

Lemma str_of_int_chars (z : Z) (c : N) :
  In c (str_of_int z) -> c = 45 \/ 48 <= c <= 57.
Proof.
  unfold str_of_int. destruct (Z.to_int z) as [d|d].
  - intros H. right. now apply (str_of_uint_chars d).
  - intros [<-|H]; [now left|]. right. now apply (str_of_uint_chars d).
Qed.

Lemma build_params (server name fp : str) (r : RealityInbound) (public_key : str) :
  flow r <> Some [] ->
  build_vless_link server name fp r public_key
  = match urlencode (link_params fp r public_key), quote name with
    | Some query, Some frag =>
        Some ((py "vless://" ++ uuid r ++ py "@" ++ server ++ py ":"
               ++ str_of_int (port r)) ++ 63 :: query ++ 35 :: frag)
    | _, _ => None
    end.
Proof.
  intros Hflow. unfold build_vless_link, link_params.
  destruct (flow r) as [f|].
  - assert (Ht : truthy (Some f) = true).
    { destruct f as [|c f']; [exfalso; apply Hflow; reflexivity | reflexivity]. }
    rewrite Ht.
    change (dict_set _ (py "flow") f)
      with ([ (py "type", network r); (py "security", py "reality");
              (py "sni", sni r); (py "fp", fp); (py "pbk", public_key);
              (py "sid", short_id r) ] ++ [ (py "flow", f) ]).
    destruct (urlencode _) as [query|]; [|reflexivity].
    destruct (quote name) as [frag|]; [|reflexivity].
    f_equal. repeat rewrite <- app_assoc. reflexivity.
  - cbn [truthy]. rewrite app_nil_r.
    destruct (urlencode _) as [query|]; [|reflexivity].
    destruct (quote name) as [frag|]; [|reflexivity].
    f_equal. repeat rewrite <- app_assoc. reflexivity.
Qed.

Lemma link_decodes (server name fp : str) (r : RealityInbound)
    (public_key uri : str) :
  flow r <> Some [] ->
  (forall c, c = 35 \/ c = 63 -> ~ In c (uuid r)) ->
  (forall c, c = 35 \/ c = 63 -> ~ In c server) ->
  build_vless_link server name fp r public_key = Some uri ->
  decode_link uri = Some (link_params fp r public_key, name).
Proof.
  intros Hflow Huuid Hserver. rewrite (build_params _ _ _ _ _ Hflow).
  destruct (urlencode (link_params fp r public_key)) as [query|] eqn:Hq;
    [|discriminate].
  destruct (quote name) as [frag|] eqn:Hn; [|discriminate].
  intros E; some_inj E.
  assert (Hne : link_params fp r public_key <> []) by (cbn; discriminate).
  destruct (urlencode_decode _ _ Hne Hq) as [Hq35 [Hq63 Hdec]].
  set (base := py "vless://" ++ uuid r ++ py "@" ++ server ++ py ":"
               ++ str_of_int (port r)).
  assert (Hbase : forall c, c = 35 \/ c = 63 -> ~ In c base).
  { intros c Hc Hin. unfold base in Hin.
    repeat (apply in_app_or in Hin as [Hin|Hin]).
    - cbn in Hin. repeat destruct Hin as [Hin|Hin]; lia.
    - now apply (Huuid c Hc).
    - cbn in Hin. repeat destruct Hin as [Hin|Hin]; lia.
    - now apply (Hserver c Hc).
    - cbn in Hin. repeat destruct Hin as [Hin|Hin]; lia.
    - apply str_of_int_chars in Hin. lia. }
  assert (Hfrag : partition_at 35 (base ++ 63 :: query ++ 35 :: frag)
                  = Some (base ++ 63 :: query, frag)).
  { change (base ++ 63 :: query ++ 35 :: frag)
      with (base ++ (63 :: query) ++ 35 :: frag).
    rewrite app_assoc. apply partition_at_app.
    intros Hin. apply in_app_or in Hin as [Hin|[Hin|Hin]].
    - now apply (Hbase 35 (or_introl eq_refl)).
    - lia.
    - now apply Hq35. }
  unfold decode_link, uri_query, uri_fragment. rewrite Hfrag.
  rewrite partition_at_app by (apply Hbase; now right).
  now rewrite Hdec, (unquote_quote name frag Hn).
Qed.

Lemma quote_encodable (s : str) :
  utf8_encode s <> None -> exists q, quote s = Some q.
Proof.
  intros H. unfold quote. destruct (is_empty s); [eauto|].
  destruct (utf8_encode s); [eauto | congruence].
Qed.

Lemma urlencode_items_encodable (items : list (str * str)) :
  Forall (fun kv => utf8_encode (fst kv) <> None /\ utf8_encode (snd kv) <> None)
         items ->
  exists l, urlencode_items items = Some l.
Proof.
  induction 1 as [|[k v] items [Hk Hv] _ [l IH]]; [now exists []|].
  cbn [urlencode_items fst snd] in *.
  destruct (quote_encodable k Hk) as [qk ->].
  destruct (quote_encodable v Hv) as [qv ->].
  rewrite IH. eauto.
Qed.

Lemma build_encodable (server name fp : str) (r : RealityInbound)
    (public_key : str) :
  flow r <> Some [] ->
  Forall (fun s => utf8_encode s <> None)
         [network r; sni r; fp; public_key; short_id r;
          match flow r with Some f => f | None => [] end; name] ->
  exists uri, build_vless_link server name fp r public_key = Some uri.
Proof.
  intros Hflow Henc. rewrite (build_params _ _ _ _ _ Hflow).
  repeat match goal with
         | H : Forall _ (_ :: _) |- _ => inversion H; subst; clear H
         end.
  assert (Hitems : exists l, urlencode_items (link_params fp r public_key) = Some l).
  { apply urlencode_items_encodable. unfold link_params.
    apply Forall_app. split.
    - repeat (apply Forall_cons; [cbn [fst snd]; split; [discriminate | assumption]|]).
      apply Forall_cons; [cbn [fst snd]; split; discriminate|].
      repeat (apply Forall_cons; [cbn [fst snd]; split; [discriminate | assumption]|]).
      apply Forall_nil.
    - destruct (flow r); [|apply Forall_nil].
      apply Forall_cons; [cbn [fst snd]; split; [discriminate | assumption]|].
      apply Forall_nil. }
  destruct Hitems as [l Hl]. unfold urlencode. rewrite Hl.
  destruct (quote_encodable name) as [frag ->]; [assumption|]. eauto.
Qed.

(** C8, as amended: when the server text holds neither [#] nor [?], the
    query and the fragment of a link built from an extracted record decode to
    the parameters in their order (type, security, sni, fp, pbk, sid and the
    flow when there is one) with their original values, and to the name.  A
    link is built whenever the values can be encoded in UTF-8. *)
Theorem link_decodes_to_inputs
    (cfg : dict) (inbound_index : option Z) (r : RealityInbound)
    (server name fp public_key : str) :
  _select_inbound cfg inbound_index = Ok r ->
  ~ In 35 server ->
  ~ In 63 server ->
  (forall uri,
      build_vless_link server name fp r public_key = Some uri ->
      decode_link uri = Some (link_params fp r public_key, name))
  /\ (Forall (fun s => utf8_encode s <> None)
             [network r; sni r; fp; public_key; short_id r;
              match flow r with Some f => f | None => [] end; name] ->
      exists uri, build_vless_link server name fp r public_key = Some uri).
Proof.
  intros Hsel H35 H63.
  pose proof (extracted_flow_not_empty _ _ _ Hsel) as Hflow.
  apply select_ok_inv in Hsel as [i [ib Hp]].
  apply parse_one_ok_inv in Hp
    as (_ & _ & _ & _ & _ & _ & _ & _ & _ & _ & _ & _ & _ & Hu & _).
  split.
  - intros uri Hb. apply (link_decodes server name fp r public_key uri Hflow).
    + intros c Hc. now apply validate_uuid_lacks.
    + intros c [-> | ->]; assumption.
    + exact Hb.
  - now apply build_encodable.
Qed.

Lemma link_decodes_to_inputs_witness :
  _select_inbound vision_cfg None = Ok vision_record
  /\ ~ In 35 (py "vpn.example.com")
  /\ ~ In 63 (py "vpn.example.com")
  /\ build_vless_link (py "vpn.example.com") (py "home #1") (py "chrome")
       vision_record sample_public_key
     = Some (py "vless://11111111-1111-1111-1111-111111111111@vpn.example.com:443?type=tcp&security=reality&sni=example.com&fp=chrome&pbk=PUBKEYBBBBBBBBBBBBBBBBBBBBBBBBBB&sid=ab12&flow=xtls-rprx-vision#home%20%231")
  /\ decode_link (py "vless://11111111-1111-1111-1111-111111111111@vpn.example.com:443?type=tcp&security=reality&sni=example.com&fp=chrome&pbk=PUBKEYBBBBBBBBBBBBBBBBBBBBBBBBBB&sid=ab12&flow=xtls-rprx-vision#home%20%231")
     = Some (link_params (py "chrome") vision_record sample_public_key,
             py "home #1").
Proof.
  assert (Hv : _select_inbound vision_cfg None = Ok vision_record)
    by (vm_compute; reflexivity).
  assert (H35 : ~ In 35 (py "vpn.example.com"))
    by (cbn; intros H; repeat destruct H as [H|H]; lia).
  assert (H63 : ~ In 63 (py "vpn.example.com"))
    by (cbn; intros H; repeat destruct H as [H|H]; lia).
  assert (Hb : build_vless_link (py "vpn.example.com") (py "home #1")
                 (py "chrome") vision_record sample_public_key
               = Some (py "vless://11111111-1111-1111-1111-111111111111@vpn.example.com:443?type=tcp&security=reality&sni=example.com&fp=chrome&pbk=PUBKEYBBBBBBBBBBBBBBBBBBBBBBBBBB&sid=ab12&flow=xtls-rprx-vision#home%20%231"))
    by (vm_compute; reflexivity).
  repeat (split; [assumption|]).
  exact (proj1 (link_decodes_to_inputs vision_cfg None vision_record
                  (py "vpn.example.com") (py "home #1") (py "chrome")
                  sample_public_key Hv H35 H63) _ Hb).
Defined.

(** The claim C8 as stated fails when the server text holds a [#]: the
    fragment of the link then starts inside the authority, and neither the
    query nor the name is recovered. *)
Lemma server_with_hash_breaks_decoding :
  _select_inbound sample_cfg None = Ok sample_record
  /\ exists uri,
       build_vless_link (py "a#b") (py "x") (py "chrome") sample_record
         sample_public_key = Some uri
       /\ uri = py "vless://11111111-1111-1111-1111-111111111111@a#b:443?type=tcp&security=reality&sni=example.com&fp=chrome&pbk=PUBKEYBBBBBBBBBBBBBBBBBBBBBBBBBB&sid=ab12#x"
       /\ uri_fragment uri
          = Some (py "b:443?type=tcp&security=reality&sni=example.com&fp=chrome&pbk=PUBKEYBBBBBBBBBBBBBBBBBBBBBBBBBB&sid=ab12#x")
       /\ uri_query uri = None
       /\ decode_link uri
          <> Some (link_params (py "chrome") sample_record sample_public_key,
                   py "x").
Proof.
  split; [vm_compute; reflexivity|].
  eexists. split; [vm_compute; reflexivity|].
  split; [vm_compute; reflexivity|].
  split; [vm_compute; reflexivity|].
  split; [vm_compute; reflexivity|].
  vm_compute. discriminate.
Qed.

(** ** Derivation of the public key *)

Lemma takewhile_all (p : N -> bool) (s : str) :
  forallb p (takewhile p s) = true.
Proof.
  induction s as [|c s IH]; cbn [takewhile]; [reflexivity|].
  destruct (p c) eqn:Hc; [|reflexivity]. cbn [forallb]. now rewrite Hc, IH.
Qed.

Lemma match_label_here_token (s tok : str) :
  match_label_here s = Some tok ->
  tok <> [] /\ forallb (fun c => negb (isspace c)) tok = true.
Proof.
  unfold match_label_here.
  destruct (if startswith (py "Password:") s then _ else _) as [r|];
    [|discriminate].
  destruct (is_empty _) eqn:He; [discriminate|].
  destruct (_ || _); [|discriminate].
  intros E; some_inj E. split.
  - now apply is_empty_false.
  - apply takewhile_all.
Qed.

Lemma search_label_token (s : str) :
  forall (bol : bool) (tok : str),
    search_label bol s = Some tok ->
    tok <> [] /\ forallb (fun c => negb (isspace c)) tok = true.
Proof.
  induction s as [|c s IH]; intros bol tok; cbn [search_label].
  - destruct bol; [|discriminate].
    destruct (match_label_here []) eqn:Hm; [|discriminate].
    intros E; some_inj E. now apply (match_label_here_token []).
  - destruct (if bol then match_label_here (c :: s) else None) as [t|] eqn:Hm.
    + intros E; some_inj E. destruct bol; [|discriminate].
      now apply (match_label_here_token (c :: s)).
    + apply IH.
Qed.

(** The outcome of the derivation, case by case. *)
Lemma derivation_outcome (env_XRAY_BIN : option str)
    (subprocess_run : list str -> proc_outcome) (private_key : str) :
  let result :=
    compute_public_key_from_private env_XRAY_BIN subprocess_run private_key in
  match subprocess_run
          [match env_XRAY_BIN with Some x => x | None => py "xray" end;
           py "x25519"; py "-i"; private_key] with
  | FileNotFound => result = Raise XrayNotFound
  | OtherError => result = Escaped
  | Completed returncode stdout =>
      (returncode <> 0%Z ->
       result = Raise (XrayFailed returncode (strip stdout)))
      /\ (returncode = 0%Z ->
          match search_public_key (strip stdout) with
          | None => result = Raise (PublicKeyParseFailed (strip stdout))
          | Some tok =>
              if _B64URL_RE_match tok then result = Ok tok
              else result = Raise (PublicKeyBadFormat tok)
          end)
  end.
Proof.
  cbv zeta. unfold compute_public_key_from_private.
  destruct (subprocess_run _) as [| |returncode stdout];
    [reflexivity|reflexivity|].
  split.
  - intros Hrc. apply Z.eqb_neq in Hrc. now rewrite Hrc.
  - intros ->. cbn [Z.eqb negb].
    destruct (search_public_key (strip stdout)) as [tok|] eqn:Hs; [|reflexivity].
    apply search_label_token in Hs as [_ Hns].
    rewrite (strip_by_none isspace tok Hns : strip tok = tok).
    destruct (_B64URL_RE_match tok); reflexivity.
Qed.

(** ** Lines *)

Lemma startswith_line (pat a tail : str) :
  ~ In 10 pat -> line_end tail ->
  startswith pat (a ++ tail) = startswith pat a.
Proof.
  intros Hpat Ht. revert a. induction pat as [|p pat IH]; intros a.
  - destruct (a ++ tail), a; reflexivity.
  - destruct a as [|x a]; cbn [app startswith].
    + destruct Ht as [-> | [rest ->]]; [reflexivity|].
      cbn [startswith].
      replace (p =? 10) with false; [reflexivity|].
      symmetry. apply N.eqb_neq. intros ->. apply Hpat. now left.
    + rewrite IH; [reflexivity|]. intros H. apply Hpat. now right.
Qed.

Lemma startswith_length (pat a : str) :
  startswith pat a = true -> (List.length pat <= List.length a)%nat.
Proof.
  revert a. induction pat as [|p pat IH]; intros a H; [simpl; lia|].
  destruct a as [|x a]; [discriminate|].
  cbn [startswith] in H. apply andb_true_iff in H as [_ H].
  apply IH in H. simpl. lia.
Qed.

Lemma skipn_line (n : nat) (a tail : str) :
  (n <= List.length a)%nat -> skipn n (a ++ tail) = skipn n a ++ tail.
Proof.
  intros H. rewrite skipn_app.
  replace (n - List.length a)%nat with O by lia. reflexivity.
Qed.

Lemma dropwhile_app_stop (p : N -> bool) (r tail : str) :
  forallb p r = false -> dropwhile p (r ++ tail) = dropwhile p r ++ tail.
Proof.
  induction r as [|x r IH]; cbn [forallb app dropwhile]; [discriminate|].
  destruct (p x); cbn [andb]; [exact IH | reflexivity].
Qed.

Lemma takewhile_line (q : N -> bool) (r tail : str) :
  q 10 = false -> line_end tail ->
  takewhile q (r ++ tail) = takewhile q r
  /\ dropwhile q (r ++ tail) = dropwhile q r ++ tail.
Proof.
  intros Hq Ht. induction r as [|x r [IH1 IH2]]; cbn [app takewhile dropwhile].
  - destruct Ht as [-> | [rest ->]]; [now split|].
    cbn [takewhile dropwhile]. rewrite Hq. now split.
  - destruct (q x); [|now split]. rewrite IH1, IH2. now split.
Qed.

Lemma blank_to_end_of_line (r tail : str) :
  ~ In 10 r -> line_end tail ->
  is_empty (dropwhile isspace (r ++ tail))
  || existsb (N.eqb 10) (takewhile isspace (r ++ tail))
  = forallb isspace r.
Proof.
  intros Hr Ht. induction r as [|x r IH];
    cbn [app forallb dropwhile takewhile].
  - destruct Ht as [-> | [rest ->]]; [reflexivity|].
    cbn [dropwhile takewhile].
    change (isspace 10) with true. cbn iota. cbn [existsb].
    change (10 =? 10) with true. cbn [orb]. now rewrite orb_true_r.
  - destruct (isspace x); cbn [andb existsb is_empty orb]; [|reflexivity].
    replace (10 =? x) with false
      by (symmetry; apply N.eqb_neq; intros <-; apply Hr; now left).
    cbn [orb]. apply IH. intros H. apply Hr. now right.
Qed.

Lemma dropwhile_suffix_lacks (p : N -> bool) (c : N) (s : str) :
  ~ In c s -> ~ In c (dropwhile p s).
Proof.
  induction s as [|x s IH]; cbn [dropwhile]; [auto|].
  destruct (p x); [|auto]. intros H. apply IH. intros Hin. apply H. now right.
Qed.

Lemma skipn_lacks (n : nat) (c : N) (s : str) :
  ~ In c s -> ~ In c (skipn n s).
Proof.
  intros H Hin. apply H. rewrite <- (firstn_skipn n s).
  apply in_or_app. now right.
Qed.

(** After a label that is not bare, the attempt of the search at the start
    of a line sees what the line holds. *)
Lemma after_label_line (r tail : str) :
  ~ In 10 r -> line_end tail ->
  forallb isspace r = false ->
  (let r1 := dropwhile isspace (r ++ tail) in
   let tok := takewhile (fun c => negb (isspace c)) r1 in
   let r2 := dropwhile (fun c => negb (isspace c)) r1 in
   let ws := takewhile isspace r2 in
   let r3 := dropwhile isspace r2 in
   if is_empty tok then None
   else if is_empty r3 || existsb (N.eqb 10) ws then Some tok
   else None)
  = (let r1 := dropwhile isspace r in
     let tok := takewhile (fun c => negb (isspace c)) r1 in
     let r2 := dropwhile (fun c => negb (isspace c)) r1 in
     if is_empty tok then None
     else if forallb isspace r2 then Some tok
     else None).
Proof.
  intros Hr Ht Hb. cbv zeta.
  rewrite (dropwhile_app_stop isspace r tail Hb).
  destruct (takewhile_line (fun c => negb (isspace c)) (dropwhile isspace r)
              tail eq_refl Ht) as [-> ->].
  rewrite blank_to_end_of_line; [reflexivity| |exact Ht].
  now apply dropwhile_suffix_lacks, dropwhile_suffix_lacks.
Qed.

Lemma match_label_here_line (line tail : str) :
  ~ In 10 line -> line_end tail ->
  bare_label line = false ->
  match_label_here (line ++ tail) = line_token line.
Proof.
  intros Hl Ht Hb. unfold match_label_here, line_token, bare_label in *.
  rewrite !(startswith_line _ line tail) by
    (try exact Ht; cbn; intros H; repeat destruct H as [H|H]; lia).
  destruct (startswith (py "Password:") line) eqn:H1.
  - rewrite skipn_line by (apply startswith_length in H1; exact H1).
    apply after_label_line; [now apply skipn_lacks | exact Ht | exact Hb].
  - destruct (startswith (py "PublicKey:") line) eqn:H2; [|reflexivity].
    rewrite skipn_line by (apply startswith_length in H2; exact H2).
    apply after_label_line; [now apply skipn_lacks | exact Ht | exact Hb].
Qed.

(** ** The search, line by line *)

Lemma search_label_false (line : str) :
  ~ In 10 line ->
  search_label false line = None
  /\ forall rest, search_label false (line ++ 10 :: rest) = search_label true rest.
Proof.
  induction line as [|x line IH]; intros H.
  - split; reflexivity.
  - destruct IH as [IH1 IH2]; [intros Hin; apply H; now right|].
    assert (Hx : (x =? 10) = false)
      by (apply N.eqb_neq; intros ->; apply H; now left).
    split; [|intros rest]; cbn [app search_label]; rewrite Hx; auto.
Qed.

Lemma search_label_true (s : str) :
  search_label true s
  = match match_label_here s with
    | Some tok => Some tok
    | None => search_label false s
    end.
Proof. destruct s; cbn [search_label]; destruct (match_label_here _); reflexivity. Qed.

Lemma first_token_cons (l : str) (lines : list str) :
  first_token (l :: lines)
  = match line_token l with
    | Some tok => Some tok
    | None => first_token lines
    end.
Proof.
  unfold first_token. cbn [filter].
  destruct (line_token l) eqn:H; [exact H | reflexivity].
Qed.

Lemma search_label_lines (lines : list str) :
  lines <> [] ->
  (forall l, In l lines -> ~ In 10 l) ->
  existsb bare_label lines = false ->
  search_label true (join [10] lines) = first_token lines.
Proof.
  induction lines as [|l lines IH]; intros Hne Hnl Hb; [congruence|].
  cbn [existsb] in Hb. apply orb_false_iff in Hb as [Hbl Hb].
  assert (Hl : ~ In 10 l) by (apply Hnl; now left).
  rewrite first_token_cons, search_label_true.
  destruct lines as [|l2 lines].
  - cbn [join].
    rewrite <- (app_nil_r l) at 1.
    rewrite (match_label_here_line l [] Hl (or_introl eq_refl) Hbl).
    destruct (line_token l); [reflexivity|].
    apply (search_label_false l Hl).
  - change (join [10] (l :: l2 :: lines)) with (l ++ 10 :: join [10] (l2 :: lines)).
    rewrite (match_label_here_line l _ Hl (or_intror (ex_intro _ _ eq_refl)) Hbl).
    destruct (line_token l); [reflexivity|].
    rewrite (proj2 (search_label_false l Hl)).
    apply IH; [discriminate| |exact Hb].
    intros x Hx. apply Hnl. now right.
Qed.

Lemma split_on_lines (c : N) (s : str) :
  split_on c s <> []
  /\ (forall l, In l (split_on c s) -> ~ In c l)
  /\ join [c] (split_on c s) = s.
Proof.
  induction s as [|x s (Hne & Hl & Hj)]; cbn [split_on].
  - split; [discriminate|]. split; [|reflexivity].
    intros l [<-|[]] [].
  - destruct (N.eqb_spec x c) as [->|Hx].
    + split; [discriminate|]. split.
      * intros l [<-|Hin]; [intros []|now apply Hl].
      * destruct (split_on c s) as [|l ls] eqn:Hs; [congruence|].
        change (join [c] ([] :: l :: ls)) with (c :: join [c] (l :: ls)).
        now rewrite Hj.
    + destruct (split_on c s) as [|l ls] eqn:Hs; [congruence|].
      split; [discriminate|]. split.
      * intros l' [<-|Hin].
        -- intros [H|H]; [congruence|]. revert H. apply Hl. now left.
        -- apply Hl. now right.
      * rewrite <- Hj. destruct ls; reflexivity.
Qed.

(** On an output without a bare label the search of the source finds the
    token of the first line that carries one. *)
Lemma search_public_key_lines (out : str) :
  existsb bare_label (split_on 10 out) = false ->
  search_public_key out = first_line_token out.
Proof.
  intros Hb. destruct (split_on_lines 10 out) as (Hne & Hl & Hj).
  unfold search_public_key, first_line_token. rewrite <- Hj at 1.
  now apply search_label_lines.
Qed.

(** X10: on an output without a bare label the derivation does what the line by
    line reading says: it fails on a non-zero status, when no line carries a
    labelled token, and when the token of the first such line is not
    well-formed; otherwise it returns that token. *)
Lemma derivation_outcome_by_lines (env_XRAY_BIN : option str)
    (subprocess_run : list str -> proc_outcome) (private_key : str)
    (returncode : Z) (stdout : str) :
  subprocess_run
    [match env_XRAY_BIN with Some x => x | None => py "xray" end;
     py "x25519"; py "-i"; private_key] = Completed returncode stdout ->
  existsb bare_label (split_on 10 (strip stdout)) = false ->
  let result :=
    compute_public_key_from_private env_XRAY_BIN subprocess_run private_key in
  (returncode <> 0%Z -> result = Raise (XrayFailed returncode (strip stdout)))
  /\ (returncode = 0%Z ->
      match first_line_token (strip stdout) with
      | None => result = Raise (PublicKeyParseFailed (strip stdout))
      | Some tok =>
          if _B64URL_RE_match tok then result = Ok tok
          else result = Raise (PublicKeyBadFormat tok)
      end).
Proof.
  intros Hrun Hb.
  pose proof (derivation_outcome env_XRAY_BIN subprocess_run private_key) as H.
  cbv zeta in H. rewrite Hrun in H.
  rewrite (search_public_key_lines _ Hb) in H. exact H.
Qed.

(** C7 on the output [Password:] alone on its line with a well-formed token
    on the next line: no line carries a labelled token, yet the derivation
    returns the token, since the white space allowed after the colon also
    takes line breaks. *)
Theorem token_on_next_line_is_accepted
    (env_XRAY_BIN : option str) (private_key : str) :
  let stdout := py "Password:" ++ [10] ++ repeat 65 32 in
  split_on 10 (strip stdout) = [py "Password:"; repeat 65 32]
  /\ bare_label (py "Password:") = true
  /\ line_token (py "Password:") = None
  /\ line_token (repeat 65 32) = None
  /\ first_line_token (strip stdout) = None
  /\ compute_public_key_from_private env_XRAY_BIN
       (fun _ => Completed 0 stdout) private_key
     = Ok (repeat 65 32).
Proof.
  cbv zeta. repeat split; vm_compute; reflexivity.
Qed.

(* ================================================================= *)
(** * Further properties *)

(** ** Trimming, continued *)

Section Trimming2.

Variable p : N -> bool.

Lemma takewhile_dropwhile (s : str) : takewhile p s ++ dropwhile p s = s.
Proof.
  induction s as [|c s IH]; cbn [takewhile dropwhile]; [reflexivity|].
  destruct (p c); [cbn [app]; now rewrite IH | reflexivity].
Qed.

Lemma takewhile_forall (s : str) : forallb p (takewhile p s) = true.
Proof. apply takewhile_all. Qed.

Lemma dropwhile_nil_iff (s : str) : dropwhile p s = [] <-> forallb p s = true.
Proof.
  induction s as [|c s IH]; cbn [dropwhile forallb]; [tauto|].
  destruct (p c); cbn [andb]; [exact IH|]. split; discriminate.
Qed.

(** What [strip_by] removes and what it leaves. *)
Lemma strip_by_parts (s : str) :
  exists lead trail,
    s = lead ++ strip_by p s ++ trail
    /\ forallb p lead = true /\ forallb p trail = true.
Proof.
  exists (takewhile p s), (rev (takewhile p (rev (dropwhile p s)))).
  split; [|split].
  - unfold strip_by, rstrip_by, lstrip_by.
    rewrite <- rev_app_distr, takewhile_dropwhile, rev_involutive.
    now rewrite takewhile_dropwhile.
  - apply takewhile_forall.
  - rewrite forallb_forall. intros x Hx. apply in_rev in Hx.
    pose proof (takewhile_forall (rev (dropwhile p s))) as H.
    rewrite forallb_forall in H. now apply H.
Qed.

Lemma strip_by_nil_iff (s : str) : strip_by p s = [] <-> forallb p s = true.
Proof.
  unfold strip_by, rstrip_by, lstrip_by. split.
  - intros H. apply (f_equal (@rev N)) in H. rewrite rev_involutive in H.
    cbn [rev] in H. apply dropwhile_nil_iff in H.
    assert (Hd : forallb p (dropwhile p s) = true).
    { rewrite forallb_forall in *. intros x Hx. apply H. now apply -> in_rev. }
    rewrite <- (takewhile_dropwhile s), forallb_app, takewhile_forall, Hd.
    reflexivity.
  - intros H. apply dropwhile_nil_iff in H. now rewrite H.
Qed.

Lemma strip_by_head (s : str) (c : N) (t : str) :
  strip_by p s = c :: t -> p c = false.
Proof.
  unfold strip_by, lstrip_by. destruct (dropwhile p s) as [|x u] eqn:Hd.
  - discriminate.
  - pose proof (dropwhile_head p s x u Hd) as Hx.
    rewrite (rstrip_by_cons p x u Hx). intros H. injection H as <- _. exact Hx.
Qed.

Lemma strip_by_last (s : str) (t : str) (c : N) :
  strip_by p s = t ++ [c] -> p c = false.
Proof.
  unfold strip_by, rstrip_by. intros H.
  apply (f_equal (@rev N)) in H. rewrite rev_involutive, rev_app_distr in H.
  cbn [rev app] in H. now apply dropwhile_head in H.
Qed.

End Trimming2.

Lemma strip_nil_iff (s : str) : strip s = [] <-> forallb isspace s = true.
Proof. apply strip_by_nil_iff. Qed.

Lemma is_empty_strip (s : str) : is_empty (strip s) = forallb isspace s.
Proof.
  destruct (forallb isspace s) eqn:H.
  - apply strip_nil_iff in H. now rewrite H.
  - apply is_empty_false. intros E. apply strip_nil_iff in E. congruence.
Qed.

Lemma hd_not_space (s : str) : isspace (hd 0 (strip s)) = false.
Proof.
  destruct (strip s) as [|c t] eqn:H; [reflexivity|].
  now apply (strip_by_head isspace s c t).
Qed.

Lemma last_not_space (s : str) : isspace (last (strip s) 0) = false.
Proof.
  destruct (strip s) as [|c t] eqn:H; [reflexivity|].
  destruct (exists_last (l := c :: t) ltac:(discriminate)) as [u [x Hx]].
  rewrite Hx, last_last. rewrite Hx in H.
  now apply (strip_by_last isspace s u x).
Qed.

(** X1: [_expect_str] accepts exactly the strings that hold a character which
    is not white space.  It returns the string without the white space at its
    two ends: the input is the result between two runs of white space, and
    the result neither starts nor ends with white space.  Everything else
    raises the error that carries the path. *)
Theorem expect_str_trims_nonblank_strings (v : json) (where_ : str) :
  match v with
  | JString raw =>
      if forallb isspace raw
      then _expect_str v where_ = Raise (ExpectedNonEmptyString where_)
      else exists lead trail,
             _expect_str v where_ = Ok (strip raw)
             /\ raw = lead ++ strip raw ++ trail
             /\ forallb isspace lead = true
             /\ forallb isspace trail = true
             /\ strip raw <> []
             /\ isspace (hd 0 (strip raw)) = false
             /\ isspace (last (strip raw) 0) = false
  | _ => _expect_str v where_ = Raise (ExpectedNonEmptyString where_)
  end.
Proof.
  destruct v as [| | | |raw| |]; try reflexivity.
  unfold _expect_str. rewrite is_empty_strip.
  destruct (forallb isspace raw) eqn:Hb; [reflexivity|].
  destruct (strip_by_parts isspace raw) as [lead [trail [Hp [Hl Ht]]]].
  exists lead, trail. repeat split; try assumption.
  - intros E. apply strip_nil_iff in E. congruence.
  - apply hd_not_space.
  - apply last_not_space.
Qed.

(** ** The formats of the short id and of the private key *)

Lemma takewhile_app_stop (p : N -> bool) (h t : str) :
  forallb p h = true -> p (hd 0 t) = false \/ t = [] ->
  takewhile p (h ++ t) = h /\ dropwhile p (h ++ t) = t.
Proof.
  intros Hh Ht. induction h as [|c h IH]; cbn [app].
  - destruct t as [|x t]; [now split|].
    destruct Ht as [Ht|Ht]; [|discriminate]. cbn [hd] in Ht.
    cbn [takewhile dropwhile]. rewrite Ht. now split.
  - cbn [forallb] in Hh. apply andb_true_iff in Hh as [Hc Hh].
    destruct (IH Hh) as [IH1 IH2].
    cbn [takewhile dropwhile]. rewrite Hc, IH1, IH2. now split.
Qed.

Lemma match_class_run_spec (cls : N -> bool) (lo : nat) (s : str) :
  cls 10 = false ->
  match_class_run cls lo s = true
  <-> exists h, (lo <= List.length h)%nat /\ forallb cls h = true
                /\ (s = h \/ s = h ++ [10]).
Proof.
  intros H10. unfold match_class_run. split.
  - intros H. apply andb_true_iff in H as [Hlen Hrest].
    apply Nat.leb_le in Hlen.
    exists (takewhile cls s). split; [exact Hlen|]. split; [apply takewhile_all|].
    apply orb_true_iff in Hrest as [Hr|Hr]; apply str_eqb_eq in Hr.
    + left. rewrite <- (takewhile_dropwhile cls s) at 1. rewrite Hr.
      apply app_nil_r.
    + right. rewrite <- (takewhile_dropwhile cls s) at 1. now rewrite Hr.
  - intros [h [Hlen [Hh [-> | ->]]]].
    + rewrite <- (app_nil_r h).
      destruct (takewhile_app_stop cls h [] Hh (or_intror eq_refl)) as [-> ->].
      apply andb_true_iff. split; [now apply Nat.leb_le | reflexivity].
    + destruct (takewhile_app_stop cls h [10] Hh (or_introl H10)) as [-> ->].
      apply andb_true_iff. split; [now apply Nat.leb_le | reflexivity].
Qed.

Lemma hex_re_match_shape (sid : str) :
  _HEX_RE_match sid = true
  <-> exists h, h <> [] /\ forallb is_hex h = true
                /\ (sid = h \/ sid = h ++ [10]).
Proof.
  unfold _HEX_RE_match. rewrite (match_class_run_spec is_hex 1 sid eq_refl).
  split; intros [h [H1 H2]]; exists h; (split; [|exact H2]).
  - intros ->. simpl in H1. lia.
  - destruct h; [congruence | simpl; lia].
Qed.

Lemma validate_short_id_ok_iff (sid : str) :
  _validate_short_id sid = Ok tt
  <-> _HEX_RE_match sid = true /\ Nat.even (List.length sid) = true.
Proof.
  unfold _validate_short_id.
  destruct (_HEX_RE_match sid); cbn [negb];
    [destruct (Nat.even (List.length sid)); cbn [negb]|];
    intuition (try discriminate; auto).
Qed.

Lemma validate_private_key_ok_iff (pk : str) :
  _validate_private_key pk = Ok tt <-> _B64URL_RE_match pk = true.
Proof.
  unfold _validate_private_key.
  destruct (_B64URL_RE_match pk); cbn [negb];
    intuition (try discriminate; auto).
Qed.

(** X2: [_validate_short_id] accepts a string exactly when it is a non-empty
    run of hexadecimal digits, possibly followed by one newline (which [$]
    lets through), and its length (the newline counted) is even.  Otherwise
    it raises the hex error, or the parity error when only the parity fails. *)
Theorem validate_short_id_spec (sid : str) :
  (_validate_short_id sid = Ok tt
   <-> (exists h, h <> [] /\ forallb is_hex h = true
                  /\ (sid = h \/ sid = h ++ [10]))
       /\ Nat.even (List.length sid) = true)
  /\ (_validate_short_id sid = Raise (ShortIdNotHex sid)
      <-> ~ exists h, h <> [] /\ forallb is_hex h = true
                      /\ (sid = h \/ sid = h ++ [10]))
  /\ (_validate_short_id sid = Raise (ShortIdOddLength (List.length sid) sid)
      <-> (exists h, h <> [] /\ forallb is_hex h = true
                     /\ (sid = h \/ sid = h ++ [10]))
          /\ Nat.even (List.length sid) = false).
Proof.
  pose proof (hex_re_match_shape sid) as Hm.
  unfold _validate_short_id.
  destruct (_HEX_RE_match sid) eqn:Hre; cbn [negb].
  - assert (He : exists h, h <> [] /\ forallb is_hex h = true
                           /\ (sid = h \/ sid = h ++ [10])) by now apply Hm.
    destruct (Nat.even (List.length sid)) eqn:Hev; cbn [negb];
      intuition (try discriminate; auto).
  - assert (Hn : ~ exists h, h <> [] /\ forallb is_hex h = true
                             /\ (sid = h \/ sid = h ++ [10])).
    { intros H. apply Hm in H. discriminate. }
    intuition (try discriminate; auto).
Qed.

(** X3: [_validate_private_key] accepts a string exactly when it is a run of
    at least 32 characters of [A-Za-z0-9_-], possibly followed by one
    newline; otherwise it raises the format error with the string. *)
Theorem validate_private_key_spec (pk : str) :
  (_validate_private_key pk = Ok tt
   <-> exists h, (32 <= List.length h)%nat /\ forallb is_b64url h = true
                 /\ (pk = h \/ pk = h ++ [10]))
  /\ (_validate_private_key pk = Raise (PrivateKeyBadFormat pk)
      <-> ~ exists h, (32 <= List.length h)%nat /\ forallb is_b64url h = true
                      /\ (pk = h \/ pk = h ++ [10])).
Proof.
  pose proof (match_class_run_spec is_b64url 32 pk eq_refl) as Hm.
  unfold _validate_private_key. fold (_B64URL_RE_match pk) in Hm.
  destruct (_B64URL_RE_match pk) eqn:Hre; cbn [negb].
  - assert (He : exists h, (32 <= List.length h)%nat /\ forallb is_b64url h = true
                           /\ (pk = h \/ pk = h ++ [10])) by now apply Hm.
    intuition (try discriminate; auto).
  - assert (Hn : ~ exists h, (32 <= List.length h)%nat /\ forallb is_b64url h = true
                             /\ (pk = h \/ pk = h ++ [10])).
    { intros H. apply Hm in H. discriminate. }
    intuition (try discriminate; auto).
Qed.

(** ** What an extracted record satisfies *)

Lemma trimmed_no_newline_end (raw h : str) :
  strip raw = h ++ [10] -> False.
Proof.
  intros H. apply (strip_by_last isspace raw h 10) in H. discriminate.
Qed.

Lemma lower_hex (c : N) : is_hex c = true -> is_lower_hex (lower_char c) = true.
Proof.
  intros H. apply is_hex_cases in H. unfold is_lower_hex, lower_char, Re.in_range.
  destruct H as [H|[H|H]].
  - replace ((65 <=? c) && (c <=? 90)) with false
      by (symmetry; apply andb_false_iff; left; apply N.leb_gt; lia).
    apply orb_true_iff. left. apply andb_true_iff.
    split; apply N.leb_le; lia.
  - replace ((65 <=? c) && (c <=? 90)) with false
      by (symmetry; apply andb_false_iff; right; apply N.leb_gt; lia).
    apply orb_true_iff. right. apply andb_true_iff.
    split; apply N.leb_le; lia.
  - replace ((65 <=? c) && (c <=? 90)) with true
      by (symmetry; apply andb_true_iff; split; apply N.leb_le; lia).
    apply orb_true_iff. right. apply andb_true_iff.
    split; apply N.leb_le; lia.
Qed.

Lemma lower_hex_is_hex (c : N) : is_lower_hex c = true -> is_hex c = true.
Proof.
  unfold is_lower_hex, is_hex. intros H.
  apply orb_true_iff in H as [H|H]; rewrite H; [reflexivity|].
  now rewrite orb_true_r.
Qed.

Lemma extracted_inv (cfg : dict) (inbound_index : option Z) (r : RealityInbound) :
  _select_inbound cfg inbound_index = Ok r ->
  exists id_raw net_raw sni_raw sid_raw pk_raw,
    uuid r = strip id_raw
    /\ network r = strip net_raw /\ network r <> []
    /\ sni r = strip sni_raw /\ sni r <> []
    /\ short_id r = lower (strip sid_raw)
    /\ private_key r = strip pk_raw
    /\ (1 <= port r <= 65535)%Z
    /\ _validate_uuid (uuid r) = Ok tt
    /\ _validate_short_id (strip sid_raw) = Ok tt
    /\ _validate_private_key (private_key r) = Ok tt
    /\ (flow r = None
        \/ exists raw, flow r = Some (strip raw) /\ strip raw <> []).
Proof.
  intros H. apply select_ok_inv in H as [i [ib H]].
  now apply parse_one_ok_inv in H.
Qed.

(** X4: the record of a successful extraction has a port between 1 and
    65535, a network and a server name that are not empty and carry no white
    space at their ends, and an identifier, trimmed as well, that
    [_validate_uuid] accepts. *)
Theorem extracted_record_fields_valid
    (cfg : dict) (inbound_index : option Z) (r : RealityInbound) :
  _select_inbound cfg inbound_index = Ok r ->
  (1 <= port r <= 65535)%Z
  /\ network r <> [] /\ strip (network r) = network r
  /\ sni r <> [] /\ strip (sni r) = sni r
  /\ uuid r <> [] /\ strip (uuid r) = uuid r
  /\ _validate_uuid (uuid r) = Ok tt.
Proof.
  intros H. apply extracted_inv in H
    as (id_raw & net_raw & sni_raw & sid_raw & pk_raw
        & Hu & Hn & Hnn & Hs & Hsn & _ & _ & Hp & Hvu & _).
  repeat split; try assumption; try lia.
  - rewrite Hn. apply strip_idem.
  - rewrite Hs. apply strip_idem.
  - now apply validate_uuid_nonempty.
  - rewrite Hu. apply strip_idem.
Qed.

Lemma extracted_record_fields_valid_witness :
  _select_inbound padded_cfg None = Ok sample_record
  /\ (1 <= port sample_record <= 65535)%Z
  /\ network sample_record <> [] /\ strip (network sample_record) = network sample_record
  /\ sni sample_record <> [] /\ strip (sni sample_record) = sni sample_record
  /\ uuid sample_record <> [] /\ strip (uuid sample_record) = uuid sample_record
  /\ _validate_uuid (uuid sample_record) = Ok tt.
Proof.
  assert (H : _select_inbound padded_cfg None = Ok sample_record)
    by (vm_compute; reflexivity).
  split; [exact H|].
  exact (extracted_record_fields_valid padded_cfg None sample_record H).
Defined.

(** The short id of an extracted record is the lower case of a non-empty
    run of an even number of hexadecimal digits. *)
Lemma extracted_short_id_shape
    (cfg : dict) (inbound_index : option Z) (r : RealityInbound) :
  _select_inbound cfg inbound_index = Ok r ->
  exists h, short_id r = lower h /\ h <> [] /\ forallb is_hex h = true
            /\ Nat.even (List.length h) = true.
Proof.
  intros H. apply extracted_inv in H
    as (id_raw & net_raw & sni_raw & sid_raw & pk_raw
        & _ & _ & _ & _ & _ & Hsid & _ & _ & _ & Hv & _).
  apply validate_short_id_ok_iff in Hv as [Hre Hev].
  apply hex_re_match_shape in Hre as [h [Hne [Hhex Hs]]].
  destruct Hs as [Hs|Hs]; [|exfalso; now apply (trimmed_no_newline_end sid_raw h)].
  exists h. rewrite Hsid, Hs in *. now repeat split.
Qed.

Lemma lower_all_lower_hex (h : str) :
  forallb is_hex h = true -> forallb is_lower_hex (lower h) = true.
Proof.
  intros Hhex. unfold lower. rewrite forallb_forall in *. intros x Hx.
  apply in_map_iff in Hx as [y [<- Hy]]. apply lower_hex. now apply Hhex.
Qed.

(** X5: the short id of an extracted record is a non-empty string of an even
    number of the digits [0-9a-f], no upper case left, and it still passes
    [_validate_short_id]. *)
Theorem extracted_short_id_lower_hex
    (cfg : dict) (inbound_index : option Z) (r : RealityInbound) :
  _select_inbound cfg inbound_index = Ok r ->
  short_id r <> []
  /\ Nat.even (List.length (short_id r)) = true
  /\ forallb is_lower_hex (short_id r) = true
  /\ _validate_short_id (short_id r) = Ok tt.
Proof.
  intros H. apply extracted_short_id_shape in H as [h [-> [Hne [Hhex Hev]]]].
  pose proof (lower_all_lower_hex h Hhex) as Hlow.
  assert (Hlen : List.length (lower h) = List.length h)
    by (unfold lower; apply length_map).
  assert (Hne' : lower h <> []) by (destruct h; [congruence | discriminate]).
  repeat split; try assumption.
  - now rewrite Hlen.
  - apply validate_short_id_ok_iff. split; [|now rewrite Hlen].
    apply hex_re_match_shape. exists (lower h).
    split; [exact Hne'|]. split; [|now left].
    eapply forallb_impl; [apply lower_hex_is_hex | exact Hlow].
Qed.

Lemma extracted_short_id_lower_hex_witness :
  _select_inbound padded_cfg None = Ok sample_record
  /\ short_id sample_record <> []
  /\ Nat.even (List.length (short_id sample_record)) = true
  /\ forallb is_lower_hex (short_id sample_record) = true
  /\ _validate_short_id (short_id sample_record) = Ok tt.
Proof.
  assert (H : _select_inbound padded_cfg None = Ok sample_record)
    by (vm_compute; reflexivity).
  split; [exact H|].
  exact (extracted_short_id_lower_hex padded_cfg None sample_record H).
Defined.

(** X6: the private key of an extracted record has at least 32 characters,
    all of [A-Za-z0-9_-], so no white space, and it is the key that
    [_validate_private_key] accepted. *)
Theorem extracted_private_key_format
    (cfg : dict) (inbound_index : option Z) (r : RealityInbound) :
  _select_inbound cfg inbound_index = Ok r ->
  (32 <= List.length (private_key r))%nat
  /\ forallb is_b64url (private_key r) = true
  /\ strip (private_key r) = private_key r
  /\ _validate_private_key (private_key r) = Ok tt.
Proof.
  intros H. apply extracted_inv in H
    as (id_raw & net_raw & sni_raw & sid_raw & pk_raw
        & _ & _ & _ & _ & _ & _ & Hpk & _ & _ & _ & Hv & _).
  pose proof Hv as Hv'.
  apply validate_private_key_ok_iff in Hv'.
  apply (match_class_run_spec is_b64url 32 _ eq_refl) in Hv'
    as [h [Hlen [Hh Hs]]].
  rewrite Hpk in Hs.
  destruct Hs as [Hs|Hs]; [|exfalso; now apply (trimmed_no_newline_end pk_raw h)].
  rewrite Hpk, Hs in *. repeat split; try assumption.
  rewrite <- Hs. apply strip_idem.
Qed.

Lemma extracted_private_key_format_witness :
  _select_inbound sample_cfg None = Ok sample_record
  /\ (32 <= List.length (private_key sample_record))%nat
  /\ forallb is_b64url (private_key sample_record) = true
  /\ strip (private_key sample_record) = private_key sample_record
  /\ _validate_private_key (private_key sample_record) = Ok tt.
Proof.
  assert (H : _select_inbound sample_cfg None = Ok sample_record)
    by (vm_compute; reflexivity).
  split; [exact H|].
  exact (extracted_private_key_format sample_cfg None sample_record H).
Defined.

(** ** Candidates *)

Lemma json_is_str_true (v : json) (s : str) :
  json_is_str v s = true <-> v = JString s.
Proof.
  destruct v; cbn [json_is_str]; try (split; [discriminate | congruence]).
  rewrite str_eqb_eq. split; congruence.
Qed.

(** X7: a candidate that is not an object fails with the error that names
    its type, and an object whose [protocol] is not exactly the string
    [vless] (no trimming, no case folding, a missing key as well) fails with
    the protocol error that carries the value found, whatever its other
    fields are. *)
Theorem candidate_protocol_is_checked_first (idx : Z) :
  (forall v, (forall d, v <> JObject d) ->
             parse_one idx v
             = Raise (ExpectedObject (at_inbound idx "") (type_name v)))
  /\ (forall d, dict_get d (py "protocol") <> JString (py "vless") ->
                parse_one idx (JObject d)
                = Raise (ProtocolNotVless idx (dict_get d (py "protocol")))).
Proof.
  split.
  - intros v Hv. destruct v; try reflexivity. now destruct (Hv members).
  - intros d Hd. unfold parse_one. cbn [_expect_dict bind].
    destruct (json_is_str (dict_get d (py "protocol")) (py "vless")) eqn:E;
      [|reflexivity].
    apply json_is_str_true in E. congruence.
Qed.

Lemma candidate_protocol_is_checked_first_witness :
  parse_one 3%Z (JString (py "vless"))
  = Raise (ExpectedObject (py "inbounds[3]") (py "str"))
  /\ parse_one 0%Z (JObject [ (py "protocol", JString (py "VLESS")) ])
     = Raise (ProtocolNotVless 0 (JString (py "VLESS")))
  /\ parse_one 0%Z (JObject [ (py "port", JInt 443) ])
     = Raise (ProtocolNotVless 0 JNull).
Proof.
  split; [|split].
  - apply (proj1 (candidate_protocol_is_checked_first 3%Z)). discriminate.
  - apply (proj2 (candidate_protocol_is_checked_first 0%Z)). vm_compute. discriminate.
  - apply (proj2 (candidate_protocol_is_checked_first 0%Z)). vm_compute. discriminate.
Defined.

(** ** The two ways of selecting *)

Lemma scan_ok_first (l : list json) :
  forall (idx : Z) (last_err : option UserError) (r : RealityInbound),
    scan_inbounds idx l last_err = Ok r ->
    exists n ib,
      nth_error l n = Some ib
      /\ parse_one (idx + Z.of_nat n)%Z ib = Ok r
      /\ forall m x, (m < n)%nat -> nth_error l m = Some x ->
                     exists e, parse_one (idx + Z.of_nat m)%Z x = Raise e.
Proof.
  induction l as [|a l IH]; intros idx last_err r; cbn [scan_inbounds];
    [discriminate|].
  destruct (parse_one idx a) as [r'|e] eqn:Ha.
  - intros H. injection H as <-. exists O, a. split; [reflexivity|].
    split; [now rewrite Z.add_0_r|]. intros m x Hm. lia.
  - intros H. apply IH in H as [n [ib [Hn [Hok Hbefore]]]].
    exists (S n), ib. split; [exact Hn|]. split.
    + rewrite <- Hok. f_equal. lia.
    + intros [|m] x Hm Hx.
      * cbn in Hx. injection Hx as <-. exists e. now rewrite Z.add_0_r.
      * cbn in Hx. destruct (Hbefore m x ltac:(lia) Hx) as [e' He'].
        exists e'. rewrite <- He'. f_equal. lia.
Qed.

(** X8: the automatic selection returns a record exactly when some explicit
    index does, and then it returns what the least such index returns: every
    smaller index fails. *)
Theorem auto_select_is_least_valid_index
    (cfg : dict) (inbounds : list json) (r : RealityInbound)
    (cfg_inbounds : dict_get cfg (py "inbounds") = JArray inbounds) :
  _select_inbound cfg None = Ok r
  <-> exists i,
        (0 <= i < Z.of_nat (List.length inbounds))%Z
        /\ _select_inbound cfg (Some i) = Ok r
        /\ forall j, (0 <= j < i)%Z ->
                     exists e, _select_inbound cfg (Some j) = Raise e.
Proof.
  destruct inbounds as [|a l] eqn:Hl.
  { split.
    - unfold _select_inbound. rewrite cfg_inbounds. discriminate.
    - intros [i [Hi _]]. simpl in Hi. lia. }
  rewrite <- Hl in *.
  assert (Hne : inbounds <> []) by (rewrite Hl; discriminate).
  assert (Hexp : forall i, (0 <= i < Z.of_nat (List.length inbounds))%Z ->
                 _select_inbound cfg (Some i)
                 = parse_one i (nth (Z.to_nat i) inbounds JNull)).
  { intros i Hi. rewrite (select_explicit cfg inbounds cfg_inbounds i Hne).
    replace ((i <? 0) || (i >=? Z.of_nat (List.length inbounds)))%Z with false;
      [reflexivity|].
    symmetry. apply orb_false_iff. split; [apply Z.ltb_ge; lia|].
    rewrite Z.geb_leb. apply Z.leb_gt. lia. }
  rewrite (select_auto cfg inbounds cfg_inbounds Hne). split.
  - intros H. apply scan_ok_first in H as [n [ib [Hn [Hok Hbefore]]]].
    exists (Z.of_nat n).
    assert (Hlt : (n < List.length inbounds)%nat)
      by (apply nth_error_Some; congruence).
    split; [lia|]. split.
    + rewrite Hexp by lia. rewrite Nat2Z.id, (nth_error_nth _ _ JNull Hn).
      exact Hok.
    + intros j Hj. rewrite Hexp by lia.
      destruct (nth_error inbounds (Z.to_nat j)) as [x|] eqn:Hx.
      * rewrite (nth_error_nth _ _ JNull Hx).
        destruct (Hbefore (Z.to_nat j) x ltac:(lia) Hx) as [e He].
        exists e. rewrite <- He. f_equal. lia.
      * apply nth_error_None in Hx. lia.
  - intros [i [Hi [Hok Hbefore]]].
    rewrite Hexp in Hok by exact Hi.
    pose proof (firstn_skipn (Z.to_nat i) inbounds) as Hsplit.
    assert (Hnth : nth_error inbounds (Z.to_nat i)
                   = Some (nth (Z.to_nat i) inbounds JNull))
      by (apply nth_error_nth'; lia).
    destruct (skipn (Z.to_nat i) inbounds) as [|ib post] eqn:Hsk.
    { apply (f_equal (@List.length json)) in Hsk.
      rewrite length_skipn in Hsk. simpl in Hsk. lia. }
    assert (Hlen : List.length (firstn (Z.to_nat i) inbounds) = Z.to_nat i)
      by (rewrite length_firstn; lia).
    assert (Hib : ib = nth (Z.to_nat i) inbounds JNull).
    { rewrite <- Hsplit at 1. rewrite app_nth2 by lia.
      rewrite Hlen, Nat.sub_diag. reflexivity. }
    rewrite <- Hsplit. apply scan_first_valid.
    + intros j x Hj.
      assert (Hjlt : (j < Z.to_nat i)%nat).
      { rewrite <- Hlen. apply nth_error_Some. congruence. }
      destruct (Hbefore (Z.of_nat j) ltac:(lia)) as [e He].
      rewrite Hexp in He by lia. exists e. rewrite <- He.
      rewrite Z.add_0_l, Nat2Z.id. f_equal.
      rewrite <- Hsplit, app_nth1 by lia.
      symmetry. now apply nth_error_nth.
    + rewrite Hlen, Z.add_0_l, Z2Nat.id by lia. now rewrite Hib.
Qed.

Lemma auto_select_is_least_valid_index_witness :
  dict_get fallback_cfg (py "inbounds") = JArray [other_inbound; sample_inbound]
  /\ _select_inbound fallback_cfg None = Ok sample_record
  /\ exists i,
       (0 <= i < 2)%Z
       /\ _select_inbound fallback_cfg (Some i) = Ok sample_record
       /\ forall j, (0 <= j < i)%Z ->
                    exists e, _select_inbound fallback_cfg (Some j) = Raise e.
Proof.
  assert (H : _select_inbound fallback_cfg None = Ok sample_record)
    by (vm_compute; reflexivity).
  split; [reflexivity|]. split; [exact H|].
  exact (proj1 (auto_select_is_least_valid_index fallback_cfg
                  [other_inbound; sample_inbound] sample_record eq_refl) H).
Defined.

(** X9: whatever index is asked for, or none, extraction fails with the
    error "No inbounds found" when [inbounds] is an empty array, and with the
    array error, which names the type found, when [inbounds] is missing or is
    not an array: these checks come before the index is looked at. *)
Theorem inbounds_checked_before_index (cfg : dict) (inbound_index : option Z) :
  (dict_get cfg (py "inbounds") = JArray [] ->
   _select_inbound cfg inbound_index = Raise NoInbounds)
  /\ ((forall l, dict_get cfg (py "inbounds") <> JArray l) ->
      _select_inbound cfg inbound_index
      = Raise (ExpectedArray (py "inbounds")
                 (type_name (dict_get cfg (py "inbounds"))))).
Proof.
  unfold _select_inbound. split.
  - intros ->. reflexivity.
  - intros H. destruct (dict_get cfg (py "inbounds")); try reflexivity.
    now destruct (H items).
Qed.

Lemma inbounds_checked_before_index_witness :
  _select_inbound [ (py "inbounds", JArray []) ] (Some 5%Z) = Raise NoInbounds
  /\ _select_inbound [ (py "outbounds", JArray []) ] (Some 0%Z)
     = Raise (ExpectedArray (py "inbounds") (py "NoneType"))
  /\ _select_inbound [ (py "inbounds", JObject []) ] None
     = Raise (ExpectedArray (py "inbounds") (py "dict")).
Proof.
  split; [|split].
  - apply (proj1 (inbounds_checked_before_index _ _)). reflexivity.
  - apply (proj2 (inbounds_checked_before_index
                    [ (py "outbounds", JArray []) ] (Some 0%Z))).
    intros l. vm_compute. discriminate.
  - apply (proj2 (inbounds_checked_before_index
                    [ (py "inbounds", JObject []) ] None)).
    intros l. vm_compute. discriminate.
Defined.

(** ** The derived key *)

Lemma match_label_here_part (s tok : str) :
  match_label_here s = Some tok -> exists a b, s = a ++ tok ++ b.
Proof.
  unfold match_label_here.
  set (q := fun c => negb (isspace c)).
  assert (H : forall n, 
             (let r := skipn n s in
              let r1 := dropwhile isspace r in
              if is_empty (takewhile q r1) then None
              else if is_empty (dropwhile isspace (dropwhile q r1))
                      || existsb (N.eqb 10) (takewhile isspace (dropwhile q r1))
                   then Some (takewhile q r1) else None) = Some tok ->
             exists a b, s = a ++ tok ++ b).
  { intros n. cbv zeta.
    destruct (is_empty _); [discriminate|].
    destruct (_ || _); [|discriminate].
    intros E. injection E as <-.
    exists (firstn n s ++ takewhile isspace (skipn n s)),
           (dropwhile q (dropwhile isspace (skipn n s))).
    rewrite <- app_assoc. rewrite (takewhile_dropwhile q).
    rewrite (takewhile_dropwhile isspace). now rewrite firstn_skipn. }
  destruct (startswith (py "Password:") s); [apply (H 9%nat)|].
  destruct (startswith (py "PublicKey:") s); [apply (H 10%nat) | discriminate].
Qed.

Lemma search_label_part (s : str) :
  forall (bol : bool) (tok : str),
    search_label bol s = Some tok -> exists a b, s = a ++ tok ++ b.
Proof.
  induction s as [|c s IH]; intros bol tok; cbn [search_label].
  - destruct bol; [|discriminate].
    destruct (match_label_here []) eqn:Hm; [|discriminate].
    intros E. injection E as <-. now apply match_label_here_part.
  - destruct (if bol then match_label_here (c :: s) else None) as [t|] eqn:Hm.
    + intros E. injection E as <-. destruct bol; [|discriminate].
      now apply match_label_here_part.
    + intros H. apply IH in H as [a [b ->]]. now exists (c :: a), b.
Qed.

(** A key that the derivation returns is the token that the search found in
    the trimmed output of a process that ended with status 0, and it matches
    the pattern of keys. *)
Lemma derived_key_token
    (env_XRAY_BIN : option str) (subprocess_run : list str -> proc_outcome)
    (private_key pub : str) :
  compute_public_key_from_private env_XRAY_BIN subprocess_run private_key
  = Ok pub ->
  exists stdout,
    subprocess_run
      [match env_XRAY_BIN with Some x => x | None => py "xray" end;
       py "x25519"; py "-i"; private_key] = Completed 0 stdout
    /\ search_public_key (strip stdout) = Some pub
    /\ forallb (fun c => negb (isspace c)) pub = true
    /\ _B64URL_RE_match pub = true.
Proof.
  unfold compute_public_key_from_private.
  destruct (subprocess_run _) as [| |rc stdout]; [discriminate|discriminate|].
  destruct (Z.eqb_spec rc 0) as [->|Hrc]; cbn [negb]; [|discriminate].
  destruct (search_public_key (strip stdout)) as [tok|] eqn:Hs; [|discriminate].
  pose proof (search_label_token _ _ _ Hs) as [_ Hns].
  rewrite (strip_by_none isspace tok Hns : strip tok = tok).
  destruct (_B64URL_RE_match tok) eqn:Hre; cbn [negb]; [|discriminate].
  intros E. injection E as <-. exists stdout. now repeat split.
Qed.

Lemma key_pattern_shape (tok : str) :
  forallb (fun c => negb (isspace c)) tok = true ->
  _B64URL_RE_match tok = true ->
  (32 <= List.length tok)%nat /\ forallb is_b64url tok = true.
Proof.
  intros Hns Hre.
  apply (match_class_run_spec is_b64url 32 tok eq_refl) in Hre
    as [h [Hlen [Hh Htok]]].
  destruct Htok as [->| ->]; [now split|]. exfalso.
  rewrite forallb_app in Hns. apply andb_true_iff in Hns as [_ Hns].
  discriminate.
Qed.

(** X11: a key that the derivation returns has at least 32 characters, all
    of [A-Za-z0-9_-]; the process ended with status 0, and the key stands in
    its output as it is. *)
Theorem derived_key_is_wellformed_part_of_output
    (env_XRAY_BIN : option str) (subprocess_run : list str -> proc_outcome)
    (private_key pub : str) :
  compute_public_key_from_private env_XRAY_BIN subprocess_run private_key
  = Ok pub ->
  (32 <= List.length pub)%nat
  /\ forallb is_b64url pub = true
  /\ exists stdout before after,
       subprocess_run
         [match env_XRAY_BIN with Some x => x | None => py "xray" end;
          py "x25519"; py "-i"; private_key] = Completed 0 stdout
       /\ stdout = before ++ pub ++ after.
Proof.
  intros H. apply derived_key_token in H as [stdout [Hrun [Hs [Hns Hre]]]].
  destruct (key_pattern_shape pub Hns Hre) as [Hlen Hb].
  split; [exact Hlen|]. split; [exact Hb|].
  apply search_label_part in Hs as [a [b Hs]].
  destruct (strip_by_parts isspace stdout) as [lead [trail [Hp _]]].
  exists stdout, (lead ++ a), (b ++ trail). split; [exact Hrun|].
  rewrite Hp at 1. unfold strip in Hs. rewrite Hs.
  now rewrite <- !app_assoc.
Qed.

Lemma derived_key_is_wellformed_part_of_output_witness :
  compute_public_key_from_private None
    (fun _ => Completed 0 (py "PrivateKey: abc" ++ [10] ++ py "Password: "
                           ++ sample_public_key ++ [10] ++ py "Hash32: xyz"
                           ++ [10]))
    (repeat 97 32)
  = Ok sample_public_key
  /\ (32 <= List.length sample_public_key)%nat
  /\ forallb is_b64url sample_public_key = true.
Proof.
  assert (H : compute_public_key_from_private None
                (fun _ => Completed 0 (py "PrivateKey: abc" ++ [10]
                                       ++ py "Password: " ++ sample_public_key
                                       ++ [10] ++ py "Hash32: xyz" ++ [10]))
                (repeat 97 32) = Ok sample_public_key)
    by (vm_compute; reflexivity).
  split; [exact H|].
  destruct (derived_key_is_wellformed_part_of_output _ _ _ _ H) as [H1 [H2 _]].
  now split.
Defined.

Lemma derivation_outcome_by_lines_witness :
  existsb bare_label
    (split_on 10 (strip (py "PrivateKey: abc" ++ [10] ++ py "PublicKey: "
                         ++ sample_public_key ++ [10]))) = false
  /\ first_line_token (strip (py "PrivateKey: abc" ++ [10] ++ py "PublicKey: "
                              ++ sample_public_key ++ [10]))
     = Some sample_public_key
  /\ compute_public_key_from_private None
       (fun _ => Completed 0 (py "PrivateKey: abc" ++ [10] ++ py "PublicKey: "
                              ++ sample_public_key ++ [10]))
       (repeat 97 32)
     = Ok sample_public_key.
Proof.
  assert (Hb : existsb bare_label
                 (split_on 10 (strip (py "PrivateKey: abc" ++ [10]
                                      ++ py "PublicKey: " ++ sample_public_key
                                      ++ [10]))) = false)
    by (vm_compute; reflexivity).
  split; [exact Hb|]. split; [vm_compute; reflexivity|].
  pose proof (derivation_outcome_by_lines None
                (fun _ => Completed 0 (py "PrivateKey: abc" ++ [10]
                                       ++ py "PublicKey: " ++ sample_public_key
                                       ++ [10]))
                (repeat 97 32) 0%Z _ eq_refl Hb) as [_ H].
  specialize (H eq_refl).
  replace (first_line_token _) with (Some sample_public_key) in H
    by (vm_compute; reflexivity).
  replace (_B64URL_RE_match sample_public_key) with true in H
    by (vm_compute; reflexivity).
  exact H.
Defined.

(** ** What the link is made of *)

Lemma utf8_encode_char_none (c : N) :
  utf8_encode_char c = None <-> is_scalar c = false.
Proof.
  unfold utf8_encode_char, is_scalar.
  destruct (N.ltb_spec c 128) as [H1|H1].
  { split; [discriminate|]. intros H. exfalso.
    apply andb_false_iff in H as [H|H].
    - apply N.ltb_ge in H. lia.
    - apply negb_false_iff, andb_true_iff in H as [H _].
      apply N.leb_le in H. lia. }
  destruct (N.ltb_spec c 2048) as [H2|H2].
  { split; [discriminate|]. intros H. exfalso.
    apply andb_false_iff in H as [H|H].
    - apply N.ltb_ge in H. lia.
    - apply negb_false_iff, andb_true_iff in H as [H _].
      apply N.leb_le in H. lia. }
  destruct (N.ltb_spec c 65536) as [H3|H3].
  { replace (c <? 1114112) with true by (symmetry; apply N.ltb_lt; lia).
    cbn [andb]. destruct ((55296 <=? c) && (c <? 57344)); cbn [negb].
    - split; reflexivity.
    - split; discriminate. }
  replace ((55296 <=? c) && (c <? 57344)) with false
    by (symmetry; apply andb_false_iff; right; apply N.ltb_ge; lia).
  cbn [negb]. rewrite andb_true_r.
  destruct (c <? 1114112); split; (reflexivity || discriminate).
Qed.

Lemma utf8_encode_none (s : str) :
  utf8_encode s = None <-> forallb is_scalar s = false.
Proof.
  induction s as [|c s IH]; cbn [utf8_encode forallb].
  - split; discriminate.
  - destruct (utf8_encode_char c) as [b|] eqn:Hc.
    + assert (Hs : is_scalar c = true).
      { destruct (is_scalar c) eqn:E; [reflexivity|].
        apply utf8_encode_char_none in E. congruence. }
      rewrite Hs. cbn [andb]. rewrite <- IH.
      destruct (utf8_encode s); split; (reflexivity || discriminate).
    + apply utf8_encode_char_none in Hc. rewrite Hc. cbn [andb].
      split; reflexivity.
Qed.

Lemma quote_none (s : str) : quote s = None <-> forallb is_scalar s = false.
Proof.
  unfold quote. destruct s as [|c s]; cbn [is_empty].
  - split; discriminate.
  - rewrite <- utf8_encode_none.
    destruct (utf8_encode (c :: s)); split; (reflexivity || discriminate).
Qed.

Lemma quote_some (s : str) :
  forallb is_scalar s = true -> exists q, quote s = Some q.
Proof.
  intros H. destruct (quote s) as [q|] eqn:E; [eauto|].
  apply quote_none in E. congruence.
Qed.

Lemma urlencode_none (params : list (str * str)) :
  urlencode params = None
  <-> forallb (fun kv => forallb is_scalar (fst kv) && forallb is_scalar (snd kv))
              params = false.
Proof.
  unfold urlencode.
  assert (H : urlencode_items params = None
              <-> forallb (fun kv => forallb is_scalar (fst kv)
                                      && forallb is_scalar (snd kv)) params
                  = false).
  { induction params as [|[k v] params IH]; cbn [urlencode_items forallb fst snd].
    - split; discriminate.
    - destruct (quote k) as [qk|] eqn:Hk.
      + assert (Ek : forallb is_scalar k = true).
        { destruct (forallb is_scalar k) eqn:E; [reflexivity|].
          apply quote_none in E. congruence. }
        rewrite Ek. cbn [andb].
        destruct (quote v) as [qv|] eqn:Hv.
        * assert (Ev : forallb is_scalar v = true).
          { destruct (forallb is_scalar v) eqn:E; [reflexivity|].
            apply quote_none in E. congruence. }
          rewrite Ev. cbn [andb]. rewrite <- IH.
          destruct (urlencode_items params); split; (reflexivity || discriminate).
        * apply quote_none in Hv. rewrite Hv. split; reflexivity.
      + apply quote_none in Hk. rewrite Hk. split; reflexivity. }
  rewrite <- H. destruct (urlencode_items params); split; (reflexivity || discriminate).
Qed.

Lemma build_none (server name : str) (r : RealityInbound)
    (params : list (str * str)) :
  match urlencode params with
  | None => None
  | Some query =>
      match quote name with
      | None => None
      | Some frag =>
          Some (py "vless://" ++ uuid r ++ py "@" ++ server ++ py ":"
                ++ str_of_int (port r) ++ py "?" ++ query ++ py "#" ++ frag)
      end
  end = None
  <-> urlencode params = None \/ quote name = None.
Proof.
  destruct (urlencode params); [|tauto].
  destruct (quote name); [|tauto].
  split; [discriminate|]. intros [H|H]; discriminate.
Qed.

Ltac split_scalars :=
  repeat match goal with
         | |- context [forallb is_scalar ?x] =>
             is_var x; destruct (forallb is_scalar x)
         | |- context [forallb is_scalar (?f ?x)] =>
             destruct (forallb is_scalar (f x))
         end.

(** X12: [build_vless_link] raises exactly when one of the values it
    percent-encodes (network, server name, fingerprint, public key, short
    id, the flow when it is true, the name) holds a code point that UTF-8
    does not encode, a lone surrogate; the server and the identifier, which
    are not encoded, never make it fail. *)
Theorem build_fails_exactly_on_unencodable
    (server name fp : str) (r : RealityInbound) (public_key : str) :
  build_vless_link server name fp r public_key = None
  <-> forallb (forallb is_scalar) (encoded_values name fp r public_key) = false.
Proof.
  unfold build_vless_link, encoded_values.
  destruct (truthy (flow r)) eqn:Ht.
  - destruct (flow r) as [f|]; [|discriminate].
    change (dict_set _ (py "flow") f)
      with [ (py "type", network r); (py "security", py "reality");
             (py "sni", sni r); (py "fp", fp); (py "pbk", public_key);
             (py "sid", short_id r); (py "flow", f) ].
    rewrite build_none, urlencode_none, quote_none.
    cbn [forallb fst snd app].
    change (forallb is_scalar (py "type")) with true.
    change (forallb is_scalar (py "security")) with true.
    change (forallb is_scalar (py "reality")) with true.
    change (forallb is_scalar (py "sni")) with true.
    change (forallb is_scalar (py "fp")) with true.
    change (forallb is_scalar (py "pbk")) with true.
    change (forallb is_scalar (py "sid")) with true.
    change (forallb is_scalar (py "flow")) with true.
    split_scalars; cbn; intuition congruence.
  - rewrite build_none, urlencode_none, quote_none.
    cbn [forallb fst snd app].
    change (forallb is_scalar (py "type")) with true.
    change (forallb is_scalar (py "security")) with true.
    change (forallb is_scalar (py "reality")) with true.
    change (forallb is_scalar (py "sni")) with true.
    change (forallb is_scalar (py "fp")) with true.
    change (forallb is_scalar (py "pbk")) with true.
    change (forallb is_scalar (py "sid")) with true.
    split_scalars; cbn; intuition congruence.
Qed.

Lemma build_fails_exactly_on_unencodable_witness :
  build_vless_link [55296] [55296] (py "chrome")
    {| uuid := [56000]; flow := Some []; port := 443; network := py "tcp";
       sni := py "example.com"; short_id := py "ab12";
       private_key := repeat 97 32 |}
    sample_public_key = None
  /\ build_vless_link [55296] (py "x") (py "chrome")
       {| uuid := [56000]; flow := Some []; port := 443; network := py "tcp";
          sni := py "example.com"; short_id := py "ab12";
          private_key := repeat 97 32 |}
       sample_public_key
     = Some ((py "vless://" ++ [56000] ++ py "@" ++ [55296])
             ++ py ":443?type=tcp&security=reality&sni=example.com&fp=chrome&pbk=PUBKEYBBBBBBBBBBBBBBBBBBBBBBBBBB&sid=ab12#x").
Proof.
  split.
  - apply (proj2 (build_fails_exactly_on_unencodable _ _ _ _ _)).
    vm_compute. reflexivity.
  - vm_compute. reflexivity.
Defined.

Lemma quoted_is_query_char (c : N) :
  is_quoted_char c = true -> is_query_char c = true.
Proof. intros H. unfold is_query_char. now rewrite H. Qed.

Lemma urlencode_items_chars (items : list (str * str)) :
  forall l, urlencode_items items = Some l ->
            forallb (forallb is_query_char) l = true.
Proof.
  induction items as [|[k v] items IH]; intros l; cbn [urlencode_items].
  - intros E. injection E as <-. reflexivity.
  - destruct (quote k) as [qk|] eqn:Hk; [|discriminate].
    destruct (quote v) as [qv|] eqn:Hv; [|discriminate].
    destruct (urlencode_items items) as [l'|]; [|discriminate].
    intros E. injection E as <-. cbn [forallb].
    rewrite (IH l' eq_refl), andb_true_r.
    change (qk ++ py "=" ++ qv) with (qk ++ 61 :: qv).
    rewrite forallb_app. cbn [forallb].
    rewrite (forallb_impl _ _ _ quoted_is_query_char (quote_chars k qk Hk)).
    rewrite (forallb_impl _ _ _ quoted_is_query_char (quote_chars v qv Hv)).
    reflexivity.
Qed.

Lemma join_chars (p : N -> bool) (sep : N) (l : list str) :
  p sep = true -> forallb (forallb p) l = true ->
  forallb p (join [sep] l) = true.
Proof.
  intros Hsep. induction l as [|f l IH]; [reflexivity|].
  cbn [forallb]. intros H. apply andb_true_iff in H as [Hf Hl].
  destruct l as [|g l]; [exact Hf|].
  change (join [sep] (f :: g :: l)) with (f ++ sep :: join [sep] (g :: l)).
  rewrite forallb_app, Hf. cbn [forallb andb]. rewrite Hsep. now apply IH.
Qed.

(** X13: in a link that is built, what follows the identifier, the server
    and the port is a [?], a query made only of unreserved characters, [%],
    [&] and [=], a [#], and a fragment made only of unreserved characters
    and [%]: no blank, no control or non-ASCII character, no second [?] or
    [#] comes from the encoded values. *)
Theorem link_query_and_fragment_are_plain
    (server name fp : str) (r : RealityInbound) (public_key uri : str) :
  build_vless_link server name fp r public_key = Some uri ->
  exists query frag,
    uri = py "vless://" ++ uuid r ++ py "@" ++ server ++ py ":"
          ++ str_of_int (port r) ++ [63] ++ query ++ [35] ++ frag
    /\ forallb is_query_char query = true
    /\ forallb is_quoted_char frag = true
    /\ quote name = Some frag.
Proof.
  unfold build_vless_link.
  destruct (urlencode _) as [query|] eqn:Hq; [|discriminate].
  destruct (quote name) as [frag|] eqn:Hn; [|discriminate].
  intros E. injection E as <-.
  exists query, frag. split; [reflexivity|]. split; [|split].
  - unfold urlencode in Hq.
    destruct (urlencode_items _) as [l|] eqn:Hl; [|discriminate].
    injection Hq as <-. change (py "&") with [38].
    apply join_chars; [reflexivity|]. exact (urlencode_items_chars _ l Hl).
  - now apply (quote_chars name).
  - reflexivity.
Qed.

Lemma link_query_and_fragment_are_plain_witness :
  build_vless_link (py "vpn.example.com") (py "home #1") (py "chrome")
    vision_record sample_public_key
  = Some (py "vless://11111111-1111-1111-1111-111111111111@vpn.example.com:443?type=tcp&security=reality&sni=example.com&fp=chrome&pbk=PUBKEYBBBBBBBBBBBBBBBBBBBBBBBBBB&sid=ab12&flow=xtls-rprx-vision#home%20%231")
  /\ exists query frag,
       py "vless://11111111-1111-1111-1111-111111111111@vpn.example.com:443?type=tcp&security=reality&sni=example.com&fp=chrome&pbk=PUBKEYBBBBBBBBBBBBBBBBBBBBBBBBBB&sid=ab12&flow=xtls-rprx-vision#home%20%231"
       = py "vless://" ++ uuid vision_record ++ py "@" ++ py "vpn.example.com"
         ++ py ":" ++ str_of_int (port vision_record) ++ [63] ++ query ++ [35]
         ++ frag
       /\ forallb is_query_char query = true
       /\ forallb is_quoted_char frag = true
       /\ quote (py "home #1") = Some frag.
Proof.
  assert (H : build_vless_link (py "vpn.example.com") (py "home #1")
                (py "chrome") vision_record sample_public_key
              = Some (py "vless://11111111-1111-1111-1111-111111111111@vpn.example.com:443?type=tcp&security=reality&sni=example.com&fp=chrome&pbk=PUBKEYBBBBBBBBBBBBBBBBBBBBBBBBBB&sid=ab12&flow=xtls-rprx-vision#home%20%231"))
    by (vm_compute; reflexivity).
  split; [exact H|].
  exact (link_query_and_fragment_are_plain _ _ _ _ _ _ H).
Defined.

Lemma always_safe_ascii (c : N) : always_safe c = true -> c < 128.
Proof.
  intros H. assert (Hq : is_quoted_char c = true)
    by (unfold is_quoted_char; now rewrite H).
  now apply is_quoted_char_spec in Hq.
Qed.

Lemma quote_unreserved (s : str) :
  forallb always_safe s = true -> quote s = Some s.
Proof.
  intros H. unfold quote. destruct (is_empty s) eqn:He; [reflexivity|].
  assert (Hu : utf8_encode s = Some s /\ quote_from_bytes s = s).
  { clear He. induction s as [|c s IH]; [now split|].
    cbn [forallb] in H. apply andb_true_iff in H as [Hc Hs].
    destruct (IH Hs) as [IH1 IH2].
    cbn [utf8_encode]. unfold utf8_encode_char.
    replace (c <? 128) with true
      by (symmetry; apply N.ltb_lt; now apply always_safe_ascii).
    rewrite IH1. split; [reflexivity|].
    unfold quote_from_bytes in *. cbn [flat_map]. unfold quote_byte at 1.
    rewrite Hc, IH2. reflexivity. }
  destruct Hu as [-> ->]. reflexivity.
Qed.

Lemma b64url_always_safe (c : N) : is_b64url c = true -> always_safe c = true.
Proof.
  unfold is_b64url, always_safe. intros H.
  repeat (apply orb_true_iff in H as [H|H]); rewrite H;
    rewrite ?orb_true_r; reflexivity.
Qed.

Lemma lower_hex_always_safe (c : N) : is_lower_hex c = true -> always_safe c = true.
Proof.
  unfold is_lower_hex, always_safe, Re.in_range. intros H.
  apply orb_true_iff in H as [H|H]; apply andb_true_iff in H as [H1 H2];
    apply N.leb_le in H1, H2.
  - replace ((48 <=? c) && (c <=? 57)) with true
      by (symmetry; apply andb_true_iff; split; apply N.leb_le; lia).
    now rewrite !orb_true_r.
  - replace ((97 <=? c) && (c <=? 122)) with true
      by (symmetry; apply andb_true_iff; split; apply N.leb_le; lia).
    now rewrite !orb_true_r.
Qed.

(** X14: the pipeline never alters the key or the short id: for a record
    that extraction returned and a public key that the derivation returned
    for its private key, percent-encoding leaves the public key and the
    short id as they are, so both stand verbatim in the link. *)
Theorem derived_key_and_short_id_pass_unencoded
    (cfg : dict) (inbound_index : option Z) (r : RealityInbound)
    (env_XRAY_BIN : option str) (subprocess_run : list str -> proc_outcome)
    (pub : str) :
  _select_inbound cfg inbound_index = Ok r ->
  compute_public_key_from_private env_XRAY_BIN subprocess_run (private_key r)
  = Ok pub ->
  quote pub = Some pub /\ quote (short_id r) = Some (short_id r).
Proof.
  intros Hsel Hpub.
  apply derived_key_token in Hpub as [stdout [_ [_ [Hns Hre]]]].
  destruct (key_pattern_shape pub Hns Hre) as [_ Hb].
  apply extracted_short_id_shape in Hsel as [h [-> [_ [Hhex _]]]].
  split; apply quote_unreserved.
  - eapply forallb_impl; [apply b64url_always_safe | exact Hb].
  - eapply forallb_impl; [apply lower_hex_always_safe|].
    now apply lower_all_lower_hex.
Qed.

Lemma derived_key_and_short_id_pass_unencoded_witness :
  _select_inbound sample_cfg None = Ok sample_record
  /\ compute_public_key_from_private None
       (fun _ => Completed 0 (py "Password: " ++ sample_public_key))
       (private_key sample_record)
     = Ok sample_public_key
  /\ quote sample_public_key = Some sample_public_key
  /\ quote (short_id sample_record) = Some (short_id sample_record).
Proof.
  assert (H1 : _select_inbound sample_cfg None = Ok sample_record)
    by (vm_compute; reflexivity).
  assert (H2 : compute_public_key_from_private None
                 (fun _ => Completed 0 (py "Password: " ++ sample_public_key))
                 (private_key sample_record) = Ok sample_public_key)
    by (vm_compute; reflexivity).
  split; [exact H1|]. split; [exact H2|].
  exact (derived_key_and_short_id_pass_unencoded _ _ _ _ _ _ H1 H2).
Defined.

(* ================================================================= *)
(** ** Form encoding *)

Lemma quote_byte_keep_space_cases (b : N) :
  (b = 32 /\ quote_byte_keep_space b = [32])
  \/ (b <> 32 /\ quote_byte_keep_space b = quote_byte b).
Proof.
  unfold quote_byte_keep_space, quote_byte.
  destruct (N.eqb_spec b 32) as [->|Hb]; [now left | now right].
Qed.

Lemma keep_space_chars (bs : bytes) :
  Forall (fun b => b < 256) bs ->
  Forall (fun c => is_quoted_char c = true \/ c = 32)
         (flat_map quote_byte_keep_space bs).
Proof.
  induction 1 as [|b bs Hb _ IH]; [constructor|].
  cbn [flat_map]. apply Forall_app. split; [|exact IH].
  destruct (quote_byte_keep_space_cases b) as [[-> ->]|[_ ->]].
  - constructor; [now right | constructor].
  - pose proof (quote_byte_chars b Hb) as H. rewrite forallb_forall in H.
    apply Forall_forall. intros c Hc. left. now apply H.
Qed.

Lemma unquote_keep_space (bs : bytes) :
  Forall (fun b => b < 256) bs ->
  unquote_to_bytes (flat_map quote_byte_keep_space bs) = bs.
Proof.
  induction 1 as [|b bs Hb _ IH]; [reflexivity|].
  cbn [flat_map].
  destruct (quote_byte_keep_space_cases b) as [[-> ->]|[_ ->]].
  - cbn [app]. rewrite unquote_plain by lia. now rewrite IH.
  - now rewrite unquote_quote_byte, IH.
Qed.

Lemma plus_to_spaces_plain (q : str) : ~ In 43 q -> plus_to_spaces q = q.
Proof.
  induction q as [|c q IH]; [reflexivity|]. intros H.
  cbn [plus_to_spaces map]. fold (plus_to_spaces q).
  rewrite IH by (intros Hin; apply H; now right).
  destruct (N.eqb_spec c 43) as [->|_]; [|reflexivity].
  exfalso. apply H. now left.
Qed.

Lemma plus_to_spaces_undoes (q : str) :
  ~ In 43 q -> plus_to_spaces (spaces_to_plus q) = q.
Proof.
  induction q as [|c q IH]; [reflexivity|]. intros H.
  cbn [plus_to_spaces spaces_to_plus map].
  fold (spaces_to_plus q). fold (plus_to_spaces (spaces_to_plus q)).
  rewrite IH by (intros Hin; apply H; now right).
  destruct (N.eqb_spec c 32) as [->|Hc]; [reflexivity|].
  destruct (N.eqb_spec c 43) as [->|_]; [|reflexivity].
  exfalso. apply H. now left.
Qed.

Lemma quoted_or_space_lacks_plus (q : str) :
  Forall (fun c => is_quoted_char c = true \/ c = 32) q -> ~ In 43 q.
Proof.
  intros H Hin. rewrite Forall_forall in H.
  destruct (H _ Hin) as [Hq|Hq]; [discriminate Hq | lia].
Qed.

(** The characters of the text that [quote_plus] returns: those of
    percent-encoded text and [+]. *)
Lemma quote_plus_chars (s q : str) :
  quote_plus s = Some q ->
  Forall (fun c => is_quoted_char c = true \/ c = 43) q.
Proof.
  unfold quote_plus. destruct (forallb _ s).
  - intros H. apply quote_chars in H. rewrite forallb_forall in H.
    apply Forall_forall. intros c Hc. left. now apply H.
  - unfold quote_keep_space. destruct (is_empty s) eqn:He.
    + apply is_empty_true in He as ->. cbn. intros E; some_inj E. constructor.
    + destruct (utf8_encode s) as [bs|] eqn:Hb; [|discriminate].
      cbn [option_map]. intros E; some_inj E.
      pose proof (keep_space_chars bs (utf8_encode_bytes s bs Hb)) as H.
      unfold spaces_to_plus. apply Forall_map.
      eapply Forall_impl; [|exact H]. cbv beta. intros c [Hc| ->].
      * destruct (N.eqb_spec c 32) as [->|_]; [discriminate Hc | now left].
      * now right.
Qed.

Lemma quote_plus_lacks (s q : str) (c : N) :
  quote_plus s = Some q -> c = 38 \/ c = 61 -> ~ In c q.
Proof.
  intros H Hc Hin. apply quote_plus_chars in H. rewrite Forall_forall in H.
  destruct (H _ Hin) as [Hq|Hq]; [|lia].
  apply is_quoted_char_spec in Hq. lia.
Qed.

Lemma quote_plus_ascii (s q : str) :
  quote_plus s = Some q -> forallb (fun c => c <? 128) q = true.
Proof.
  intros H. apply quote_plus_chars in H. apply forallb_forall. intros c Hc.
  rewrite Forall_forall in H. apply N.ltb_lt.
  destruct (H _ Hc) as [Hq|Hq]; [|lia].
  now apply is_quoted_char_spec in Hq.
Qed.

(** Form decoding of one component undoes [quote_plus]. *)
Lemma unquote_quote_plus (s q : str) :
  quote_plus s = Some q -> unquote (plus_to_spaces q) = Some s.
Proof.
  unfold quote_plus. destruct (forallb _ s).
  - intros H. rewrite plus_to_spaces_plain; [now apply unquote_quote|].
    apply quote_chars in H. intros Hin. rewrite forallb_forall in H.
    now apply H in Hin.
  - unfold quote_keep_space. destruct (is_empty s) eqn:He.
    + apply is_empty_true in He as ->. cbn. intros E; some_inj E. reflexivity.
    + destruct (utf8_encode s) as [bs|] eqn:Hb; [|discriminate].
      cbn [option_map]. intros E; some_inj E.
      pose proof (utf8_encode_bytes s bs Hb) as Hbs.
      pose proof (keep_space_chars bs Hbs) as Hch.
      rewrite plus_to_spaces_undoes by now apply quoted_or_space_lacks_plus.
      unfold unquote.
      replace (forallb (fun c => c <? 128) (flat_map quote_byte_keep_space bs))
        with true.
      * rewrite (unquote_keep_space bs Hbs). now apply utf8_decode_encode.
      * symmetry. apply forallb_forall. intros c Hc. apply N.ltb_lt.
        rewrite Forall_forall in Hch. destruct (Hch c Hc) as [Hq| ->]; [|lia].
        now apply is_quoted_char_spec in Hq.
Qed.

Lemma quote_plus_none (s : str) :
  quote_plus s = None <-> forallb is_scalar s = false.
Proof.
  unfold quote_plus. destruct (forallb _ s); [apply quote_none|].
  unfold quote_keep_space. destruct s as [|c s]; cbn [is_empty].
  - split; discriminate.
  - rewrite <- utf8_encode_none.
    destruct (utf8_encode (c :: s)); split; (reflexivity || discriminate).
Qed.

Lemma urlencode_plus_items_fields (items : list (str * str)) :
  forall l,
    urlencode_plus_items items = Some l ->
    List.length l = List.length items
    /\ (forall f, In f l -> ~ In 38 f)
    /\ (forall f, In f l -> forallb (fun c => c <? 128) f = true)
    /\ form_fields l = Some items.
Proof.
  induction items as [|[k v] items IH]; intros l; cbn [urlencode_plus_items].
  - intros E; some_inj E. repeat split; intros f [].
  - destruct (quote_plus k) as [qk|] eqn:Hk; [|discriminate].
    destruct (quote_plus v) as [qv|] eqn:Hv; [|discriminate].
    destruct (urlencode_plus_items items) as [l'|]; [|discriminate].
    intros E; some_inj E.
    destruct (IH l' eq_refl) as [Hlen [Hch [Hasc Hdec]]].
    change (qk ++ py "=" ++ qv) with (qk ++ 61 :: qv).
    split; [cbn [List.length]; now rewrite Hlen|]. split; [|split].
    + intros f [<-|Hf]; [|now apply Hch].
      intros Hin. apply in_app_or in Hin as [Hin|[Hin|Hin]].
      * revert Hin. apply (quote_plus_lacks k); [assumption | tauto].
      * lia.
      * revert Hin. apply (quote_plus_lacks v); [assumption | tauto].
    + intros f [<-|Hf]; [|now apply Hasc].
      rewrite forallb_app. cbn [forallb].
      now rewrite (quote_plus_ascii k qk Hk), (quote_plus_ascii v qv Hv).
    + cbn [form_fields].
      rewrite partition_at_app
        by (apply (quote_plus_lacks k); [assumption | tauto]).
      now rewrite (unquote_quote_plus k qk Hk), (unquote_quote_plus v qv Hv), Hdec.
Qed.

Lemma join_ascii (l : list str) :
  (forall f, In f l -> forallb (fun c => c <? 128) f = true) ->
  forallb (fun c => c <? 128) (join [38] l) = true.
Proof.
  induction l as [|f l IH]; intros H; [reflexivity|].
  destruct l as [|g l].
  - cbn [join]. apply H. now left.
  - change (join [38] (f :: g :: l)) with (f ++ 38 :: join [38] (g :: l)).
    rewrite forallb_app. cbn [forallb].
    rewrite (H f (or_introl eq_refl)), IH; [reflexivity|].
    intros x Hx. apply H. now right.
Qed.

Lemma utf8_encode_ascii (q : str) :
  forallb (fun c => c <? 128) q = true -> utf8_encode q = Some q.
Proof.
  induction q as [|c q IH]; [reflexivity|]. cbn [forallb]. intros H.
  apply andb_true_iff in H as [Hc Hq].
  cbn [utf8_encode]. unfold utf8_encode_char. rewrite Hc, (IH Hq). reflexivity.
Qed.

(** The body that [urlencode] gives is ASCII text, and form decoding gives
    the pairs back. *)
Lemma urlencode_plus_decode (query : list (str * str)) (body : str) :
  query <> [] ->
  urlencode_plus query = Some body ->
  utf8_encode body = Some body /\ form_decode body = Some query.
Proof.
  intros Hne. unfold urlencode_plus.
  destruct (urlencode_plus_items query) as [l|] eqn:Hl; [|discriminate].
  intros E; some_inj E.
  destruct (urlencode_plus_items_fields query l Hl) as [Hlen [Hch [Hasc Hdec]]].
  change (py "&") with [38]. split.
  - apply utf8_encode_ascii. now apply join_ascii.
  - unfold form_decode. rewrite split_on_join; [exact Hdec| |exact Hch].
    destruct l; [|discriminate]. destruct query; [congruence | discriminate].
Qed.

(* ================================================================= *)
(** ** Runs of the programs *)

Section Runs.
Import Programs Outputs.

Variable w : World.

(** The steps up to the link make no output; they give the link of the
    extracted record, or raise something that is not a [UserError] of
    [vpn_cli]. *)
Lemma link_of_config_cases (env : option str) (config : str)
    (idx : option Z) (server name fp : str) :
  (exists link,
      built_link w env config idx server name fp link
      /\ link_of_config w env config idx server name fp = ([], inr link))
  \/ (exists e,
         link_of_config w env config idx server name fp = ([], inl e)
         /\ (forall c, e <> CliError c)
         /\ forall link, ~ built_link w env config idx server name fp link).
Proof.
  unfold link_of_config, built_link, XrayRealityQr._load_json.
  destruct (read_json w config) as [| | |v] eqn:Hr;
    try (right; eexists; split; [reflexivity|];
         split; [discriminate|]; intros link (c & r & p & H & _); discriminate).
  destruct v as [| | | | | |cfg];
    try (right; eexists; split; [reflexivity|];
         split; [discriminate|]; intros link (c & r & p & H & _); discriminate).
  cbn [_expect_dict of_res bind_io ret app].
  destruct (_select_inbound cfg idx) as [r|e] eqn:Hs.
  2:{ right; eexists; split; [reflexivity|]. split; [discriminate|].
      intros link (c & r & p & H & H' & _).
      assert (c = cfg) by congruence. subst. congruence. }
  cbn [of_res bind_io ret app].
  destruct (compute_public_key_from_private env (subprocess_run w) (private_key r))
    as [[pub|e]|] eqn:Hc.
  2:{ right; eexists; split; [reflexivity|]. split; [discriminate|].
      intros link (c & r' & p & H & H' & H'' & _).
      assert (c = cfg) by congruence. subst.
      assert (r' = r) by congruence. subst. congruence. }
  2:{ right; eexists; split; [reflexivity|]. split; [discriminate|].
      intros link (c & r' & p & H & H' & H'' & _).
      assert (c = cfg) by congruence. subst.
      assert (r' = r) by congruence. subst. congruence. }
  cbn [of_outcome of_res bind_io ret app].
  destruct (build_vless_link server name fp r pub) as [link|] eqn:Hb.
  - left. exists link. split; [|reflexivity]. now exists cfg, r, pub.
  - right; eexists; split; [reflexivity|]. split; [discriminate|].
    intros link (c & r' & p & H & H' & H'' & H''').
    assert (c = cfg) by congruence. subst.
    assert (r' = r) by congruence. subst.
    assert (p = pub) by congruence. subst. congruence.
Qed.

Lemma built_link_unique (env : option str) (config : str)
    (idx : option Z) (server name fp l1 l2 : str) :
  built_link w env config idx server name fp l1 ->
  built_link w env config idx server name fp l2 -> l1 = l2.
Proof.
  intros (c & r & p & H1 & H2 & H3 & H4) (c' & r' & p' & H1' & H2' & H3' & H4').
  assert (c' = c) by congruence. subst.
  assert (r' = r) by congruence. subst.
  assert (p' = p) by congruence. subst. congruence.
Qed.

(** A continuation after the steps up to the link, written as in the
    source. *)
Lemma steps_then {C : Type} (env : option str) (config : str)
    (idx : option Z) (server name fp : str) (k : str -> io C) :
  (cfg_any <<- XrayRealityQr._load_json w config ;;
   cfg <<- of_res (_expect_dict cfg_any (py "root")) ;;
   inbound <<- of_res (_select_inbound cfg idx) ;;
   public_key <<- of_outcome (compute_public_key_from_private env
                                (subprocess_run w) (private_key inbound)) ;;
   link <<- of_encoded (build_vless_link server name fp inbound public_key) ;;
   k link)
  = (link <<- link_of_config w env config idx server name fp ;; k link).
Proof.
  unfold link_of_config.
  destruct (XrayRealityQr._load_json w config) as [t [e|cfg_any]];
    [reflexivity|]. cbn [bind_io].
  destruct (of_res (_expect_dict cfg_any (py "root"))) as [t1 [e|cfg]];
    [reflexivity|]. cbn [bind_io].
  destruct (of_res (_select_inbound cfg idx)) as [t2 [e|inbound]];
    [reflexivity|]. cbn [bind_io].
  destruct (of_outcome (compute_public_key_from_private env (subprocess_run w)
                          (private_key inbound))) as [t3 [e|public_key]];
    [reflexivity|]. cbn [bind_io].
  destruct (of_encoded (build_vless_link server name fp inbound public_key))
    as [t4 [e|link]]; [reflexivity|]. cbn [bind_io].
  destruct (k link) as [t5 r]. now rewrite !app_assoc.
Qed.

(** [print] raises no [UserError]; it prints the link, or nothing. *)
Lemma print_cases (link : str) :
  (print_line w link = PrintDone /\ print w link = ([Printed link], inr tt))
  \/ (print_line w link <> PrintDone
      /\ exists e, print w link = ([], inl e)
                   /\ (forall c, e <> CliError c)
                   /\ (forall q, e <> QrUserError q)).
Proof.
  unfold print. destruct (print_line w link); [left; now split| |];
    (right; split; [discriminate|]; eexists;
     split; [reflexivity|]; split; discriminate).
Qed.

End Runs.

(* ================================================================= *)
(** ** [main] of [xray_reality_qr] *)

Section MainRuns.
Import Programs Outputs.

Variable w : World.

Lemma main_from_link (env : option str) (args : XrayRealityQr.QrArgs) :
  XrayRealityQr.main w env args
  = (link <<- link_of_config w env (XrayRealityQr.config args)
                (XrayRealityQr.inbound_index args) (XrayRealityQr.server args)
                (XrayRealityQr.name args) (XrayRealityQr.fp args) ;;
     if XrayRealityQr.dry_run args then
       print w link >>> ret 0%Z
     else
       XrayRealityQr.qr_png w link (XrayRealityQr.out args) >>>
       (if XrayRealityQr.print_link args then print w link else ret tt) >>>
       (if XrayRealityQr.print_qr args then XrayRealityQr.qr_ansi w link else ret tt) >>>
       ret 0%Z).
Proof.
  unfold XrayRealityQr.main.
  exact (steps_then w env _ _ _ _ _ _).
Qed.

(** X16: with [--dry-run], [main] prints the link of the extracted record
    and returns 0, or it raises and has made no output; no image is written
    and no code is drawn, whatever the other options are. *)
Theorem dry_run_prints_the_link_or_nothing
    (env : option str) (args : XrayRealityQr.QrArgs) :
  XrayRealityQr.dry_run args = true ->
  (exists link,
      built_link w env (XrayRealityQr.config args)
        (XrayRealityQr.inbound_index args) (XrayRealityQr.server args)
        (XrayRealityQr.name args) (XrayRealityQr.fp args) link
      /\ XrayRealityQr.main w env args = ([Printed link], inr 0%Z))
  \/ (exists e, XrayRealityQr.main w env args = ([], inl e)).
Proof.
  intros Hdry. rewrite main_from_link, Hdry.
  destruct (link_of_config_cases w env (XrayRealityQr.config args)
              (XrayRealityQr.inbound_index args) (XrayRealityQr.server args)
              (XrayRealityQr.name args) (XrayRealityQr.fp args))
    as [[link [Hb ->]]|[e [-> _]]].
  - cbn beta iota delta [bind_io].
    destruct (print_cases w link) as [[_ ->]|[_ [e [-> _]]]].
    + left. exists link. split; [exact Hb | reflexivity].
    + right. exists e. reflexivity.
  - right. exists e. reflexivity.
Qed.

(** X17: without [--dry-run], a run of [main] that makes any output has
    saved the image first, for the link of the extracted record.  When the
    link is to be printed and [print] raises, the image is all there is: the
    run raises and the code is not drawn.  Otherwise the link is printed,
    when asked for, and then the code is drawn on the terminal, when asked
    for and [qr_ansi] succeeds, both for the same link. *)
Theorem outputs_follow_the_image
    (env : option str) (args : XrayRealityQr.QrArgs) :
  XrayRealityQr.dry_run args = false ->
  fst (XrayRealityQr.main w env args) = []
  \/ exists link,
       built_link w env (XrayRealityQr.config args)
         (XrayRealityQr.inbound_index args) (XrayRealityQr.server args)
         (XrayRealityQr.name args) (XrayRealityQr.fp args) link
       /\ qrcode_png w link (XrayRealityQr.out args) = QrDone
       /\ let drawn :=
            if XrayRealityQr.print_qr args
            then match qrcode_ansi w link with
                 | QrDone => [QrPrinted link]
                 | _ => []
                 end
            else [] in
          if XrayRealityQr.print_link args
          then match print_line w link with
               | PrintDone =>
                   fst (XrayRealityQr.main w env args)
                   = PngSaved link (XrayRealityQr.out args)
                     :: Printed link :: drawn
               | PrintEncodeFailed =>
                   XrayRealityQr.main w env args
                   = ([PngSaved link (XrayRealityQr.out args)],
                      inl UnicodeEncodeError)
               | PrintFailed =>
                   XrayRealityQr.main w env args
                   = ([PngSaved link (XrayRealityQr.out args)],
                      inl OtherException)
               end
          else fst (XrayRealityQr.main w env args)
               = PngSaved link (XrayRealityQr.out args) :: drawn.
Proof.
  intros Hdry. rewrite main_from_link, Hdry.
  destruct (link_of_config_cases w env (XrayRealityQr.config args)
              (XrayRealityQr.inbound_index args) (XrayRealityQr.server args)
              (XrayRealityQr.name args) (XrayRealityQr.fp args))
    as [[link [Hb ->]]|[e [-> _]]]; [|left; reflexivity].
  unfold XrayRealityQr.qr_png, XrayRealityQr.qr_ansi, print.
  cbn beta iota delta [bind_io].
  destruct (qrcode_png w link (XrayRealityQr.out args)) eqn:Hpng;
    [|left; reflexivity|left; reflexivity].
  right. exists link. split; [exact Hb|]. split; [exact Hpng|]. cbv zeta.
  destruct (XrayRealityQr.print_link args), (XrayRealityQr.print_qr args);
    try destruct (print_line w link); try destruct (qrcode_ansi w link);
    reflexivity.
Qed.

(** [main] raises no [UserError] of [vpn_cli]. *)
Lemma main_raises_no_cli_error
    (env : option str) (args : XrayRealityQr.QrArgs) (c : CliUserError) :
  snd (XrayRealityQr.main w env args) <> inl (CliError c).
Proof.
  rewrite main_from_link.
  destruct (link_of_config_cases w env (XrayRealityQr.config args)
              (XrayRealityQr.inbound_index args) (XrayRealityQr.server args)
              (XrayRealityQr.name args) (XrayRealityQr.fp args))
    as [[link [Hb ->]]|[e [-> [He _]]]].
  - unfold XrayRealityQr.qr_png, XrayRealityQr.qr_ansi, print.
    cbn beta iota delta [bind_io].
    destruct (XrayRealityQr.dry_run args).
    { destruct (print_line w link); discriminate. }
    destruct (qrcode_png w link (XrayRealityQr.out args)); try discriminate.
    destruct (XrayRealityQr.print_link args), (XrayRealityQr.print_qr args);
      try destruct (print_line w link); try destruct (qrcode_ansi w link);
      discriminate.
  - cbn. intros E. apply (He c). congruence.
Qed.

End MainRuns.

(* ================================================================= *)
(** ** [_ensure_xray_available] and [cmd_qr] of [vpn_cli] *)

Section CmdQr.
Import Programs Outputs.

Variable w : World.

Lemma with_urlopen_run (req : Request) (timeout : Z)
    (failed : Z -> CliUserError) :
  fst (VpnCli.with_urlopen w req timeout failed) = [Requested req timeout]
  /\ (snd (VpnCli.with_urlopen w req timeout failed) = inr tt
      <-> exists status, urlopen w req timeout = Responded status
                         /\ (status < 300)%Z)
  /\ forall q, snd (VpnCli.with_urlopen w req timeout failed)
               <> inl (QrUserError q).
Proof.
  unfold VpnCli.with_urlopen. cbn [emit bind_io].
  destruct (urlopen w req timeout) as [status|].
  - destruct (Z.leb_spec 300 status) as [H|H]; cbn; (split; [reflexivity|]).
    + split; [|discriminate]. split; [discriminate|]. intros [st [E Hst]].
      assert (st = status) by congruence. lia.
    + split; [|discriminate]. split; [|reflexivity]. intros _. eauto.
  - cbn. split; [reflexivity|]. split; [|discriminate]. split; [discriminate|].
    intros [st [E _]]. discriminate.
Qed.

Lemma fs_run (a : fs_action) :
  exists ok r, fs w a = ([Fs a ok], r) /\ forall q, r <> inl (QrUserError q).
Proof.
  unfold fs. destruct (fs_ok w a); do 2 eexists; (split; [reflexivity|]);
    discriminate.
Qed.

(** The download makes requests to GitHub and file actions of its own,
    nothing else, and raises no [UserError] of [xray_reality_qr]. *)
Lemma download_run (dest_dir : str) :
  forallb download_event (fst (VpnCli._download_latest_xray_linux_64 w dest_dir))
  = true
  /\ (forall q, snd (VpnCli._download_latest_xray_linux_64 w dest_dir)
                <> inl (QrUserError q))
  /\ (forall p, snd (VpnCli._download_latest_xray_linux_64 w dest_dir) = inr p ->
                p = path_join w dest_dir (py "xray")).
Proof.
  unfold VpnCli._download_latest_xray_linux_64, VpnCli.with_urlopen, fs.
  cbn beta iota zeta delta [bind_io emit].
  destruct (urlopen w _ 20) as [status|]; [|repeat split; discriminate].
  destruct (300 <=? status)%Z; [repeat split; discriminate|].
  cbn beta iota zeta delta [bind_io ret].
  destruct (response_json w _) as [data|]; [|repeat split; discriminate].
  cbn beta iota zeta delta [bind_io ret].
  destruct data as [| | | | | |d]; try (repeat split; discriminate).
  cbn beta iota zeta delta [bind_io ret].
  destruct (dict_get d (py "tag_name")) as [| | | |t| |];
    try (repeat split; discriminate).
  destruct (is_empty (strip t)); [repeat split; discriminate|].
  cbn beta iota zeta delta [bind_io ret].
  destruct (urlopen w _ 60) as [status2|]; [|repeat split; discriminate].
  destruct (300 <=? status2)%Z; [repeat split; discriminate|].
  cbn beta iota zeta delta [bind_io ret].
  destruct (response_bytes w _) as [content|]; [|repeat split; discriminate].
  cbn beta iota zeta delta [bind_io ret].
  destruct (fs_ok w (WriteBytes _ _)); [|repeat split; discriminate].
  cbn beta iota zeta delta [bind_io ret emit].
  destruct (fs_ok w (ExtractMember _ _ _)); [|repeat split; discriminate].
  cbn beta iota zeta delta [bind_io ret emit].
  destruct (fs_ok w (Chmod _ _)); [|repeat split; discriminate].
  cbn beta iota zeta delta [bind_io ret emit].
  split; [reflexivity|]. split; [discriminate|].
  intros p E. cbn [snd] in E. congruence.
Qed.

Lemma ensure_cases (env : option str) :
  (VpnCli._ensure_xray_available w env = ([], inr env)
   /\ (blank_variable env = false \/ truthy (which_xray w) = true))
  \/ (blank_variable env = true /\ truthy (which_xray w) = false
      /\ exists t r,
           VpnCli._ensure_xray_available w env = (t, r)
           /\ t <> []
           /\ forallb download_event t = true
           /\ match r with
              | inr env' =>
                  env' = Some (path_join w (temp_dir w) (py "xray"))
              | inl e => forall q, e <> QrUserError q
              end).
Proof.
  unfold VpnCli._ensure_xray_available, blank_variable.
  destruct (is_empty (strip _)); cbn [negb]; [|left; split; [reflexivity|now left]].
  destruct (truthy (which_xray w)); [left; split; [reflexivity|now right]|].
  right. split; [reflexivity|]. split; [reflexivity|].
  cbv zeta. unfold fs.
  destruct (fs_ok w (MakeTempDir _ _)).
  2:{ do 2 eexists. split; [reflexivity|]. split; [discriminate|].
      split; [reflexivity|]. discriminate. }
  cbn beta iota delta [bind_io emit].
  destruct (download_run (temp_dir w)) as [Hev [Hq Hp]].
  destruct (VpnCli._download_latest_xray_linux_64 w (temp_dir w)) as [t [e|p]];
    cbn [fst snd] in *; cbn beta iota delta [bind_io ret].
  - do 2 eexists. split; [reflexivity|]. split; [discriminate|].
    split; [cbn [app forallb download_event]; exact Hev|].
    intros q E. apply (Hq q). congruence.
  - do 2 eexists. split; [reflexivity|]. split; [discriminate|].
    split; [cbn [app forallb download_event]; now rewrite app_nil_r|].
    now rewrite (Hp p eq_refl).
Qed.

Lemma cmd_qr_from_main (env : option str) (args : XrayRealityQr.QrArgs) :
  VpnCli.cmd_qr w env args
  = (env' <<- VpnCli._ensure_xray_available w env ;;
     XrayRealityQr.main w env' args).
Proof. reflexivity. Qed.

(** X18: [cmd_qr] does what [main] of [xray_reality_qr] does, under the
    [XRAY_BIN] that [_ensure_xray_available] leaves.  When the variable is
    not blank or [xray] is on the path, that is the variable as found, and
    [cmd_qr] is [main].  Otherwise the program is downloaded: [cmd_qr] makes
    the requests and file actions of the download, then what [main] makes
    with the downloaded program, and gives what [main] gives; and when the
    download raises, [cmd_qr] raises the same having done nothing but the
    download's own requests and file actions. *)
Theorem cmd_qr_runs_main_with_ensured_xray
    (env : option str) (args : XrayRealityQr.QrArgs) :
  (blank_variable env = false \/ truthy (which_xray w) = true ->
   VpnCli.cmd_qr w env args = XrayRealityQr.main w env args)
  /\ (blank_variable env = true -> truthy (which_xray w) = false ->
      forall t env', VpnCli._ensure_xray_available w env = (t, inr env') ->
      env' = Some (path_join w (temp_dir w) (py "xray"))
      /\ forallb download_event t = true
      /\ VpnCli.cmd_qr w env args
         = (t ++ fst (XrayRealityQr.main w env' args),
            snd (XrayRealityQr.main w env' args)))
  /\ (blank_variable env = true -> truthy (which_xray w) = false ->
      forall t e, VpnCli._ensure_xray_available w env = (t, inl e) ->
      forallb download_event t = true
      /\ VpnCli.cmd_qr w env args = (t, inl e)).
Proof.
  rewrite cmd_qr_from_main.
  destruct (ensure_cases env)
    as [[He Hor]|(Hb & Hw & t & r & He & _ & Hev & Hr)]; rewrite He.
  - cbn [bind_io app]. destruct (XrayRealityQr.main w env args) as [t r].
    repeat split; try reflexivity; intros; destruct Hor; congruence.
  - split; [intros [H|H]; congruence|]. split.
    + intros _ _ t' env' E.
      assert (t' = t) by congruence. assert (r = inr env') by congruence.
      subst. cbn [bind_io].
      destruct (XrayRealityQr.main w env' args) as [tm rm]. now repeat split.
    + intros _ _ t' e E.
      assert (t' = t) by congruence. assert (r = inl e) by congruence.
      subst. now split.
Qed.

(** X19: a blank [XRAY_BIN] (empty or white space) counts as unset for
    [_ensure_xray_available] and as set for the derivation.  With [xray] on
    the path nothing is downloaded, and the program that is run is the blank
    string, not [xray].  When running it raises [FileNotFoundError], [cmd_qr]
    ends with the error for a missing [xray]; when it raises another
    exception, as the empty name does, that exception passes through
    [cmd_qr]; either way nothing is output. *)
Theorem blank_XRAY_BIN_is_run_as_the_program
    (v : str) (args : XrayRealityQr.QrArgs) (cfg : dict) (r : RealityInbound) :
  is_empty (strip v) = true ->
  truthy (which_xray w) = true ->
  read_json w (XrayRealityQr.config args) = Loaded (JObject cfg) ->
  _select_inbound cfg (XrayRealityQr.inbound_index args) = Ok r ->
  VpnCli._ensure_xray_available w (Some v) = ([], inr (Some v))
  /\ VpnCli.cmd_qr w (Some v) args = XrayRealityQr.main w (Some v) args
  /\ (subprocess_run w [v; py "x25519"; py "-i"; private_key r] = FileNotFound ->
      VpnCli.cmd_qr w (Some v) args
      = ([], inl (QrUserError (Core XrayNotFound))))
  /\ (subprocess_run w [v; py "x25519"; py "-i"; private_key r] = OtherError ->
      VpnCli.cmd_qr w (Some v) args = ([], inl OtherException)).
Proof.
  intros Hv Hw Hr Hs.
  assert (He : VpnCli._ensure_xray_available w (Some v) = ([], inr (Some v))).
  { unfold VpnCli._ensure_xray_available. now rewrite Hv, Hw. }
  split; [exact He|].
  rewrite cmd_qr_from_main, He. cbn [bind_io].
  split; [now destruct (XrayRealityQr.main w (Some v) args)|].
  unfold XrayRealityQr.main, XrayRealityQr._load_json.
  rewrite Hr. cbn [bind_io ret app _expect_dict of_res].
  rewrite Hs. cbn [bind_io ret app of_res].
  unfold compute_public_key_from_private.
  split; intros Hp; rewrite Hp; reflexivity.
Qed.

(* ================================================================= *)
(** ** The [__main__] blocks *)

(** X20: the handler of [vpn_cli] catches the [UserError] of [vpn_cli]
    only.  Under [vpn_cli qr] the run ends with the [ERROR:] line only when
    the download of [xray] raised such an error, and then it has done
    nothing but the download's own requests and file actions; and where the
    script [xray_reality_qr] ends with the [ERROR:] line, for a missing
    file, a rejected configuration, a failed derivation or a missing
    package, [vpn_cli qr] ends with the same outputs and an exception that
    nothing catches. *)
Theorem cli_handler_misses_the_errors_of_the_script
    (env : option str) (args : XrayRealityQr.QrArgs) :
  (forall t e,
      VpnCli.script w env (VpnCli.Qr args) = (t, ErrorLine e) ->
      forallb download_event t = true
      /\ exists c, e = CliError c
                   /\ VpnCli._ensure_xray_available w env = (t, inl (CliError c)))
  /\ (forall env' td t e,
         VpnCli._ensure_xray_available w env = (td, inr env') ->
         XrayRealityQr.script w env' args = (t, ErrorLine e) ->
         VpnCli.script w env (VpnCli.Qr args) = (td ++ t, Traceback e)
         /\ exit_status (snd (XrayRealityQr.script w env' args)) = 2%Z
         /\ exit_status (snd (VpnCli.script w env (VpnCli.Qr args))) = 1%Z).
Proof.
  unfold VpnCli.script, XrayRealityQr.script, VpnCli.main.
  rewrite cmd_qr_from_main. split.
  - intros t e.
    destruct (VpnCli._ensure_xray_available w env) as [td [ee|env']] eqn:He;
      cbn [bind_io].
    + destruct (ensure_cases env)
        as [[He' _]|(_ & _ & t' & r' & He' & _ & Hev & _)];
        [congruence|].
      assert (t' = td) by congruence. subst t'.
      destruct ee as [q|c| | ]; try discriminate. intros E.
      assert (t = td) by congruence. assert (e = CliError c) by congruence.
      subst. split; [exact Hev|]. eauto.
    + pose proof (main_raises_no_cli_error w env' args) as Hn.
      destruct (XrayRealityQr.main w env' args) as [t' [[q|c| | ]|z]];
        try discriminate.
      exfalso. now apply (Hn c).
  - intros env' td t e ->. cbn [bind_io].
    destruct (XrayRealityQr.main w env' args) as [t' [[q|c| | ]|z]];
      try discriminate.
    intros E. assert (t' = t) by congruence.
    assert (e = QrUserError q) by congruence. subst. now repeat split.
Qed.

End CmdQr.

(* ================================================================= *)
(** ** Messages to Telegram *)

Section Telegram.
Import Programs Outputs.

Variable w : World.

Lemma urlencode_plus_none (query : list (str * str)) :
  urlencode_plus query = None
  <-> forallb (fun kv => forallb is_scalar (fst kv) && forallb is_scalar (snd kv))
              query = false.
Proof.
  unfold urlencode_plus.
  assert (H : urlencode_plus_items query = None
              <-> forallb (fun kv => forallb is_scalar (fst kv)
                                      && forallb is_scalar (snd kv)) query
                  = false).
  { induction query as [|[k v] query IH];
      cbn [urlencode_plus_items forallb fst snd].
    - split; discriminate.
    - destruct (quote_plus k) as [qk|] eqn:Hk.
      + assert (Hsk : forallb is_scalar k = true).
        { destruct (forallb is_scalar k) eqn:E; [reflexivity|].
          apply quote_plus_none in E. congruence. }
        rewrite Hsk. cbn [andb].
        destruct (quote_plus v) as [qv|] eqn:Hv.
        * assert (Hsv : forallb is_scalar v = true).
          { destruct (forallb is_scalar v) eqn:E; [reflexivity|].
            apply quote_plus_none in E. congruence. }
          rewrite Hsv. cbn [andb]. rewrite <- IH.
          destruct (urlencode_plus_items query);
            split; (reflexivity || discriminate).
        * apply quote_plus_none in Hv. rewrite Hv. split; reflexivity.
      + apply quote_plus_none in Hk. rewrite Hk. split; reflexivity. }
  destruct (urlencode_plus_items query); [|tauto].
  split; [discriminate|]. intros E. apply H in E. discriminate.
Qed.

(** [tg_send_message] raises before any request, or posts the request whose
    data is the encoded query. *)
Lemma tg_send_message_cases (bot_token chat_id text : str) :
  (urlencode_plus [ (py "chat_id", chat_id); (py "text", text) ] = None
   /\ VpnCli.tg_send_message w bot_token chat_id text
      = ([], inl UnicodeEncodeError))
  \/ (exists body,
         urlencode_plus [ (py "chat_id", chat_id); (py "text", text) ] = Some body
         /\ VpnCli.tg_send_message w bot_token chat_id text
            = VpnCli.with_urlopen w
                {| req_url := py "https://api.telegram.org/bot" ++ bot_token
                              ++ py "/sendMessage";
                   req_data := body;
                   req_method := py "POST";
                   req_headers := [] |} 20 SendMessageFailed).
Proof.
  unfold VpnCli.tg_send_message.
  destruct (urlencode_plus [ (py "chat_id", chat_id); (py "text", text) ])
    as [body|] eqn:Hq.
  - right. exists body. split; [reflexivity|].
    destruct (urlencode_plus_decode [ (py "chat_id", chat_id); (py "text", text) ]
                body ltac:(discriminate) Hq) as [He _].
    cbn beta iota delta [of_encoded bind_io ret]. rewrite He.
    cbn beta iota delta [of_encoded bind_io ret app].
    destruct (VpnCli.with_urlopen _ _ _ _) as [t r]. reflexivity.
  - left. split; reflexivity.
Qed.

(** X15: when chat id and text can be encoded, [tg_send_message] makes one
    request, a POST to the [sendMessage] address of the bot whose data, read
    as a form, are the chat id and the text as they were given; it returns
    when the response has a status below 300.  When one of them holds a
    surrogate, it raises [UnicodeEncodeError] and makes no request. *)
Theorem tg_send_message_posts_the_form (bot_token chat_id text : str) :
  (forallb is_scalar chat_id && forallb is_scalar text = true ->
   exists req,
     fst (VpnCli.tg_send_message w bot_token chat_id text) = [Requested req 20]
     /\ req_url req
        = py "https://api.telegram.org/bot" ++ bot_token ++ py "/sendMessage"
     /\ req_method req = py "POST"
     /\ form_decode (req_data req)
        = Some [ (py "chat_id", chat_id); (py "text", text) ]
     /\ (snd (VpnCli.tg_send_message w bot_token chat_id text) = inr tt
         <-> exists status, urlopen w req 20 = Responded status
                            /\ (status < 300)%Z))
  /\ (forallb is_scalar chat_id && forallb is_scalar text = false ->
      VpnCli.tg_send_message w bot_token chat_id text
      = ([], inl UnicodeEncodeError)).
Proof.
  assert (Hn : urlencode_plus [ (py "chat_id", chat_id); (py "text", text) ] = None
               <-> forallb is_scalar chat_id && forallb is_scalar text = false).
  { rewrite urlencode_plus_none. cbn [forallb fst snd].
    change (forallb is_scalar (py "chat_id")) with true.
    change (forallb is_scalar (py "text")) with true.
    cbn [andb]. now rewrite andb_true_r. }
  destruct (tg_send_message_cases bot_token chat_id text)
    as [[Hq ->]|[body [Hq ->]]].
  - apply Hn in Hq. split; [congruence | reflexivity].
  - split.
    + intros _.
      destruct (urlencode_plus_decode [ (py "chat_id", chat_id); (py "text", text) ]
                body ltac:(discriminate) Hq) as [_ Hd].
      eexists. destruct (with_urlopen_run w
        {| req_url := py "https://api.telegram.org/bot" ++ bot_token
                      ++ py "/sendMessage";
           req_data := body; req_method := py "POST"; req_headers := [] |}
        20 SendMessageFailed) as [Hf [Hs _]].
      split; [exact Hf|]. cbn [req_url req_method req_data].
      repeat split; try assumption; apply Hs.
    + intros H. apply Hn in H. congruence.
Qed.

End Telegram.

(* ================================================================= *)
(** ** [cmd_generate] *)

Section Generate.
Import Programs Outputs.

Variable w : World.

Lemma bind_io_quiet {A B : Type} (m : io A) (k : A -> io B) :
  fst m = [] -> (forall a, fst (k a) = []) -> fst (bind_io m k) = [].
Proof.
  destruct m as [t [e|a]]; cbn [fst bind_io]; intros -> Hk; [reflexivity|].
  specialize (Hk a). destruct (k a) as [t' r]. cbn [fst] in *. now subst.
Qed.

Lemma of_encoded_quiet {A : Type} (o : option A) : fst (of_encoded o) = [].
Proof. now destruct o. Qed.

Lemma multipart_files_quiet (files : list (str * str)) :
  fst (VpnCli.multipart_files w files) = [].
Proof.
  induction files as [|[name path] files IH]; [reflexivity|].
  cbn [VpnCli.multipart_files].
  repeat (apply bind_io_quiet; [try apply of_encoded_quiet|intros ?]);
    try reflexivity.
  - now destruct (read_bytes w path).
  - exact IH.
Qed.

Lemma multipart_form_quiet (fields files : list (str * str)) :
  fst (VpnCli._multipart_form w fields files) = [].
Proof.
  unfold VpnCli._multipart_form.
  repeat (apply bind_io_quiet; [try apply of_encoded_quiet|intros ?]);
    try reflexivity.
  apply multipart_files_quiet.
Qed.

Lemma tg_send_photo_trace (bot_token chat_id photo_path caption : str) :
  fst (VpnCli.tg_send_photo w bot_token chat_id photo_path caption) = []
  \/ exists req,
       fst (VpnCli.tg_send_photo w bot_token chat_id photo_path caption)
       = [Requested req 30]
       /\ req_url req
          = py "https://api.telegram.org/bot" ++ bot_token ++ py "/sendPhoto".
Proof.
  unfold VpnCli.tg_send_photo.
  pose proof (multipart_form_quiet
                [ (py "chat_id", chat_id); (py "caption", caption) ]
                [ (py "photo", photo_path) ]) as Hq.
  destruct (VpnCli._multipart_form w _ _) as [t [e|bb]]; cbn [fst] in Hq; subst t.
  - now left.
  - right. cbn beta iota delta [bind_io].
    match goal with
    | |- context [VpnCli.with_urlopen w ?r 30 SendPhotoFailed] =>
        destruct (with_urlopen_run w r 30 SendPhotoFailed) as [Hf _];
        destruct (VpnCli.with_urlopen w r 30 SendPhotoFailed) as [t' r'];
        exists r
    end.
    cbn [fst app] in *. now subst.
Qed.

(** What [cmd_generate] sends once it has the link: nothing, or the image,
    then the printed link when it is asked for and [print] succeeds, then
    the requests to Telegram; when [print] raises, nothing follows. *)
Lemma send_out_trace (args : VpnCli.GenerateArgs) (qr_path link : str) :
  fst (send_out w args qr_path link) = []
  \/ exists printed sent,
       fst (send_out w args qr_path link)
       = PngSaved link qr_path :: printed ++ sent
       /\ (printed = [] \/ printed = [Printed link])
       /\ (sent = []
           \/ (VpnCli.telegram_bot_token args <> []
               /\ VpnCli.telegram_chat_id args <> []
               /\ exists req photo,
                    sent = Requested req 20 :: photo
                    /\ req_url req
                       = py "https://api.telegram.org/bot"
                         ++ VpnCli.telegram_bot_token args ++ py "/sendMessage"
                    /\ req_method req = py "POST"
                    /\ form_decode (req_data req)
                       = Some [ (py "chat_id", VpnCli.telegram_chat_id args);
                                (py "text",
                                 py "VLESS Reality link:" ++ [10] ++ link) ]
                    /\ (photo = []
                        \/ exists req',
                             photo = [Requested req' 30]
                             /\ req_url req'
                                = py "https://api.telegram.org/bot"
                                  ++ VpnCli.telegram_bot_token args
                                  ++ py "/sendPhoto"))).
Proof.
  unfold send_out, XrayRealityQr.qr_png.
  destruct (qrcode_png w link qr_path); [|now left|now left].
  right. cbn beta iota delta [bind_io emit].
  set (text := py "VLESS Reality link:" ++ [10] ++ link).
  set (token := VpnCli.telegram_bot_token args).
  set (chat := VpnCli.telegram_chat_id args).
  assert (Htg :
    exists sent r,
      (if negb (is_empty token) && negb (is_empty chat)
       then VpnCli.tg_send_message w token chat text >>>
            VpnCli.tg_send_photo w token chat qr_path (py "VLESS Reality QR")
       else ret tt) = (sent, r)
      /\ (sent = []
          \/ (token <> [] /\ chat <> []
              /\ exists req photo,
                   sent = Requested req 20 :: photo
                   /\ req_url req
                      = py "https://api.telegram.org/bot" ++ token
                        ++ py "/sendMessage"
                   /\ req_method req = py "POST"
                   /\ form_decode (req_data req)
                      = Some [ (py "chat_id", chat); (py "text", text) ]
                   /\ (photo = []
                       \/ exists req',
                            photo = [Requested req' 30]
                            /\ req_url req'
                               = py "https://api.telegram.org/bot" ++ token
                                 ++ py "/sendPhoto")))).
  { destruct token as [|c0 token0] eqn:Ht; [do 2 eexists; split; [reflexivity|now left]|].
    destruct chat as [|c1 chat0] eqn:Hc; [do 2 eexists; split; [reflexivity|now left]|].
    cbn [is_empty negb andb]. rewrite <- Ht, <- Hc.
    destruct (tg_send_message_cases w token chat text)
      as [[_ ->]|[body [Hq ->]]].
    { do 2 eexists. split; [reflexivity|now left]. }
    destruct (urlencode_plus_decode [ (py "chat_id", chat); (py "text", text) ]
                body ltac:(discriminate) Hq) as [_ Hd].
    set (req := {| req_url := py "https://api.telegram.org/bot" ++ token
                              ++ py "/sendMessage";
                   req_data := body; req_method := py "POST";
                   req_headers := [] |}).
    destruct (with_urlopen_run w req 20 SendMessageFailed) as [Hf _].
    destruct (tg_send_photo_trace token chat qr_path (py "VLESS Reality QR"))
      as [Hp|[req' [Hp Hu]]].
    - destruct (VpnCli.with_urlopen w req 20 SendMessageFailed) as [t [e|[]]];
        cbn [fst] in Hf; subst t; cbn [bind_io].
      + do 2 eexists. split; [reflexivity|]. right.
        repeat split; try congruence. exists req, []. repeat split; auto.
      + destruct (VpnCli.tg_send_photo w token chat qr_path _) as [t' r'].
        cbn [fst] in Hp. subst t'.
        do 2 eexists. split; [reflexivity|]. right.
        repeat split; try congruence. exists req, []. repeat split; auto.
    - destruct (VpnCli.with_urlopen w req 20 SendMessageFailed) as [t [e|[]]];
        cbn [fst] in Hf; subst t; cbn [bind_io].
      + do 2 eexists. split; [reflexivity|]. right.
        repeat split; try congruence. exists req, []. repeat split; auto.
      + destruct (VpnCli.tg_send_photo w token chat qr_path _) as [t' r'].
        cbn [fst] in Hp. subst t'.
        do 2 eexists. split; [reflexivity|]. right.
        repeat split; try congruence. exists req, [Requested req' 30].
        repeat split; eauto. }
  destruct Htg as [sent [r [Htg Hsent]]].
  destruct (VpnCli.print_link args).
  - destruct (print_cases w link) as [[_ ->]|[_ [e [-> _]]]].
    + rewrite Htg. exists [Printed link], sent.
      split; [|split; [now right | exact Hsent]].
      destruct r; cbn [bind_io ret emit app fst]; rewrite ?app_nil_r; reflexivity.
    + exists [], []. split; [reflexivity|]. split; now left.
  - rewrite Htg. exists [], sent.
    split; [|split; [now left | exact Hsent]].
    destruct r; cbn [bind_io ret emit app fst]; rewrite ?app_nil_r; reflexivity.
Qed.

(** A run of [cmd_generate]: what [_ensure_xray_available] does, then the
    directory, the key file and its mode; when all that is done, the copy
    of the configuration, what is sent out for the link, and the unlinking
    of the key file. *)
Lemma cmd_generate_cases (env : option str) (args : VpnCli.GenerateArgs) :
  exists td,
    forallb download_event td = true
    /\ ((exists t e,
            VpnCli.cmd_generate w env args = (td ++ t, inl e)
            /\ forall ev, In ev t ->
                 ev = Fs (MakeDirs (VpnCli.out_dir args)) true
                 \/ ev = Fs (WriteKey (temp_name w)
                               (VpnCli.ssh_private_key args ++ [10])) true
                 \/ exists a, ev = Fs a false
                              /\ ((exists d, a = MakeDirs d)
                                  \/ (exists p c, a = WriteKey p c)
                                  \/ a = Chmod (temp_name w) 384))
        \/ (exists env' argv sent r,
               VpnCli._ensure_xray_available w env = (td, inr env')
               /\ VpnCli.cmd_generate w env args
                  = (td
                     ++ [ Fs (MakeDirs (VpnCli.out_dir args)) true;
                          Fs (WriteKey (temp_name w)
                                (VpnCli.ssh_private_key args ++ [10])) true;
                          Fs (Chmod (temp_name w) 384) true;
                          Called argv ]
                     ++ sent
                     ++ [ Fs (Unlink (temp_name w))
                            (fs_ok w (Unlink (temp_name w))) ],
                     r)
               /\ (sent = []
                   \/ exists link,
                        built_link w env'
                          (path_join w (VpnCli.out_dir args)
                             (py "server-config.json"))
                          (VpnCli.inbound_index args) (VpnCli.server args)
                          (VpnCli.name args) (VpnCli.fp args) link
                        /\ sent = fst (send_out w args
                                         (path_join w (VpnCli.out_dir args)
                                            (VpnCli.out_png args)) link)))).
Proof.
  unfold VpnCli.cmd_generate.
  assert (He : exists td r,
             VpnCli._ensure_xray_available w env = (td, r)
             /\ forallb download_event td = true).
  { destruct (ensure_cases w env)
      as [[H _]|(_ & _ & t & r & H & _ & Hev & _)]; eauto. }
  destruct He as (td & r0 & He & Hev). exists td. split; [exact Hev|].
  rewrite He. destruct r0 as [e|env'].
  { left. exists [], e. split; [now rewrite app_nil_r|]. intros ev []. }
  cbn beta iota delta [bind_io]. unfold fs.
  destruct (fs_ok w (MakeDirs (VpnCli.out_dir args))).
  2:{ left. do 2 eexists. split; [reflexivity|]. intros ev [<-|[]].
      do 2 right. eexists. split; [reflexivity|]. left. eauto. }
  cbn beta iota delta [bind_io emit].
  destruct (fs_ok w (WriteKey _ _)).
  2:{ left. do 2 eexists. split; [reflexivity|].
      intros ev [<-|[<-|[]]]; [now left|].
      do 2 right. eexists. split; [reflexivity|]. right. left. eauto. }
  cbn beta iota delta [bind_io emit].
  destruct (fs_ok w (Chmod _ _)).
  2:{ left. do 2 eexists. split; [reflexivity|].
      intros ev [<-|[<-|[<-|[]]]]; [now left | now right; left|].
      do 2 right. eexists. split; [reflexivity|]. now do 2 right. }
  cbn beta iota delta [bind_io emit].
  right. exists env'.
  unfold try_finally, VpnCli.scp_download, VpnCli.run.
  cbn beta iota delta [bind_io emit].
  match goal with
  | |- context [subprocess_run w ?a] =>
      exists a; destruct (subprocess_run w a) as [| |rc out]
  end.
  { exists [], (inl OtherException). split; [reflexivity|].
    split; [reflexivity | now left]. }
  { exists [], (inl OtherException). split; [reflexivity|].
    split; [reflexivity | now left]. }
  destruct (rc =? 0)%Z; cbn [negb].
  2:{ eexists [], _. split; [reflexivity|]. split; [reflexivity | now left]. }
  cbn beta iota delta [bind_io ret].
  pose proof (steps_then w env'
                (path_join w (VpnCli.out_dir args) (py "server-config.json"))
                (VpnCli.inbound_index args) (VpnCli.server args)
                (VpnCli.name args) (VpnCli.fp args)
                (send_out w args
                   (path_join w (VpnCli.out_dir args) (VpnCli.out_png args))))
    as Hst.
  unfold send_out at 1 in Hst. rewrite Hst. clear Hst.
  destruct (link_of_config_cases w env'
              (path_join w (VpnCli.out_dir args) (py "server-config.json"))
              (VpnCli.inbound_index args) (VpnCli.server args)
              (VpnCli.name args) (VpnCli.fp args))
    as [[link [Hb ->]]|[e [-> _]]].
  - cbn beta iota delta [bind_io].
    destruct (send_out w args _ link) as [t r] eqn:Hso.
    exists t, r. split; [reflexivity|]. split; [reflexivity|].
    right. exists link. split; [exact Hb|]. now rewrite Hso.
  - exists [], (inl e). split; [reflexivity|].
    split; [reflexivity | now left].
Qed.

Lemma startswith_app_inv (pat s : str) :
  startswith pat s = true -> exists rest, s = pat ++ rest.
Proof.
  revert s. induction pat as [|p pat IH]; intros s H; [now exists s|].
  destruct s as [|x s]; [discriminate|].
  apply startswith_cons in H as [-> H].
  destruct (IH s H) as [rest ->]. now exists rest.
Qed.

(** A request to Telegram is none of the download's. *)
Lemma telegram_not_download (req : Request) (timeout : Z) :
  to_telegram req = true -> download_event (Requested req timeout) = false.
Proof.
  unfold to_telegram. intros H.
  apply startswith_app_inv in H as [rest H].
  cbn [download_event]. rewrite H. reflexivity.
Qed.

Lemma download_is_not_telegram (td : list event) (req : Request) (timeout : Z) :
  forallb download_event td = true ->
  In (Requested req timeout) td ->
  download_event (Requested req timeout) = true /\ to_telegram req = false.
Proof.
  intros Hev Hin. rewrite forallb_forall in Hev. apply Hev in Hin.
  split; [exact Hin|]. destruct (to_telegram req) eqn:Ht; [|reflexivity].
  apply (telegram_not_download req timeout) in Ht. congruence.
Qed.

Lemma message_address_is_telegram (req : Request) (token tail : str) :
  req_url req = py "https://api.telegram.org/bot" ++ token ++ tail ->
  to_telegram req = true.
Proof. unfold to_telegram. intros ->. reflexivity. Qed.

Lemma in_printed (ev : event) (printed : list event) (link : str) :
  printed = [] \/ printed = [Printed link] -> In ev printed -> ev = Printed link.
Proof. intros [->| ->]; [intros [] | intros [<-|[]]; reflexivity]. Qed.

(** X21: every request of a run of [cmd_generate] goes to Telegram or is
    one of the download of [xray] to GitHub.  A request to Telegram is made
    only when the bot token and the chat id are both non-empty, and only
    after the image of the link was saved: no request to Telegram comes
    before it. *)
Theorem requests_need_credentials_and_the_image
    (env : option str) (args : VpnCli.GenerateArgs)
    (req : Request) (timeout : Z) :
  In (Requested req timeout) (fst (VpnCli.cmd_generate w env args)) ->
  (to_telegram req = true \/ download_event (Requested req timeout) = true)
  /\ (to_telegram req = true ->
      VpnCli.telegram_bot_token args <> []
      /\ VpnCli.telegram_chat_id args <> []
      /\ exists link before after,
           fst (VpnCli.cmd_generate w env args)
           = before
             ++ PngSaved link
                  (path_join w (VpnCli.out_dir args) (VpnCli.out_png args))
             :: after
           /\ In (Requested req timeout) after
           /\ forall r t, In (Requested r t) before -> to_telegram r = false).
Proof.
  destruct (cmd_generate_cases env args)
    as (td & Hev
        & [(t & e & -> & Ht)|(env' & argv & sent & r & _ & -> & Hsent)]);
    cbn [fst]; intros Hin.
  { apply in_app_or in Hin as [Hin|Hin].
    - destruct (download_is_not_telegram td req timeout Hev Hin) as [Hd Hn].
      split; [now right | congruence].
    - apply Ht in Hin as [H|[H|[a [H _]]]]; discriminate. }
  apply in_app_or in Hin as [Hin|Hin].
  { destruct (download_is_not_telegram td req timeout Hev Hin) as [Hd Hn].
    split; [now right | congruence]. }
  cbn [app] in Hin.
  destruct Hin as [H|[H|[H|[H|Hin]]]]; try discriminate.
  apply in_app_or in Hin as [Hin|[H|[]]]; [|discriminate].
  destruct Hsent as [->|[link [_ ->]]]; [destruct Hin|].
  destruct (send_out_trace args
              (path_join w (VpnCli.out_dir args) (VpnCli.out_png args)) link)
    as [Hs|(printed & sent & Hs & Hpr & Htg)]; rewrite Hs in *; [destruct Hin|].
  destruct Hin as [H|Hin]; [discriminate|].
  apply in_app_or in Hin as [Hin|Hin];
    [apply (in_printed _ _ link Hpr) in Hin; discriminate|].
  destruct Htg as [->|(Htok & Hchat & req0 & photo & -> & Hurl & _ & _ & Hphoto)];
    [destruct Hin|].
  assert (Htel : to_telegram req = true).
  { destruct Hin as [H|Hin].
    - assert (req0 = req) by congruence. subst.
      exact (message_address_is_telegram _ _ _ Hurl).
    - destruct Hphoto as [->|[req' [-> Hurl']]]; [destruct Hin|].
      destruct Hin as [H|[]]. assert (req' = req) by congruence. subst.
      exact (message_address_is_telegram _ _ _ Hurl'). }
  split; [now left|]. intros _.
  split; [exact Htok|]. split; [exact Hchat|].
  eexists link, (td ++ [_; _; _; _]), _. split; [|split].
  - rewrite <- app_assoc. cbn [app]. reflexivity.
  - apply in_or_app. left. apply in_or_app. right. exact Hin.
  - intros r0 t0 Hin0. apply in_app_or in Hin0 as [Hin0|Hin0].
    + now destruct (download_is_not_telegram td r0 t0 Hev Hin0).
    + destruct Hin0 as [H|[H|[H|[H|[]]]]]; discriminate.
Qed.

Lemma addresses_differ (token : str) :
  py "https://api.telegram.org/bot" ++ token ++ py "/sendPhoto"
  <> py "https://api.telegram.org/bot" ++ token ++ py "/sendMessage".
Proof.
  intros H. apply app_inv_head in H. apply app_inv_head in H. discriminate.
Qed.

(** X22: the request of a run of [cmd_generate] to the [sendMessage]
    address of the bot is a POST made with a timeout of 20 whose data, read
    as a form, are the chat id and the text ["VLESS Reality link:"], a
    newline, and the link whose image was saved in that run. *)
Theorem message_carries_the_saved_link
    (env : option str) (args : VpnCli.GenerateArgs)
    (req : Request) (timeout : Z) :
  In (Requested req timeout) (fst (VpnCli.cmd_generate w env args)) ->
  req_url req
  = py "https://api.telegram.org/bot" ++ VpnCli.telegram_bot_token args
    ++ py "/sendMessage" ->
  timeout = 20%Z
  /\ req_method req = py "POST"
  /\ exists link,
       In (PngSaved link (path_join w (VpnCli.out_dir args) (VpnCli.out_png args)))
          (fst (VpnCli.cmd_generate w env args))
       /\ form_decode (req_data req)
          = Some [ (py "chat_id", VpnCli.telegram_chat_id args);
                   (py "text", py "VLESS Reality link:" ++ [10] ++ link) ].
Proof.
  intros Hin Haddr.
  pose proof (message_address_is_telegram _ _ _ Haddr) as Htel.
  revert Hin.
  destruct (cmd_generate_cases env args)
    as (td & Hev
        & [(t & e & -> & Ht)|(env' & argv & sent & r & _ & -> & Hsent)]);
    cbn [fst]; intros Hin.
  { apply in_app_or in Hin as [Hin|Hin].
    - destruct (download_is_not_telegram td req timeout Hev Hin). congruence.
    - apply Ht in Hin as [H|[H|[a [H _]]]]; discriminate. }
  apply in_app_or in Hin as [Hin|Hin].
  { destruct (download_is_not_telegram td req timeout Hev Hin). congruence. }
  cbn [app] in Hin.
  destruct Hin as [H|[H|[H|[H|Hin]]]]; try discriminate.
  apply in_app_or in Hin as [Hin|[H|[]]]; [|discriminate].
  destruct Hsent as [->|[link [_ ->]]]; [destruct Hin|].
  destruct (send_out_trace args
              (path_join w (VpnCli.out_dir args) (VpnCli.out_png args)) link)
    as [Hs|(printed & sent & Hs & Hpr & Htg)]; rewrite Hs in *; [destruct Hin|].
  destruct Hin as [H|Hin]; [discriminate|].
  apply in_app_or in Hin as [Hin|Hin];
    [apply (in_printed _ _ link Hpr) in Hin; discriminate|].
  destruct Htg
    as [->|(_ & _ & req0 & photo & -> & Hurl & Hmeth & Hdec & Hphoto)];
    [destruct Hin|].
  destruct Hin as [H|Hin].
  - assert (req0 = req) by congruence. assert (timeout = 20%Z) by congruence.
    subst. split; [reflexivity|]. split; [exact Hmeth|].
    exists link. split; [|exact Hdec].
    apply in_or_app. right. cbn [app]. do 4 right. now left.
  - destruct Hphoto as [->|[req' [-> Hurl']]]; [destruct Hin|].
    destruct Hin as [H|[]]. assert (req' = req) by congruence. subst.
    exfalso. apply (addresses_differ (VpnCli.telegram_bot_token args)).
    congruence.
Qed.

(** X23: once [cmd_generate] has written the key file and set its mode,
    the last thing the run does, whether it returns or raises, is to unlink
    that file; and it unlinks nothing else, and nothing before that. *)
Theorem key_file_is_unlinked_at_the_end
    (env : option str) (args : VpnCli.GenerateArgs) :
  (In (Fs (Chmod (temp_name w) 384) true) (fst (VpnCli.cmd_generate w env args)) ->
   exists before,
     fst (VpnCli.cmd_generate w env args)
     = before ++ [ Fs (Unlink (temp_name w)) (fs_ok w (Unlink (temp_name w))) ]
     /\ In (Fs (WriteKey (temp_name w) (VpnCli.ssh_private_key args ++ [10])) true)
           before
     /\ forall p ok, ~ In (Fs (Unlink p) ok) before)
  /\ (forall p ok,
         In (Fs (Unlink p) ok) (fst (VpnCli.cmd_generate w env args)) ->
         p = temp_name w
         /\ In (Fs (Chmod (temp_name w) 384) true)
               (fst (VpnCli.cmd_generate w env args))).
Proof.
  destruct (cmd_generate_cases env args)
    as (td & Hev
        & [(t & e & -> & Ht)|(env' & argv & sent & r & _ & -> & Hsent)]);
    cbn [fst].
  all: assert (Htd : forall ev, In ev td -> download_event ev = true)
         by (now apply forallb_forall).
  { split.
    - intros Hin. apply in_app_or in Hin as [Hin|Hin].
      + apply Htd in Hin. discriminate.
      + apply Ht in Hin as [H|[H|[a [H _]]]]; discriminate.
    - intros p ok Hin. apply in_app_or in Hin as [Hin|Hin].
      + apply Htd in Hin. discriminate.
      + apply Ht in Hin as [H|[H|[a [H Ha]]]]; try discriminate.
        exfalso. assert (a = Unlink p) by congruence. subst a.
        destruct Ha as [[d Ha]|[[q [c Ha]]|Ha]]; discriminate. }
  assert (Hnone : forall p ok, ~ In (Fs (Unlink p) ok) sent).
  { intros p ok Hin.
    destruct Hsent as [->|[link [_ ->]]]; [destruct Hin|].
    destruct (send_out_trace args
                (path_join w (VpnCli.out_dir args) (VpnCli.out_png args)) link)
      as [Hs|(printed & sent & Hs & Hpr & Htg)]; rewrite Hs in *; [destruct Hin|].
    destruct Hin as [H|Hin]; [discriminate|].
    apply in_app_or in Hin as [Hin|Hin];
      [apply (in_printed _ _ link Hpr) in Hin; discriminate|].
    destruct Htg as [->|(_ & _ & req0 & photo & -> & _ & _ & _ & Hphoto)];
      [destruct Hin|].
    destruct Hin as [H|Hin]; [discriminate|].
    destruct Hphoto as [->|[req' [-> _]]]; [destruct Hin|].
    destruct Hin as [H|[]]. discriminate. }
  split.
  - intros _. eexists (td ++ [_; _; _; _] ++ sent).
    split; [rewrite <- app_assoc; reflexivity|].
    split.
    + apply in_or_app. right. cbn [app]. right. left. reflexivity.
    + intros p ok Hin. apply in_app_or in Hin as [Hin|Hin].
      * apply Htd in Hin. discriminate.
      * cbn [app] in Hin.
        destruct Hin as [H|[H|[H|[H|Hin]]]]; try discriminate.
        now apply (Hnone p ok).
  - intros p ok Hin. apply in_app_or in Hin as [Hin|Hin].
    { apply Htd in Hin. discriminate. }
    cbn [app] in Hin.
    destruct Hin as [H|[H|[H|[H|Hin]]]]; try discriminate.
    apply in_app_or in Hin as [Hin|[H|[]]]; [now apply Hnone in Hin|].
    split; [congruence|]. apply in_or_app. right. cbn [app].
    do 2 right. left. reflexivity.
Qed.

End Generate.

(* ================================================================= *)
(** ** The programs on the sample worlds *)

Section SampleRunFacts.
Import Programs Outputs SampleRuns.

Example sample_dry_run :
  XrayRealityQr.main sample_world None (sample_qr_args true true)
  = ([Printed sample_link], inr 0%Z).
Proof. vm_compute. reflexivity. Qed.

Example sample_full_run :
  XrayRealityQr.main sample_world None (sample_qr_args false true)
  = ([PngSaved sample_link (py "vless.png"); Printed sample_link;
      QrPrinted sample_link], inr 0%Z).
Proof. vm_compute. reflexivity. Qed.

Example sample_mute_run :
  XrayRealityQr.main mute_world None (sample_qr_args false true)
  = ([PngSaved sample_link (py "vless.png")], inl OtherException)
  /\ XrayRealityQr.main mute_world None (sample_qr_args true true)
     = ([], inl OtherException).
Proof. split; vm_compute; reflexivity. Qed.

Example sample_missing_config :
  XrayRealityQr.script bare_world None (sample_qr_args false true)
  = ([], ErrorLine (QrUserError (ConfigFileNotFound (py "config.json"))))
  /\ VpnCli.script bare_world (Some (py "/opt/xray")) (VpnCli.Qr (sample_qr_args false true))
     = ([], Traceback (QrUserError (ConfigFileNotFound (py "config.json")))).
Proof. split; vm_compute; reflexivity. Qed.

Example sample_download_run :
  VpnCli.cmd_qr download_world None (sample_qr_args true true)
  = ([ Fs (MakeTempDir (py "xray-bin-") (py "/tmp/xray-bin-0")) true;
       Requested sample_release_query 20;
       Requested sample_zip_request 60;
       Fs (WriteBytes (py "/tmp/xray-bin-0/xray.zip") [80; 75; 3; 4]) true;
       Fs (ExtractMember (py "/tmp/xray-bin-0/xray.zip") (py "xray")
             (py "/tmp/xray-bin-0")) true;
       Fs (Chmod (py "/tmp/xray-bin-0/xray") 493) true;
       Printed sample_link ], inr 0%Z).
Proof. vm_compute. reflexivity. Qed.

Example sample_refused_download :
  VpnCli.script bare_world None (VpnCli.Qr (sample_qr_args true true))
  = ([ Fs (MakeTempDir (py "xray-bin-") (py "/tmp/xray-bin-0")) true;
       Requested sample_release_query 20 ],
     ErrorLine (CliError (ReleaseQueryFailed 403))).
Proof. vm_compute. reflexivity. Qed.

Example sample_generate_run :
  exists photo,
    VpnCli.cmd_generate sample_world None sample_generate_args
    = ([ Fs (MakeDirs (py "generated")) true;
         Fs (WriteKey (py "/tmp/tmpkey") (py "KEY" ++ [10])) true;
         Fs (Chmod (py "/tmp/tmpkey") 384) true;
         Called [ py "scp"; py "-i"; py "/tmp/tmpkey";
                  py "-o"; py "StrictHostKeyChecking=no";
                  py "-o"; py "UserKnownHostsFile=/dev/null";
                  py "-o"; py "ConnectTimeout=10";
                  py "root@1.2.3.4:/etc/xray/config.json";
                  py "generated/server-config.json" ];
         PngSaved sample_link (py "generated/vless.png");
         Printed sample_link;
         Requested sample_message 20;
         Requested photo 30;
         Fs (Unlink (py "/tmp/tmpkey")) true ], inr 0%Z).
Proof. eexists. vm_compute. reflexivity. Qed.

Lemma dry_run_prints_the_link_or_nothing_witness :
  XrayRealityQr.dry_run (sample_qr_args true true) = true
  /\ ((exists link,
          built_link sample_world None
            (XrayRealityQr.config (sample_qr_args true true))
            (XrayRealityQr.inbound_index (sample_qr_args true true))
            (XrayRealityQr.server (sample_qr_args true true))
            (XrayRealityQr.name (sample_qr_args true true))
            (XrayRealityQr.fp (sample_qr_args true true)) link
          /\ XrayRealityQr.main sample_world None (sample_qr_args true true)
             = ([Printed link], inr 0%Z))
      \/ (exists e,
             XrayRealityQr.main sample_world None (sample_qr_args true true)
             = ([], inl e))).
Proof.
  split; [reflexivity|].
  apply (dry_run_prints_the_link_or_nothing sample_world None
           (sample_qr_args true true)).
  reflexivity.
Defined.

Lemma outputs_follow_the_image_witness :
  XrayRealityQr.dry_run (sample_qr_args false true) = false
  /\ (fst (XrayRealityQr.main mute_world None (sample_qr_args false true)) = []
      \/ exists link,
           built_link mute_world None
             (XrayRealityQr.config (sample_qr_args false true))
             (XrayRealityQr.inbound_index (sample_qr_args false true))
             (XrayRealityQr.server (sample_qr_args false true))
             (XrayRealityQr.name (sample_qr_args false true))
             (XrayRealityQr.fp (sample_qr_args false true)) link
           /\ qrcode_png mute_world link
                (XrayRealityQr.out (sample_qr_args false true)) = QrDone
           /\ let drawn :=
                if XrayRealityQr.print_qr (sample_qr_args false true)
                then match qrcode_ansi mute_world link with
                     | QrDone => [QrPrinted link]
                     | _ => []
                     end
                else [] in
              if XrayRealityQr.print_link (sample_qr_args false true)
              then match print_line mute_world link with
                   | PrintDone =>
                       fst (XrayRealityQr.main mute_world None
                              (sample_qr_args false true))
                       = PngSaved link
                           (XrayRealityQr.out (sample_qr_args false true))
                         :: Printed link :: drawn
                   | PrintEncodeFailed =>
                       XrayRealityQr.main mute_world None
                         (sample_qr_args false true)
                       = ([PngSaved link
                             (XrayRealityQr.out (sample_qr_args false true))],
                          inl UnicodeEncodeError)
                   | PrintFailed =>
                       XrayRealityQr.main mute_world None
                         (sample_qr_args false true)
                       = ([PngSaved link
                             (XrayRealityQr.out (sample_qr_args false true))],
                          inl OtherException)
                   end
              else fst (XrayRealityQr.main mute_world None
                          (sample_qr_args false true))
                   = PngSaved link
                       (XrayRealityQr.out (sample_qr_args false true))
                     :: drawn).
Proof.
  split; [reflexivity|].
  apply (outputs_follow_the_image mute_world None (sample_qr_args false true)).
  reflexivity.
Defined.

Lemma sample_ensure_downloads :
  VpnCli._ensure_xray_available download_world None
  = ([ Fs (MakeTempDir (py "xray-bin-") (py "/tmp/xray-bin-0")) true;
       Requested sample_release_query 20;
       Requested sample_zip_request 60;
       Fs (WriteBytes (py "/tmp/xray-bin-0/xray.zip") [80; 75; 3; 4]) true;
       Fs (ExtractMember (py "/tmp/xray-bin-0/xray.zip") (py "xray")
             (py "/tmp/xray-bin-0")) true;
       Fs (Chmod (py "/tmp/xray-bin-0/xray") 493) true ],
     inr (Some (py "/tmp/xray-bin-0/xray"))).
Proof. vm_compute. reflexivity. Qed.

Lemma cmd_qr_runs_main_with_ensured_xray_witness :
  blank_variable None = true
  /\ truthy (which_xray download_world) = false
  /\ Some (py "/tmp/xray-bin-0/xray")
     = Some (path_join download_world (temp_dir download_world) (py "xray"))
  /\ VpnCli.cmd_qr download_world None (sample_qr_args false true)
     = ([ Fs (MakeTempDir (py "xray-bin-") (py "/tmp/xray-bin-0")) true;
          Requested sample_release_query 20;
          Requested sample_zip_request 60;
          Fs (WriteBytes (py "/tmp/xray-bin-0/xray.zip") [80; 75; 3; 4]) true;
          Fs (ExtractMember (py "/tmp/xray-bin-0/xray.zip") (py "xray")
                (py "/tmp/xray-bin-0")) true;
          Fs (Chmod (py "/tmp/xray-bin-0/xray") 493) true ]
        ++ fst (XrayRealityQr.main download_world
                  (Some (py "/tmp/xray-bin-0/xray")) (sample_qr_args false true)),
        snd (XrayRealityQr.main download_world
               (Some (py "/tmp/xray-bin-0/xray")) (sample_qr_args false true))).
Proof.
  assert (H1 : blank_variable None = true) by reflexivity.
  assert (H2 : truthy (which_xray download_world) = false) by reflexivity.
  split; [exact H1|]. split; [exact H2|].
  destruct (proj1 (proj2 (cmd_qr_runs_main_with_ensured_xray download_world None
                            (sample_qr_args false true)))
              H1 H2 _ _ sample_ensure_downloads) as [Hp [_ Hq]].
  split; [exact Hp | exact Hq].
Defined.

Lemma blank_XRAY_BIN_is_run_as_the_program_witness :
  is_empty (strip (py " ")) = true
  /\ is_empty (strip []) = true
  /\ truthy (which_xray sample_world) = true
  /\ read_json sample_world (XrayRealityQr.config (sample_qr_args true true))
     = Loaded (JObject sample_cfg)
  /\ _select_inbound sample_cfg
       (XrayRealityQr.inbound_index (sample_qr_args true true))
     = Ok sample_record
  /\ subprocess_run sample_world
       [py " "; py "x25519"; py "-i"; private_key sample_record] = FileNotFound
  /\ subprocess_run sample_world
       [[]; py "x25519"; py "-i"; private_key sample_record] = OtherError
  /\ VpnCli.cmd_qr sample_world (Some (py " ")) (sample_qr_args true true)
     = ([], inl (QrUserError (Core XrayNotFound)))
  /\ VpnCli.cmd_qr sample_world (Some []) (sample_qr_args true true)
     = ([], inl OtherException)
  /\ VpnCli.cmd_qr sample_world None (sample_qr_args true true)
     = ([Printed sample_link], inr 0%Z).
Proof.
  assert (H1 : is_empty (strip (py " ")) = true) by reflexivity.
  assert (H1' : is_empty (strip []) = true) by reflexivity.
  assert (H2 : truthy (which_xray sample_world) = true) by reflexivity.
  assert (H3 : read_json sample_world
                 (XrayRealityQr.config (sample_qr_args true true))
               = Loaded (JObject sample_cfg)) by reflexivity.
  assert (H4 : _select_inbound sample_cfg
                 (XrayRealityQr.inbound_index (sample_qr_args true true))
               = Ok sample_record) by (vm_compute; reflexivity).
  assert (H5 : subprocess_run sample_world
                 [py " "; py "x25519"; py "-i"; private_key sample_record]
               = FileNotFound) by reflexivity.
  assert (H6 : subprocess_run sample_world
                 [[]; py "x25519"; py "-i"; private_key sample_record]
               = OtherError) by reflexivity.
  repeat (split; [assumption|]).
  split; [|split; [|vm_compute; reflexivity]].
  - exact (proj1 (proj2 (proj2
             (blank_XRAY_BIN_is_run_as_the_program sample_world (py " ")
                (sample_qr_args true true) sample_cfg sample_record
                H1 H2 H3 H4))) H5).
  - exact (proj2 (proj2 (proj2
             (blank_XRAY_BIN_is_run_as_the_program sample_world []
                (sample_qr_args true true) sample_cfg sample_record
                H1' H2 H3 H4))) H6).
Defined.

Lemma cli_handler_misses_the_errors_of_the_script_witness :
  VpnCli._ensure_xray_available bare_world (Some (py "/opt/xray"))
  = ([], inr (Some (py "/opt/xray")))
  /\ XrayRealityQr.script bare_world (Some (py "/opt/xray"))
       (sample_qr_args false true)
     = ([], ErrorLine (QrUserError (ConfigFileNotFound (py "config.json"))))
  /\ VpnCli.script bare_world (Some (py "/opt/xray"))
       (VpnCli.Qr (sample_qr_args false true))
     = ([] ++ [], Traceback (QrUserError (ConfigFileNotFound (py "config.json"))))
  /\ exit_status (snd (XrayRealityQr.script bare_world (Some (py "/opt/xray"))
                         (sample_qr_args false true))) = 2%Z
  /\ exit_status (snd (VpnCli.script bare_world (Some (py "/opt/xray"))
                         (VpnCli.Qr (sample_qr_args false true)))) = 1%Z.
Proof.
  assert (H1 : VpnCli._ensure_xray_available bare_world (Some (py "/opt/xray"))
               = ([], inr (Some (py "/opt/xray")))) by reflexivity.
  assert (H2 : XrayRealityQr.script bare_world (Some (py "/opt/xray"))
                 (sample_qr_args false true)
               = ([], ErrorLine (QrUserError (ConfigFileNotFound (py "config.json")))))
    by reflexivity.
  split; [exact H1|]. split; [exact H2|].
  exact (proj2 (cli_handler_misses_the_errors_of_the_script bare_world
                  (Some (py "/opt/xray")) (sample_qr_args false true))
           _ _ _ _ H1 H2).
Defined.

Lemma tg_send_message_posts_the_form_witness :
  forallb is_scalar (py "@chan") && forallb is_scalar (py "a b+c") = true
  /\ exists req,
       fst (VpnCli.tg_send_message sample_world (py "123:abc") (py "@chan")
              (py "a b+c")) = [Requested req 20]
       /\ req_url req
          = py "https://api.telegram.org/bot" ++ py "123:abc" ++ py "/sendMessage"
       /\ req_method req = py "POST"
       /\ form_decode (req_data req)
          = Some [ (py "chat_id", py "@chan"); (py "text", py "a b+c") ]
       /\ (snd (VpnCli.tg_send_message sample_world (py "123:abc") (py "@chan")
                  (py "a b+c")) = inr tt
           <-> exists status, urlopen sample_world req 20 = Responded status
                              /\ (status < 300)%Z).
Proof.
  assert (H : forallb is_scalar (py "@chan") && forallb is_scalar (py "a b+c")
              = true) by reflexivity.
  split; [exact H|].
  exact (proj1 (tg_send_message_posts_the_form sample_world (py "123:abc")
                  (py "@chan") (py "a b+c")) H).
Defined.

Lemma sample_message_is_sent :
  In (Requested sample_message 20)
     (fst (VpnCli.cmd_generate download_world None sample_generate_args)).
Proof. vm_compute. do 12 right. left. reflexivity. Qed.

Lemma sample_message_is_to_telegram : to_telegram sample_message = true.
Proof. reflexivity. Qed.

Lemma requests_need_credentials_and_the_image_witness :
  In (Requested sample_message 20)
     (fst (VpnCli.cmd_generate download_world None sample_generate_args))
  /\ to_telegram sample_message = true
  /\ VpnCli.telegram_bot_token sample_generate_args <> []
  /\ VpnCli.telegram_chat_id sample_generate_args <> []
  /\ exists link before after,
       fst (VpnCli.cmd_generate download_world None sample_generate_args)
       = before
         ++ PngSaved link (path_join download_world
                             (VpnCli.out_dir sample_generate_args)
                             (VpnCli.out_png sample_generate_args))
         :: after
       /\ In (Requested sample_message 20) after
       /\ forall r t, In (Requested r t) before -> to_telegram r = false.
Proof.
  split; [exact sample_message_is_sent|].
  split; [exact sample_message_is_to_telegram|].
  exact (proj2 (requests_need_credentials_and_the_image download_world None
                  sample_generate_args sample_message 20 sample_message_is_sent)
           sample_message_is_to_telegram).
Defined.

Lemma sample_message_address :
  req_url sample_message
  = py "https://api.telegram.org/bot"
    ++ VpnCli.telegram_bot_token sample_generate_args ++ py "/sendMessage".
Proof. reflexivity. Qed.

Lemma message_carries_the_saved_link_witness :
  In (Requested sample_message 20)
     (fst (VpnCli.cmd_generate download_world None sample_generate_args))
  /\ req_url sample_message
     = py "https://api.telegram.org/bot"
       ++ VpnCli.telegram_bot_token sample_generate_args ++ py "/sendMessage"
  /\ 20%Z = 20%Z
  /\ req_method sample_message = py "POST"
  /\ exists link,
       In (PngSaved link (path_join download_world
                            (VpnCli.out_dir sample_generate_args)
                            (VpnCli.out_png sample_generate_args)))
          (fst (VpnCli.cmd_generate download_world None sample_generate_args))
       /\ form_decode (req_data sample_message)
          = Some [ (py "chat_id", VpnCli.telegram_chat_id sample_generate_args);
                   (py "text", py "VLESS Reality link:" ++ [10] ++ link) ].
Proof.
  split; [exact sample_message_is_sent|].
  split; [exact sample_message_address|].
  exact (message_carries_the_saved_link download_world None
           sample_generate_args sample_message 20 sample_message_is_sent
           sample_message_address).
Defined.

Lemma sample_mode_is_set :
  In (Fs (Chmod (temp_name sample_world) 384) true)
     (fst (VpnCli.cmd_generate sample_world None sample_generate_args)).
Proof. vm_compute. do 2 right. left. reflexivity. Qed.

Lemma key_file_is_unlinked_at_the_end_witness :
  In (Fs (Chmod (temp_name sample_world) 384) true)
     (fst (VpnCli.cmd_generate sample_world None sample_generate_args))
  /\ exists before,
       fst (VpnCli.cmd_generate sample_world None sample_generate_args)
       = before ++ [ Fs (Unlink (temp_name sample_world))
                       (fs_ok sample_world (Unlink (temp_name sample_world))) ]
       /\ In (Fs (WriteKey (temp_name sample_world)
                    (VpnCli.ssh_private_key sample_generate_args ++ [10])) true)
             before
       /\ forall p ok, ~ In (Fs (Unlink p) ok) before.
Proof.
  split; [exact sample_mode_is_set|].
  exact (proj1 (key_file_is_unlinked_at_the_end sample_world None
                  sample_generate_args) sample_mode_is_set).
Defined.

End SampleRunFacts.
